(** * Kirana store data generator: a shallow embedding and its properties

    The development follows [kirana_data_generator.py]: the calendar filter
    [generate_dates], the catalog generator [generate_products], the
    transaction generator [generate_transactions] and the expense generator
    [generate_expenses].

    Modelling conventions.
    - A naive [datetime] is a proleptic Gregorian ordinal (as returned by
      [toordinal()]) together with the time of day in microseconds; the
      comparison is lexicographic, as for Python's naive datetimes.
    - Python floats are modelled by exact rationals ([Q]); [round(x, 2)] is
      rounding to the nearest hundredth, ties to even.  Binary
      representation error is outside the model: where a value lies exactly
      halfway between two hundredths, the code rounds the binary float next
      to it and may return either neighbour.  The properties of rounded
      values are therefore stated as bounds and as nearness to the value
      rounded, which hold for either neighbour, never as the choice made at
      a tie.
    - A [pandas.DataFrame] built from a list of dicts is the list of its
      rows, each row a record; the empty list is the frame without rows and
      without columns that [pd.DataFrame([])] builds.
    - Logging and the CSV files written by [main] are not modelled.
    - The [random] module and the [Faker] instance are two state-passing
      sources; exceptions are the left summand of the result. *)

From Stdlib Require Import ZArith QArith Qround Qabs List Sorted String Ascii Bool Lia Lqa.
Import ListNotations.
Local Open Scope Z_scope.

Set Implicit Arguments.

(** ** Exceptions that the generator can raise *)

Inductive exn : Type :=
| IndexError
| KeyError
| OverflowError.

(** ** The proleptic Gregorian calendar of [datetime] *)

Module Calendar.

Definition MINYEAR : Z := 1.
Definition MAXYEAR : Z := 9999.

Definition is_leap (year : Z) : bool :=
  (year mod 4 =? 0) && (negb (year mod 100 =? 0) || (year mod 400 =? 0)).

Definition days_before_year (year : Z) : Z :=
  let y := year - 1 in
  y * 365 + y / 4 - y / 100 + y / 400.

Definition DAYS_IN_MONTH : list Z :=
  [-1; 31; 28; 31; 30; 31; 30; 31; 31; 30; 31; 30; 31].

Definition DAYS_BEFORE_MONTH : list Z :=
  [-1; 0; 31; 59; 90; 120; 151; 181; 212; 243; 273; 304; 334].

Definition table (t : list Z) (i : Z) : Z := nth (Z.to_nat i) t 0.

Definition days_in_month (year month : Z) : Z :=
  if (month =? 2) && is_leap year then 29 else table DAYS_IN_MONTH month.

Definition days_before_month (year month : Z) : Z :=
  table DAYS_BEFORE_MONTH month
  + (if (2 <? month) && is_leap year then 1 else 0).

Definition ymd2ord (year month day : Z) : Z :=
  days_before_year year + days_before_month year month + day.

Definition DI400Y : Z := Eval cbv in days_before_year 401.
Definition DI100Y : Z := Eval cbv in days_before_year 101.
Definition DI4Y : Z := Eval cbv in days_before_year 5.

Definition MAXORDINAL : Z := Eval cbv in ymd2ord MAXYEAR 12 31.

(** The month and the day of the [n]-th day (from 0) of a year. *)
Definition month_day (leapyear : bool) (n : Z) : Z * Z :=
  let month := Z.shiftr (n + 50) 5 in
  let preceding :=
    table DAYS_BEFORE_MONTH month
    + (if (2 <? month) && leapyear then 1 else 0) in
  if n <? preceding then
    let month := month - 1 in
    let preceding :=
      preceding
      - (table DAYS_IN_MONTH month
         + (if (month =? 2) && leapyear then 1 else 0)) in
    (month, n - preceding + 1)
  else (month, n - preceding + 1).

(** [_ord2ymd]: ordinal to (year, month, day). *)
Definition ord2ymd (ordinal : Z) : Z * Z * Z :=
  let n := ordinal - 1 in
  let n400 := n / DI400Y in
  let n := n mod DI400Y in
  let year := n400 * 400 + 1 in
  let n100 := n / DI100Y in
  let n := n mod DI100Y in
  let n4 := n / DI4Y in
  let n := n mod DI4Y in
  let n1 := n / 365 in
  let n := n mod 365 in
  let year := year + n100 * 100 + n4 * 4 + n1 in
  if (n1 =? 4) || (n100 =? 4) then (year - 1, 12, 31)
  else
    let leapyear := (n1 =? 3) && (negb (n4 =? 24) || (n100 =? 3)) in
    let (month, day) := month_day leapyear n in
    (year, month, day).

End Calendar.

(** ** Naive datetimes *)

Record datetime : Type := mk_datetime {
  ordinal : Z;       (* toordinal() *)
  time_of_day : Z    (* microseconds since midnight *)
}.

(** [datetime(y, m, d)]: midnight of the given day. *)
Definition datetime_ymd (y m d : Z) : datetime :=
  mk_datetime (Calendar.ymd2ord y m d) 0.

(** [datetime(y, m, d, hh, mm)]. *)
Definition datetime_ymdhm (y m d hh mm : Z) : datetime :=
  mk_datetime (Calendar.ymd2ord y m d) ((hh * 60 + mm) * 60 * 1000000).

Definition year (d : datetime) : Z := fst (fst (Calendar.ord2ymd (ordinal d))).
Definition month (d : datetime) : Z := snd (fst (Calendar.ord2ymd (ordinal d))).
Definition day (d : datetime) : Z := snd (Calendar.ord2ymd (ordinal d)).

(** [d.weekday()]: Monday is 0, Sunday is 6. *)
Definition weekday (d : datetime) : Z := (ordinal d + 6) mod 7.

Definition datetime_eqb (a b : datetime) : bool :=
  (ordinal a =? ordinal b) && (time_of_day a =? time_of_day b).

(** [a <= b] *)
Definition datetime_leb (a b : datetime) : bool :=
  (ordinal a <? ordinal b)
  || ((ordinal a =? ordinal b) && (time_of_day a <=? time_of_day b)).

(** [a < b] *)
Definition datetime_ltb (a b : datetime) : bool :=
  (ordinal a <? ordinal b)
  || ((ordinal a =? ordinal b) && (time_of_day a <? time_of_day b)).

(** [d + timedelta(days=1)]; the result must not pass [datetime.max]. *)
Definition add_one_day (d : datetime) : exn + datetime :=
  if Calendar.MAXORDINAL <? ordinal d + 1 then inl OverflowError
  else inr (mk_datetime (ordinal d + 1) (time_of_day d)).

(** [x in xs] for a list of datetimes. *)
Definition datetime_in (x : datetime) (xs : list datetime) : bool :=
  existsb (datetime_eqb x) xs.

(** ** Calendar filter *)

Definition holidays : list datetime :=
  [ datetime_ymd 2024 1 26;    (* Republic Day *)
    datetime_ymd 2024 3 25;    (* Holi *)
    datetime_ymd 2024 8 15;    (* Independence Day *)
    datetime_ymd 2024 10 2;    (* Gandhi Jayanti *)
    datetime_ymd 2024 10 12;   (* Dussehra *)
    datetime_ymd 2024 11 1 ].  (* Diwali *)

(** The test guarding the [yield]. *)
Definition is_business_day (d : datetime) : bool :=
  (weekday d <? 6) && negb (datetime_in d holidays).

(** What a consumer of a generator observes: the values yielded, in order,
    and how the generator stopped ([None]: it returned; [Some e]: it raised
    [e] after the last yield). *)
Definition generated (A : Type) : Type := (list A * option exn)%type.

Definition yields_of {A} (g : generated A) : list A := fst g.
Definition raised_by {A} (g : generated A) : option exn := snd g.

(** The [while current_date <= end_date] loop, run for at most [n]
    iterations. *)
Fixpoint dates_loop (n : nat) (current_date end_date : datetime)
  : generated datetime :=
  match n with
  | O => ([], None)
  | S n' =>
      if datetime_leb current_date end_date then
        let ys := if is_business_day current_date then [current_date] else [] in
        match add_one_day current_date with
        | inl e => (ys, Some e)
        | inr next =>
            let r := dates_loop n' next end_date in
            (ys ++ fst r, snd r)
        end
      else ([], None)
  end.

(** The loop body runs at most once per calendar day between the two
    ordinals.  [generate_dates_unfold] below shows that this bound never
    cuts the loop short. *)
Definition generate_dates (start_date end_date : datetime)
  : generated datetime :=
  dates_loop (Z.to_nat (ordinal end_date - ordinal start_date + 1))
             start_date end_date.

Definition business_days (start_date end_date : datetime) : list datetime :=
  yields_of (generate_dates start_date end_date).

(** ** Numbers *)

(** Nearest integer, ties to even. *)
Definition round_half_even (q : Q) : Z :=
  let f := Qfloor q in
  match ((q - inject_Z f) ?= (1 # 2))%Q with
  | Lt => f
  | Gt => f + 1
  | Eq => if Z.even f then f else f + 1
  end.

(** [round(x, ndigits)] for [ndigits = 2]: a nearest hundredth, the even
    one where the rational is exactly halfway (there the float of the code
    falls on one side or the other). *)
Definition round2 (x : Q) : Q :=
  inject_Z (round_half_even (x * 100)) / 100.

(** [int(x)]: truncation towards zero. *)
Definition py_int (x : Q) : Z := Z.quot (Qnum x) (Zpos (Qden x)).

(** ** Strings *)

Local Open Scope string_scope.

Definition digit (n : Z) : string :=
  String (ascii_of_nat (48 + Z.to_nat (n mod 10))) EmptyString.

(** ["%02d"] *)
Definition pad2 (n : Z) : string := digit (n / 10) ++ digit n.

(** ["%04d"] *)
Definition pad4 (n : Z) : string :=
  digit (n / 1000) ++ digit (n / 100) ++ digit (n / 10) ++ digit n.

(** [d.strftime('%d-%m-%Y')] *)
Definition strftime_dmY (d : datetime) : string :=
  pad2 (day d) ++ "-" ++ pad2 (month d) ++ "-" ++ pad4 (year d).

(** A [datetime.time] object, as much of it as ['%H:%M'] prints. *)
Record time : Type := mk_time { hour : Z; minute : Z }.

(** [t.strftime('%H:%M')] *)
Definition strftime_HM (t : time) : string :=
  pad2 (hour t) ++ ":" ++ pad2 (minute t).

Definition is_space (c : ascii) : bool :=
  let n := nat_of_ascii c in
  ((9 <=? n) && (n <=? 13) || (28 <=? n) && (n <=? 32))%nat.

Fixpoint skip_spaces (s : string) : string :=
  match s with
  | String c s' => if is_space c then skip_spaces s' else s
  | EmptyString => EmptyString
  end.

Fixpoint take_word (s : string) : string :=
  match s with
  | String c s' => if is_space c then EmptyString else String c (take_word s')
  | EmptyString => EmptyString
  end.

(** [s.split()[0]]: the first whitespace-separated word; [IndexError] when
    there is none. *)
Definition split_first (s : string) : exn + string :=
  match skip_spaces s with
  | EmptyString => inl IndexError
  | w => inr (take_word w)
  end.

Definition lower_ascii (c : ascii) : ascii :=
  let n := nat_of_ascii c in
  if ((65 <=? n) && (n <=? 90))%nat then ascii_of_nat (n + 32) else c.

(** [s.lower()] *)
Fixpoint lower (s : string) : string :=
  match s with
  | String c s' => String (lower_ascii c) (lower s')
  | EmptyString => EmptyString
  end.

Local Close Scope string_scope.

(** ** Records of the three result sets *)

Module Product.
Record t : Type := mk {
  S_No : Z;
  product_name : string;
  category : string;
  mrp : Q;
  cost_price : Q;
  shelf_life_days : Z
}.
End Product.

Module Transaction.
Record t : Type := mk {
  S_No : Z;
  date : string;
  time : string;
  product_name : string;
  quantity : Z;
  unit_price : Q;
  total_amount : Q;
  payment_mode : string;
  transaction_type : string
}.
End Transaction.

Module Expense.
Record t : Type := mk {
  S_No : Z;
  date : string;
  category : string;
  amount : Q;
  frequency : string;
  notes : string
}.
End Expense.

(** ** Dictionaries in insertion order *)

Definition dict (V : Type) : Type := list (string * V).

Definition keys {V} (d : dict V) : list string := map fst d.

Fixpoint getitem {V} (d : dict V) (k : string) : exn + V :=
  match d with
  | [] => inl KeyError
  | (k', v) :: d' => if String.eqb k' k then inr v else getitem d' k
  end.

(** [range(n)] *)
Definition range (n : Z) : list Z := map Z.of_nat (seq 0 (Z.to_nat n)).

(** ** Sources of randomness *)

(** The interface of the [random] module that the generator relies on:
    [random()] draws from [0, 1) and [_randbelow(n)] from [0, n). *)
Class RandomSource (R : Type) : Type := {
  random : R -> Q * R;
  randbelow : Z -> R -> Z * R;
  random_range : forall s, (0 <= fst (random s) /\ fst (random s) < 1)%Q;
  randbelow_range : forall n s, 0 < n -> 0 <= fst (randbelow n s) < n
}.

(** The two providers of the [Faker] instance that the generator calls. *)
Class FakerSource (F : Type) : Type := {
  company : F -> string * F;
  time_object : F -> time * F;
  company_has_word : forall s, split_first (fst (company s)) <> inl IndexError
}.

(** ** The generator monad: two sources threaded, exceptions propagated *)

Section Generator.

Context {R F : Type} {RS : RandomSource R} {FS : FakerSource F}.

Record world : Type := mk_world { rand_state : R; faker_state : F }.

Definition M (A : Type) : Type := world -> exn + (A * world).

Definition ret {A} (a : A) : M A := fun w => inr (a, w).

Definition bind {A B} (m : M A) (k : A -> M B) : M B :=
  fun w => match m w with
           | inl e => inl e
           | inr (a, w') => k a w'
           end.

Definition raise {A} (e : exn) : M A := fun _ => inl e.

Definition lift_exn {A} (r : exn + A) : M A :=
  match r with
  | inl e => raise e
  | inr a => ret a
  end.

Definition with_random {A} (f : R -> A * R) : M A :=
  fun w => let (a, r) := f (rand_state w) in
           inr (a, mk_world r (faker_state w)).

Definition with_faker {A} (f : F -> A * F) : M A :=
  fun w => let (a, s) := f (faker_state w) in
           inr (a, mk_world (rand_state w) s).

Notation "x <- m ;; k" := (bind m (fun x => k))
  (at level 61, m at next level, right associativity).

(** *** The functions of [random] used by the generator *)

(** [random.randint(a, b)] *)
Definition randint (a b : Z) : M Z :=
  i <- with_random (randbelow (b - a + 1)) ;;
  ret (a + i).

(** [random.uniform(a, b)] *)
Definition uniform (a b : Q) : M Q :=
  u <- with_random random ;;
  ret (a + (b - a) * u)%Q.

(** [random.choice(seq)] *)
Definition choice {A} (seq : list A) : M A :=
  match seq with
  | [] => raise IndexError
  | x :: _ =>
      i <- with_random (randbelow (Z.of_nat (List.length seq))) ;;
      ret (nth (Z.to_nat i) seq x)
  end.

(** [itertools.accumulate] *)
Fixpoint accumulate (acc : Q) (ws : list Q) : list Q :=
  match ws with
  | [] => []
  | w :: ws' => (acc + w)%Q :: accumulate (acc + w)%Q ws'
  end.

(** [bisect.bisect(a, x, 0, hi)]: the number of the first [hi] entries
    of the ascending list [a] that are not above [x]. *)
Definition bisect (a : list Q) (x : Q) (hi : nat) : nat :=
  List.length (filter (fun c => Qle_bool c x) (firstn hi a)).

(** [random.choices(population, weights=weights)[0]] *)
Definition choices_first {A} (population : list A) (weights : list Q) : M A :=
  match population with
  | [] => raise IndexError
  | x :: _ =>
      let cum_weights := accumulate 0 weights in
      let total := last cum_weights 0%Q in
      u <- with_random random ;;
      ret (nth (bisect cum_weights (u * total)%Q (List.length population - 1))
               population x)
  end.

(** *** Loops *)

(** [for x in xs: body], the loop-carried variables being [s]. *)
Fixpoint for_each {A S} (xs : list A) (body : A -> S -> M S) (s : S) : M S :=
  match xs with
  | [] => ret s
  | x :: xs' => s' <- body x s ;; for_each xs' body s'
  end.

(** [for x in g: body] over a generator: the body runs on every value
    yielded, then the generator's exception, if any, propagates. *)
Definition for_generated {A S} (g : generated A) (body : A -> S -> M S)
           (s : S) : M S :=
  s' <- for_each (yields_of g) body s ;;
  match raised_by g with
  | Some e => raise e
  | None => ret s'
  end.

(** *** Configuration *)

Definition NUM_PRODUCTS : Z := 100.
Definition DAILY_TRANSACTIONS_RANGE : Z * Z := (80, 120).
Definition STAFF_COUNT : Z := 5.
Definition OPERATING_HOURS : Z * Z := (8, 21).

(** *** Catalog generator *)

Definition categories : dict (list string) :=
  [ ("Staples", ["Rice"; "Wheat Flour"; "Dal"; "Salt"; "Sugar"]);
    ("Snacks", ["Biscuits"; "Chips"; "Chocolates"; "Namkeen"]);
    ("Beverages", ["Tea"; "Coffee"; "Juice"; "Soft Drinks"]);
    ("Personal Care", ["Soap"; "Shampoo"; "Toothpaste"; "Detergent"]);
    ("Groceries", ["Oil"; "Spices"; "Pulses"; "Masala"]) ]%string.

(** The body of [for i in range(num_products)]. *)
Definition products_body (i : Z) (products : list Product.t)
  : M (list Product.t) :=
  category <- choice (keys categories) ;;
  base_names <- lift_exn (getitem categories category) ;;
  base_name <- choice base_names ;;
  company_name <- with_faker company ;;
  brand <- lift_exn (split_first company_name) ;;
  let product_name := (brand ++ " " ++ base_name)%string in
  mrp <- uniform 10 500 ;;
  cost_price <- uniform 5 400 ;;
  shelf_life_days <- randint 30 720 ;;
  ret (products ++
       [ Product.mk (i + 1) product_name category
                    (round2 mrp) (round2 cost_price) shelf_life_days ]).

Definition generate_products (num_products : Z) : M (list Product.t) :=
  for_each (range num_products) products_body [].

(** *** Transaction generator *)

Definition is_weekend (date : datetime) : bool := 5 <=? weekday date.

Definition multiplier (date : datetime) : Q :=
  if is_weekend date then 13 # 10 else 1.

Definition discounts : list Q := [0; 0; 0; 5 # 100; 1 # 10]%Q.

(** [products['product_name']]: the frame built from an empty list of
    records has no column at all. *)
Definition product_name_column (products : list Product.t)
  : exn + list string :=
  match products with
  | [] => inl KeyError
  | _ :: _ => inr (map Product.product_name products)
  end.

(** [products[products['product_name'] == product].iloc[0]] *)
Definition first_match (products : list Product.t) (product : string)
  : exn + Product.t :=
  match product_name_column products with
  | inl e => inl e
  | inr _ =>
      match find (fun p => String.eqb (Product.product_name p) product)
                 products with
      | Some p => inr p
      | None => inl IndexError
      end
  end.

(** The body of [for _ in range(daily_transactions)]; the loop-carried
    variables are the list [transactions] and the counter [sno]. *)
Definition transaction_body (date : datetime) (products : list Product.t)
           (_ : Z) (st : list Transaction.t * Z)
  : M (list Transaction.t * Z) :=
  let (transactions, sno) := st in
  names <- lift_exn (product_name_column products) ;;
  product <- choice names ;;
  product_data <- lift_exn (first_match products product) ;;
  qty <- randint 1 5 ;;
  let mrp := Product.mrp product_data in
  discount <- choice discounts ;;
  t <- with_faker time_object ;;
  payment_mode <- choice ["Cash"; "UPI"; "Credit"]%string ;;
  transaction_type <-
    choices_first ["Walk-in"; "Phone Order"; "Delivery"]%string
                  [7 # 10; 2 # 10; 1 # 10]%Q ;;
  ret (transactions ++
       [ Transaction.mk sno (strftime_dmY date) (strftime_HM t) product qty
                        (round2 (mrp * (1 - discount)))
                        (round2 (mrp * inject_Z qty * (1 - discount)))
                        payment_mode transaction_type ],
       sno + 1).

(** The body of [for date in generate_dates(start_date, end_date)]. *)
Definition day_body (products : list Product.t) (date : datetime)
           (st : list Transaction.t * Z) : M (list Transaction.t * Z) :=
  base_transactions <-
    randint (fst DAILY_TRANSACTIONS_RANGE) (snd DAILY_TRANSACTIONS_RANGE) ;;
  let daily_transactions :=
    py_int (inject_Z base_transactions * multiplier date) in
  for_each (range daily_transactions) (transaction_body date products) st.

Definition generate_transactions (start_date end_date : datetime)
           (products : list Product.t) : M (list Transaction.t) :=
  st <- for_generated (generate_dates start_date end_date)
                      (day_body products) ([], 1) ;;
  ret (fst st).

(** *** Expense generator *)

Record details : Type := mk_details {
  frequency : string;
  amount : Z * Z
}.

Definition expense_categories : dict details :=
  [ ("Rent", mk_details "monthly" (15000, 20000));
    ("Electricity", mk_details "monthly" (3000, 5000));
    ("Water", mk_details "monthly" (500, 800));
    ("Staff Salary", mk_details "monthly" (8000, 12000));
    ("Transportation", mk_details "daily" (100, 300));
    ("Cleaning", mk_details "daily" (50, 100));
    ("Maintenance", mk_details "weekly" (200, 500));
    ("Internet & Phone", mk_details "monthly" (1000, 1500));
    ("Packaging Material", mk_details "weekly" (500, 1000));
    ("Miscellaneous", mk_details "daily" (100, 300)) ]%string.

Definition should_record (frequency : string) (day_of_month day_of_week : Z)
  : bool :=
  String.eqb frequency "daily"%string
  || (String.eqb frequency "weekly"%string && (day_of_week =? 0))
  || (String.eqb frequency "monthly"%string && (day_of_month =? 1)).

(** The body of [for category, details in expense_categories.items()]. *)
Definition category_body (date : datetime) (item : string * details)
           (st : list Expense.t * Z) : M (list Expense.t * Z) :=
  let (expenses, sno) := st in
  let (category, details) := item in
  if should_record (frequency details) (day date) (weekday date) then
    let (min_amount, max_amount) := amount details in
    a <- uniform (inject_Z min_amount) (inject_Z max_amount) ;;
    ret (expenses ++
         [ Expense.mk sno (strftime_dmY date) category (round2 a)
                      (frequency details)
                      ("Regular " ++ frequency details ++ " "
                         ++ lower category ++ " expense")%string ],
         sno + 1)
  else ret (expenses, sno).

Definition generate_expenses (start_date end_date : datetime)
  : M (list Expense.t) :=
  st <- for_generated (generate_dates start_date end_date)
                      (fun date => for_each expense_categories
                                            (category_body date))
                      ([], 1) ;;
  ret (fst st).

(** *** The three generators in sequence *)

(** [main], up to the data it writes: the catalog, the transactions and the
    expenses of the first quarter of 2024.  Writing them to the three CSV
    files is not modelled. *)
Definition main : M (list Product.t * list Transaction.t * list Expense.t) :=
  let start_date := datetime_ymd 2024 1 1 in
  let end_date := datetime_ymd 2024 3 31 in
  products <- generate_products NUM_PRODUCTS ;;
  transactions <- generate_transactions start_date end_date products ;;
  expenses <- generate_expenses start_date end_date ;;
  ret (products, transactions, expenses).

End Generator.

Arguments world : clear implicits.
Arguments M : clear implicits.

(** ** Scripted sources, for running the generator on concrete inputs *)

(** A scripted [random]: every draw consumes the next number of the script
    (0 once the script is used up). *)
Definition script : Type := list Z.

Definition script_next (s : script) : Z * script :=
  match s with
  | [] => (0, [])
  | x :: s' => (x, s')
  end.

Definition script_random (s : script) : Q * script :=
  let (x, s') := script_next s in (x mod 1000 # 1000, s').

Definition script_randbelow (n : Z) (s : script) : Z * script :=
  let (x, s') := script_next s in (x mod n, s').

(** A scripted [Faker]: the state counts the calls. *)
Definition company_names : list string :=
  [ "Sharma Group"; "Patel and Sons"; "Gupta LLC" ]%string.

Definition counter_company (n : nat) : string * nat :=
  (nth (n mod 3) company_names "Sharma Group"%string, S n).

Definition counter_time_object (n : nat) : time * nat :=
  (mk_time (Z.of_nat n mod 24) (Z.of_nat (7 * n) mod 60), S n).

#[export] Instance ScriptedRandom : RandomSource script.
Proof.
  refine {| random := script_random; randbelow := script_randbelow |}.
  - intros s. unfold script_random. destruct (script_next s) as [x s'].
    cbn [fst]. pose proof (Z.mod_pos_bound x 1000 ltac:(lia)) as Hx.
    unfold Qle, Qlt. cbn. lia.
  - intros n s Hn. unfold script_randbelow.
    destruct (script_next s) as [x s']. cbn [fst].
    now apply Z.mod_pos_bound.
Defined.

#[export] Instance CounterFaker : FakerSource nat.
Proof.
  refine {| company := counter_company; time_object := counter_time_object |}.
  intros n. unfold counter_company. cbn [fst].
  pose proof (Nat.mod_upper_bound n 3 ltac:(lia)) as Hn.
  destruct (n mod 3)%nat as [|[|[|k]]]; cbn; try discriminate; lia.
Defined.

(** The world in which [random] follows the given script and [Faker] starts
    counting at 0. *)
Definition scripted (s : script) : world script nat := mk_world s 0%nat.

(** Did the run return? *)
Definition succeeded {A W : Type} (r : exn + A * W) : bool :=
  match r with
  | inr _ => true
  | inl _ => false
  end.

(** What the run returned ([default] when it raised). *)
Definition result_or {A W : Type} (default : A) (r : exn + A * W) : A :=
  match r with
  | inr (a, _) => a
  | inl _ => default
  end.

Unset Implicit Arguments.

(** * Vocabulary of the properties *)

(** ** Calendar *)

(** Every [datetime] object lies between [datetime.min] and [datetime.max]. *)
Definition valid_datetime (d : datetime) : Prop :=
  1 <= ordinal d <= Calendar.MAXORDINAL /\ 0 <= time_of_day d < 86400000000.

(** The ordinal [n] converts to a date of the calendar and back. *)
Definition roundtrips (n : Z) : bool :=
  let '(y, m, d) := Calendar.ord2ymd n in
  (Calendar.ymd2ord y m d =? n)
  && (1 <=? m) && (m <=? 12)
  && (1 <=? d) && (d <=? Calendar.days_in_month y m).

(** The month [m] and the day [d] found for the [n]-th day of a year are a
    month of the year and a day of that month, [n] days into the year. *)
Definition month_day_checks (leapyear : bool) (n : Z) : bool :=
  let (m, d) := Calendar.month_day leapyear n in
  (Calendar.table Calendar.DAYS_BEFORE_MONTH m
   + (if (2 <? m) && leapyear then 1 else 0) + d =? n + 1)
  && (1 <=? m) && (m <=? 12) && (1 <=? d)
  && (d <=? (if (m =? 2) && leapyear then 29
             else Calendar.table Calendar.DAYS_IN_MONTH m)).

(** Strictly ascending datetimes. *)
Definition ascending : list datetime -> Prop :=
  StronglySorted (fun a b => datetime_ltb a b = true).

(** [n] consecutive days from [d] on. *)
Definition days_from (d : datetime) (n : Z) : list datetime :=
  map (fun i => mk_datetime (ordinal d + i) (time_of_day d)) (range n).

Definition first_of_month (d : datetime) : datetime :=
  mk_datetime (ordinal d - day d + 1) (time_of_day d).

(** The days of the calendar month of [d]. *)
Definition month_of (d : datetime) : list datetime :=
  days_from (first_of_month d) (Calendar.days_in_month (year d) (month d)).

Definition monday_of (d : datetime) : datetime :=
  mk_datetime (ordinal d - weekday d) (time_of_day d).

(** The days, Monday to Sunday, of the week of [d]. *)
Definition week_of (d : datetime) : list datetime := days_from (monday_of d) 7.

(** The calendar days that the loop of [generate_dates] visits. *)
Definition simulated_days (start_date end_date : datetime) : list datetime :=
  filter (fun d => datetime_leb d end_date)
         (days_from start_date (ordinal end_date - ordinal start_date + 1)).

(** ** Amounts and sequence numbers *)

(** A number with at most two decimals. *)
Definition two_decimals (x : Q) : Prop :=
  exists k : Z, (x == inject_Z k / 100)%Q.

(** The sequence numbers 1, 2, ..., in this order. *)
Definition numbered_from_one (snos : list Z) : Prop :=
  snos = map Z.of_nat (seq 1 (List.length snos)).

(** The loop-carried pair (records so far, next sequence number). *)
Definition counting {A} (sno_of : A -> Z) (st : list A * Z) : Prop :=
  numbered_from_one (map sno_of (fst st))
  /\ snd st = Z.of_nat (List.length (fst st)) + 1.

(** ** Products *)

(** The configured bounds of a product record. *)
Definition product_in_bounds (p : Product.t) : Prop :=
  (10 <= Product.mrp p /\ Product.mrp p <= 500)%Q
  /\ two_decimals (Product.mrp p)
  /\ (5 <= Product.cost_price p /\ Product.cost_price p <= 400)%Q
  /\ two_decimals (Product.cost_price p)
  /\ 30 <= Product.shelf_life_days p <= 720.

(** A catalog priced as [generate_products] prices it: no negative MRP,
    two decimals. *)
Definition priced_in_hundredths (products : list Product.t) : Prop :=
  Forall (fun p => two_decimals (Product.mrp p) /\ (0 <= Product.mrp p)%Q)
         products.

(** ** Transactions *)

(** What the loop body records about a transaction [t] emitted on one of
    [dates] from the catalog [products]. *)
Definition emitted_transaction (dates : list datetime)
           (products : list Product.t) (t : Transaction.t) : Prop :=
  exists d p discount,
    In d dates
    /\ Transaction.date t = strftime_dmY d
    /\ first_match products (Transaction.product_name t) = inr p
    /\ In discount discounts
    /\ 1 <= Transaction.quantity t <= 5
    /\ Transaction.unit_price t = round2 (Product.mrp p * (1 - discount))
    /\ Transaction.total_amount t =
         round2 (Product.mrp p * inject_Z (Transaction.quantity t)
                 * (1 - discount)).

(** The invariant of both loops of [generate_transactions]. *)
Definition transactions_invariant (dates : list datetime)
           (products : list Product.t) (st : list Transaction.t * Z) : Prop :=
  Forall (emitted_transaction dates products) (fst st)
  /\ counting Transaction.S_No st.

(** ** Expenses *)

Definition expense_key (e : Expense.t) : string * string :=
  (Expense.category e, Expense.date e).

Definition has_category (c : string) (e : Expense.t) : bool :=
  String.eqb (Expense.category e) c.

(** The frequency rule of a table entry on a given day. *)
Definition due (date : datetime) (item : string * details) : bool :=
  should_record (frequency (snd item)) (day date) (weekday date).

(** The (category, date) pairs that one day contributes, in table order. *)
Definition expected_keys_on (date : datetime) (table : dict details)
  : list (string * string) :=
  map (fun item => (fst item, strftime_dmY date)) (filter (due date) table).

Definition expected_keys (dates : list datetime) : list (string * string) :=
  flat_map (fun d => expected_keys_on d expense_categories) dates.

(** The invariant of the loop over the table on one day: the records
    added so far are those of the entries processed so far. *)
Definition table_invariant (date : datetime) (base : list (string * string))
           (done : dict details) (st : list Expense.t * Z) : Prop :=
  map expense_key (fst st) = base ++ expected_keys_on date done
  /\ counting Expense.S_No st.

(** The invariant of the loop over the business days. *)
Definition days_invariant (done : list datetime)
           (st : list Expense.t * Z) : Prop :=
  map expense_key (fst st) = expected_keys done
  /\ counting Expense.S_No st.

Definition dated_within (days : list datetime) (e : Expense.t) : bool :=
  existsb (fun d => String.eqb (Expense.date e) (strftime_dmY d)) days.

(** The records of category [c] dated on one of [days]. *)
Definition records_of (c : string) (days : list datetime)
           (expenses : list Expense.t) : list Expense.t :=
  filter (fun e => has_category c e && dated_within days e) expenses.

(** One record per period: for a monthly category, one record in every
    simulated month, dated on its first day; for a weekly category, one in
    every simulated week, dated on its Monday; for a daily category, one on
    every business day. *)
Definition one_record_per_period (start_date end_date : datetime)
           (expenses : list Expense.t) : Prop :=
  forall c det,
    In (c, det) expense_categories ->
    (frequency det = "monthly"%string ->
     forall d, In d (simulated_days start_date end_date) ->
               exists e, records_of c (month_of d) expenses = [e]
                         /\ Expense.date e = strftime_dmY (first_of_month d))
    /\ (frequency det = "weekly"%string ->
        forall d, In d (simulated_days start_date end_date) ->
                  exists e, records_of c (week_of d) expenses = [e]
                            /\ Expense.date e = strftime_dmY (monday_of d))
    /\ (frequency det = "daily"%string ->
        forall d, In d (business_days start_date end_date) ->
                  exists e, records_of c [d] expenses = [e]).

(** ** Further vocabulary *)

(** Does a range from [start_date] to [end_date] make the calendar filter
    step past [datetime.max]? *)
Definition reaches_last_day (start_date end_date : datetime) : bool :=
  (ordinal end_date =? Calendar.MAXORDINAL)
  && (time_of_day start_date <=? time_of_day end_date).

(** The number of transactions of a day: 80 to 120, times 1.3 on a
    Saturday. *)
Definition daily_count_ok (d : datetime) (n : nat) : Prop :=
  if weekday d =? 5 then (104 <= n <= 156)%nat else (80 <= n <= 120)%nat.

(** The dates of [counts] records per day, day after day. *)
Definition dates_by_day (days : list datetime) (counts : list nat)
  : list string :=
  List.concat (map (fun dn => repeat (strftime_dmY (fst dn)) (snd dn))
              (combine days counts)).

Fixpoint has_space (s : string) : bool :=
  match s with
  | String c s' => is_space c || has_space s'
  | EmptyString => false
  end.

(** A product as the catalog generator composes it: a category of the
    table, and as name a brand word, a space and a base item of that
    category. *)
Definition product_as_configured (p : Product.t) : Prop :=
  exists base_names brand base_name,
    getitem categories (Product.category p) = inr base_names
    /\ In base_name base_names
    /\ brand <> EmptyString
    /\ has_space brand = false
    /\ Product.product_name p = (brand ++ " " ++ base_name)%string.

(** The fields of a transaction that are drawn from fixed ranges. *)
Definition transaction_as_configured (products : list Product.t)
           (t : Transaction.t) : Prop :=
  In (Transaction.product_name t) (map Product.product_name products)
  /\ 1 <= Transaction.quantity t <= 5
  /\ In (Transaction.payment_mode t) ["Cash"; "UPI"; "Credit"]%string
  /\ In (Transaction.transaction_type t)
        ["Walk-in"; "Phone Order"; "Delivery"]%string.

(** An expense as the table configures its category. *)
Definition expense_as_configured (e : Expense.t) : Prop :=
  exists det,
    In (Expense.category e, det) expense_categories
    /\ Expense.frequency e = frequency det
    /\ (inject_Z (fst (amount det)) <= Expense.amount e
        /\ Expense.amount e <= inject_Z (snd (amount det)))%Q
    /\ two_decimals (Expense.amount e)
    /\ Expense.notes e
       = ("Regular " ++ frequency det ++ " " ++ lower (Expense.category e)
            ++ " expense")%string.

(** [h] is [x] rounded to a nearest hundredth; halfway between two
    hundredths, either of them. *)
Definition nearest_hundredth (x h : Q) : Prop :=
  two_decimals h /\ (Qabs (h - x) <= 1 # 200)%Q.

(** The number of transactions of the day [d] when the draw from
    [DAILY_TRANSACTIONS_RANGE] is [base]: [int(base * 1.3)] on a Saturday,
    [base] on any other day. *)
Definition saturday_scaled (d : datetime) (base : Z) : Z :=
  if weekday d =? 5 then py_int (inject_Z base * (13 # 10)) else base.

(** [n] transactions on the day [d] come from a draw between 80 and 120,
    scaled on a Saturday only. *)
Definition scaled_count (d : datetime) (n : nat) : Prop :=
  exists base, 80 <= base <= 120 /\ n = Z.to_nat (saturday_scaled d base).

(** A product composed from the company name [company_name]: a category of
    the table, and as name the first word of the company name, a space and
    a base item of that category. *)
Definition product_of_company (company_name : string) (p : Product.t) : Prop :=
  exists base_names brand base_name,
    getitem categories (Product.category p) = inr base_names
    /\ In base_name base_names
    /\ split_first company_name = inr brand
    /\ Product.product_name p = (brand ++ " " ++ base_name)%string.

(** ** Sample inputs *)

(** A one-product catalog with a two-decimal MRP. *)
Definition sample_catalog : list Product.t :=
  [ Product.mk 1 "Sharma Rice" "Staples" (1049 # 100) (750 # 100) 90 ].

(** A catalog whose only MRP has three decimals. *)
Definition three_decimal_catalog : list Product.t :=
  [ Product.mk 1 "Sharma Rice" "Staples" (10006 # 1000) (750 # 100) 90 ].

(** Draws that make [generate_products 1] price its product at 10.49 and
    then make the first sale of the day one of 5 units at the 0.05
    discount. *)
Definition one_product_then_sale : script := [0; 0; 1; 0; 0; 0; 0; 4; 3].

(** ** Tactics *)

(** Case analysis on every integer comparison in sight. *)
Ltac zcompare :=
  repeat match goal with
    | H : context [Z.ltb ?a ?b] |- _ => destruct (Z.ltb_spec a b)
    | H : context [Z.leb ?a ?b] |- _ => destruct (Z.leb_spec a b)
    | H : context [Z.eqb ?a ?b] |- _ => destruct (Z.eqb_spec a b)
    | |- context [Z.ltb ?a ?b] => destruct (Z.ltb_spec a b)
    | |- context [Z.leb ?a ?b] => destruct (Z.leb_spec a b)
    | |- context [Z.eqb ?a ?b] => destruct (Z.eqb_spec a b)
    end;
  cbn [andb orb negb] in *; try discriminate; try reflexivity; try lia.

(** Division by 100 as a multiplication, for [lra]. *)
Ltac hundredths :=
  unfold Qdiv in *; change (/ 100)%Q with (1 # 100)%Q in *.

(** Membership in a list that computes. *)
Ltac in_computed_list :=
  vm_compute; repeat (first [left; reflexivity | right]).

(** A fact about the run [r], named by [E], that evaluation settles. *)
Ltac by_running E := rewrite E; vm_compute; reflexivity.

(** * Properties *)

(** ** Datetimes *)

Lemma datetime_eqb_eq (a b : datetime) : datetime_eqb a b = true <-> a = b.
Proof.
  unfold datetime_eqb. destruct a as [oa ta], b as [ob tb]; cbn.
  rewrite andb_true_iff, !Z.eqb_eq. split.
  - intros [-> ->]. reflexivity.
  - intros E. injection E. auto.
Qed.

Lemma datetime_in_In (d : datetime) (l : list datetime) :
  datetime_in d l = true <-> In d l.
Proof.
  unfold datetime_in. rewrite existsb_exists. split.
  - intros (x & Hx & E). apply datetime_eqb_eq in E. now subst.
  - intros H. exists d. split; [assumption | now apply datetime_eqb_eq].
Qed.

Lemma weekday_range (d : datetime) : 0 <= weekday d < 7.
Proof. unfold weekday. apply Z.mod_pos_bound. lia. Qed.

Lemma is_business_day_spec (d : datetime) :
  is_business_day d = true <-> weekday d <> 6 /\ ~ In d holidays.
Proof.
  unfold is_business_day. pose proof (weekday_range d) as Hw.
  rewrite andb_true_iff, negb_true_iff, Z.ltb_lt, <- datetime_in_In.
  destruct (datetime_in d holidays); intuition (try discriminate; lia).
Qed.

Lemma datetime_leb_ordinal (a b : datetime) :
  datetime_leb a b = true -> ordinal a <= ordinal b.
Proof. unfold datetime_leb. zcompare. Qed.

Lemma datetime_ltb_not_leb (a b : datetime) :
  datetime_ltb b a = true -> datetime_leb a b = false.
Proof. unfold datetime_ltb, datetime_leb. zcompare. Qed.

Lemma add_one_day_inr (d next : datetime) :
  add_one_day d = inr next ->
  ordinal next = ordinal d + 1 /\ time_of_day next = time_of_day d
  /\ ordinal d < Calendar.MAXORDINAL.
Proof.
  unfold add_one_day.
  destruct (Calendar.MAXORDINAL <? ordinal d + 1) eqn:E; [discriminate|].
  apply Z.ltb_ge in E. intros H. injection H as <-. cbn. lia.
Qed.

Lemma add_one_day_inl (d : datetime) (e : exn) :
  add_one_day d = inl e ->
  e = OverflowError /\ Calendar.MAXORDINAL <= ordinal d.
Proof.
  unfold add_one_day.
  destruct (Calendar.MAXORDINAL <? ordinal d + 1) eqn:E; [|discriminate].
  apply Z.ltb_lt in E. intros H. injection H as <-. split; [reflexivity | lia].
Qed.

(** ** The calendar conversions *)

Lemma range_In (n i : Z) : 0 <= i < n -> In i (range n).
Proof.
  intros Hi. unfold range. apply in_map_iff. exists (Z.to_nat i).
  split; [lia|]. apply in_seq. lia.
Qed.

(** Month and day, for each of the first 365 days of a year, leap or not. *)
Lemma month_day_checked (leapyear : bool) (n : Z) :
  0 <= n < 365 -> month_day_checks leapyear n = true.
Proof.
  intros Hn.
  assert (H : forallb (fun l => forallb (month_day_checks l) (range 365))
                      [true; false] = true) by (vm_compute; reflexivity).
  rewrite forallb_forall in H.
  assert (Hl : In leapyear [true; false]) by (destruct leapyear; cbn; auto).
  specialize (H _ Hl). rewrite forallb_forall in H.
  now apply H, range_In.
Qed.

(** Years counted in cycles of 400, 100 and 4 years. *)
Lemma days_before_counted_year (q a b c : Z) :
  0 <= a <= 3 -> 0 <= b <= 24 -> 0 <= c <= 3 ->
  Calendar.days_before_year (q * 400 + 1 + a * 100 + b * 4 + c)
  = 146097 * q + 36524 * a + 1461 * b + 365 * c.
Proof.
  intros Ha Hb Hc. unfold Calendar.days_before_year. cbv zeta.
  Z.div_mod_to_equations. lia.
Qed.

Lemma is_leap_counted_year (q a b c : Z) :
  0 <= a <= 3 -> 0 <= b <= 24 -> 0 <= c <= 3 ->
  Calendar.is_leap (q * 400 + 1 + a * 100 + b * 4 + c)
  = (c =? 3) && (negb (b =? 24) || (a =? 3)).
Proof.
  intros Ha Hb Hc. unfold Calendar.is_leap.
  zcompare; exfalso; Z.div_mod_to_equations; lia.
Qed.

(** The last day of a leap year, which closes a cycle of 4 or 400 years. *)
Lemma last_day_of_cycle (q a b c : Z) :
  0 <= a <= 4 -> 0 <= b <= 24 -> 0 <= c <= 4 ->
  (a = 4 /\ b = 0 /\ c = 0) \/ (a <= 3 /\ b <= 23 /\ c = 4) ->
  Calendar.ymd2ord (q * 400 + 1 + a * 100 + b * 4 + c - 1) 12 31
  = 146097 * q + 36524 * a + 1461 * b + 365 * c + 1.
Proof.
  intros Ha Hb Hc Hcase.
  unfold Calendar.ymd2ord, Calendar.days_before_month, Calendar.days_before_year,
    Calendar.is_leap.
  cbv zeta. change (Calendar.table Calendar.DAYS_BEFORE_MONTH 12) with 334.
  change (2 <? 12) with true. cbn [andb].
  zcompare; Z.div_mod_to_equations; lia.
Qed.

(** Every ordinal from 1 on is the ordinal of its own year, month and day,
    and these are a month of the year and a day of that month. *)
Lemma ord2ymd_roundtrips (n : Z) : 1 <= n -> roundtrips n = true.
Proof.
  intros Hn. unfold roundtrips, Calendar.ord2ymd. cbv zeta.
  set (q := (n - 1) / Calendar.DI400Y).
  set (r := (n - 1) mod Calendar.DI400Y).
  set (a := r / Calendar.DI100Y).
  set (r1 := r mod Calendar.DI100Y).
  set (b := r1 / Calendar.DI4Y).
  set (r2 := r1 mod Calendar.DI4Y).
  set (c := r2 / 365).
  set (r3 := r2 mod 365).
  assert (Hq : n - 1 = Calendar.DI400Y * q + r /\ 0 <= r < Calendar.DI400Y).
  { subst q r.
    pose proof (Z.div_mod (n - 1) Calendar.DI400Y ltac:(discriminate)).
    pose proof (Z.mod_pos_bound (n - 1) Calendar.DI400Y ltac:(reflexivity)).
    lia. }
  assert (Ha : r = Calendar.DI100Y * a + r1 /\ 0 <= r1 < Calendar.DI100Y).
  { subst a r1. pose proof (Z.div_mod r Calendar.DI100Y ltac:(discriminate)).
    pose proof (Z.mod_pos_bound r Calendar.DI100Y ltac:(reflexivity)). lia. }
  assert (Hb : r1 = Calendar.DI4Y * b + r2 /\ 0 <= r2 < Calendar.DI4Y).
  { subst b r2. pose proof (Z.div_mod r1 Calendar.DI4Y ltac:(discriminate)).
    pose proof (Z.mod_pos_bound r1 Calendar.DI4Y ltac:(reflexivity)). lia. }
  assert (Hc : r2 = 365 * c + r3 /\ 0 <= r3 < 365).
  { subst c r3. pose proof (Z.div_mod r2 365 ltac:(discriminate)).
    pose proof (Z.mod_pos_bound r2 365 ltac:(reflexivity)). lia. }
  clearbody q r a r1 b r2 c r3.
  unfold Calendar.DI400Y, Calendar.DI100Y, Calendar.DI4Y in *.
  destruct Hq as (Hq & Hr), Ha as (Ha & Hr1), Hb as (Hb & Hr2),
           Hc as (Hc & Hr3).
  assert (Ha0 : 0 <= a <= 4) by lia.
  assert (Hb0 : 0 <= b <= 24) by lia.
  assert (Hc0 : 0 <= c <= 4) by lia.
  destruct ((c =? 4) || (a =? 4)) eqn:Hspecial.
  - rewrite last_day_of_cycle by (try assumption; revert Hspecial; zcompare).
    unfold Calendar.days_in_month.
    change (12 =? 2) with false. cbn [andb].
    change (Calendar.table Calendar.DAYS_IN_MONTH 12) with 31.
    rewrite !andb_true_iff, Z.eqb_eq, !Z.leb_le. lia.
  - assert (Ha3 : 0 <= a <= 3) by (revert Hspecial; zcompare).
    assert (Hc3 : 0 <= c <= 3) by (revert Hspecial; zcompare).
    pose proof (month_day_checked
                  ((c =? 3) && (negb (b =? 24) || (a =? 3))) r3 Hr3) as Hmd.
    unfold month_day_checks in Hmd.
    destruct (Calendar.month_day
                ((c =? 3) && (negb (b =? 24) || (a =? 3))) r3) as [m d].
    unfold Calendar.ymd2ord, Calendar.days_before_month, Calendar.days_in_month.
    rewrite days_before_counted_year, is_leap_counted_year by assumption.
    rewrite !andb_true_iff, Z.eqb_eq, !Z.leb_le in Hmd.
    rewrite !andb_true_iff, Z.eqb_eq, !Z.leb_le. lia.
Qed.

Lemma datetime_fields (d : datetime) :
  1 <= ordinal d ->
  Calendar.ymd2ord (year d) (month d) (day d) = ordinal d
  /\ 1 <= month d <= 12
  /\ 1 <= day d <= Calendar.days_in_month (year d) (month d).
Proof.
  intros Hd. pose proof (ord2ymd_roundtrips _ Hd) as H.
  unfold roundtrips in H. unfold year, month, day.
  destruct (Calendar.ord2ymd (ordinal d)) as [[y m] dd]. cbn [fst snd].
  rewrite !andb_true_iff, Z.eqb_eq, !Z.leb_le in H. lia.
Qed.

(** ** The calendar filter *)

(** The iteration bound of [generate_dates] is never reached before the
    loop condition fails: [generate_dates] satisfies the equation of the
    [while] loop. *)
Lemma generate_dates_unfold (current_date end_date : datetime) :
  generate_dates current_date end_date =
  if datetime_leb current_date end_date then
    let ys := if is_business_day current_date then [current_date] else [] in
    match add_one_day current_date with
    | inl e => (ys, Some e)
    | inr next =>
        let r := generate_dates next end_date in (ys ++ fst r, snd r)
    end
  else ([], None).
Proof.
  unfold generate_dates.
  destruct (datetime_leb current_date end_date) eqn:Hle.
  - pose proof (datetime_leb_ordinal _ _ Hle) as Hord.
    replace (Z.to_nat (ordinal end_date - ordinal current_date + 1))
      with (S (Z.to_nat (ordinal end_date - ordinal current_date))) by lia.
    cbn [dates_loop]. rewrite Hle.
    destruct (add_one_day current_date) as [e|next] eqn:Hn; [reflexivity|].
    apply add_one_day_inr in Hn. destruct Hn as (-> & _ & _).
    replace (ordinal end_date - (ordinal current_date + 1) + 1)
      with (ordinal end_date - ordinal current_date) by lia.
    reflexivity.
  - destruct (Z.to_nat (ordinal end_date - ordinal current_date + 1));
      cbn [dates_loop]; [reflexivity | now rewrite Hle].
Qed.

Lemma dates_loop_In (n : nat) (current_date end_date d : datetime) :
  In d (fst (dates_loop n current_date end_date)) ->
  is_business_day d = true
  /\ ordinal current_date <= ordinal d
  /\ time_of_day d = time_of_day current_date
  /\ datetime_leb d end_date = true.
Proof.
  revert current_date. induction n as [|n IH]; intros cur; cbn [dates_loop].
  - intros [].
  - destruct (datetime_leb cur end_date) eqn:Hle; [|intros []].
    assert (Hhere : In d (if is_business_day cur then [cur] else []) ->
                    is_business_day d = true /\ ordinal cur <= ordinal d
                    /\ time_of_day d = time_of_day cur
                    /\ datetime_leb d end_date = true).
    { destruct (is_business_day cur) eqn:Hb; [|intros []].
      intros [<-|[]]. split; [assumption|]. split; [lia|]. split; auto. }
    destruct (add_one_day cur) as [e|next] eqn:Hn; cbn [fst]; [exact Hhere|].
    rewrite in_app_iff. intros [H|H]; [now apply Hhere|].
    apply add_one_day_inr in Hn. destruct Hn as (Ho & Ht & _).
    apply IH in H. destruct H as (Hb & Hord & Htod & Hend).
    split; [assumption|]. split; [lia|]. split; [congruence | assumption].
Qed.

Lemma dates_loop_ascending (n : nat) (current_date end_date : datetime) :
  ascending (fst (dates_loop n current_date end_date)).
Proof.
  revert current_date. induction n as [|n IH]; intros cur; cbn [dates_loop].
  - constructor.
  - destruct (datetime_leb cur end_date); [|constructor].
    destruct (add_one_day cur) as [e|next] eqn:Hn; cbn [fst].
    + destruct (is_business_day cur); repeat constructor.
    + destruct (is_business_day cur); cbn [app]; [|apply IH].
      constructor; [apply IH|].
      apply Forall_forall. intros d Hd. apply dates_loop_In in Hd.
      apply add_one_day_inr in Hn. unfold datetime_ltb. zcompare.
Qed.

Lemma dates_loop_no_overflow (n : nat) (current_date end_date : datetime) :
  ordinal end_date < Calendar.MAXORDINAL ->
  snd (dates_loop n current_date end_date) = None.
Proof.
  intros Hend. revert current_date.
  induction n as [|n IH]; intros cur; cbn [dates_loop]; [reflexivity|].
  destruct (datetime_leb cur end_date) eqn:Hle; [|reflexivity].
  apply datetime_leb_ordinal in Hle.
  destruct (add_one_day cur) as [e|next] eqn:Hn; cbn [snd]; [|apply IH].
  apply add_one_day_inl in Hn. lia.
Qed.

(** When the generator raises, it has yielded the last representable day
    before: that day is a Friday and not a holiday. *)
Lemma dates_loop_raised (n : nat) (current_date end_date : datetime) (e : exn) :
  ordinal current_date <= Calendar.MAXORDINAL ->
  snd (dates_loop n current_date end_date) = Some e ->
  e = OverflowError /\ fst (dates_loop n current_date end_date) <> [].
Proof.
  revert current_date. induction n as [|n IH]; intros cur Hcur;
    cbn [dates_loop]; [discriminate|].
  destruct (datetime_leb cur end_date) eqn:Hle; [|discriminate].
  destruct (add_one_day cur) as [e'|next] eqn:Hn; cbn [fst snd].
  - intros H. injection H as <-. apply add_one_day_inl in Hn.
    destruct Hn as (-> & Hmax). split; [reflexivity|].
    assert (Ho : ordinal cur = Calendar.MAXORDINAL) by lia.
    destruct cur as [o t]; cbn in Ho; subst o.
    discriminate.
  - intros H. apply add_one_day_inr in Hn.
    apply IH in H; [|lia]. destruct H as (-> & Hne). split; [reflexivity|].
    intros E. apply app_eq_nil in E. tauto.
Qed.

(** The loop yields every business day that it passes. *)
Lemma dates_loop_complete (n : nat) (current_date end_date d : datetime) :
  ordinal current_date <= ordinal d <= Calendar.MAXORDINAL ->
  time_of_day d = time_of_day current_date ->
  datetime_leb d end_date = true ->
  is_business_day d = true ->
  (Z.to_nat (ordinal d - ordinal current_date) < n)%nat ->
  In d (fst (dates_loop n current_date end_date)).
Proof.
  revert current_date. induction n as [|n IH]; intros cur Hord Htod Hend Hb Hn;
    [lia|].
  cbn [dates_loop].
  assert (Hle : datetime_leb cur end_date = true).
  { revert Hend. unfold datetime_leb. rewrite <- Htod. zcompare. }
  rewrite Hle.
  destruct (Z.eq_dec (ordinal cur) (ordinal d)) as [E|E].
  - assert (Hd : d = cur)
      by (destruct d, cur; cbn in *; now subst).
    subst d. rewrite Hb.
    destruct (add_one_day cur) as [e|next]; cbn [fst];
      [|apply in_or_app; left]; now left.
  - destruct (add_one_day cur) as [e|next] eqn:Hnext.
    + apply add_one_day_inl in Hnext. lia.
    + cbn [fst]. apply in_or_app. right.
      apply add_one_day_inr in Hnext. destruct Hnext as (Ho & Ht & _).
      apply IH; try assumption; lia.
Qed.

(** The business days of a range, without reference to the loop: the days
    at the start's time of day, from the start up to the end, that pass the
    test of the filter. *)
Lemma business_days_spec (start_date end_date d : datetime) :
  ordinal d <= Calendar.MAXORDINAL ->
  In d (business_days start_date end_date) <->
  ordinal start_date <= ordinal d
  /\ time_of_day d = time_of_day start_date
  /\ datetime_leb d end_date = true
  /\ is_business_day d = true.
Proof.
  intros Hmax. split.
  - intros H. apply dates_loop_In in H. tauto.
  - intros (Hord & Htod & Hend & Hb).
    apply dates_loop_complete; try assumption; [lia|].
    apply datetime_leb_ordinal in Hend. lia.
Qed.

Lemma business_days_In (start_date end_date d : datetime) :
  In d (business_days start_date end_date) ->
  weekday d <> 6 /\ ~ In d holidays.
Proof.
  intros H. apply dates_loop_In in H. now apply is_business_day_spec.
Qed.

(** ** Reasoning about the generator monad *)

Section MonadFacts.

Context {R F : Type} {RS : RandomSource R} {FS : FakerSource F}.

Lemma bind_inr {A B} (m : M R F A) (k : A -> M R F B) (w w' : world R F) (b : B) :
  bind m k w = inr (b, w') ->
  exists a w1, m w = inr (a, w1) /\ k a w1 = inr (b, w').
Proof.
  unfold bind. destruct (m w) as [e|[a w1]]; [discriminate|].
  intros H. now exists a, w1.
Qed.

Lemma bind_ok {A B} (m : M R F A) (k : A -> M R F B) (w w1 : world R F) (a : A) :
  m w = inr (a, w1) -> bind m k w = k a w1.
Proof. unfold bind. now intros ->. Qed.

Lemma bind_raise {A B} (m : M R F A) (k : A -> M R F B) (w : world R F) (e : exn) :
  m w = inl e -> bind m k w = inl e.
Proof. unfold bind. now intros ->. Qed.

Lemma ret_inr {A} (a b : A) (w w' : world R F) :
  ret a w = inr (b, w') -> b = a /\ w' = w.
Proof. unfold ret. intros H. injection H. auto. Qed.

Lemma lift_exn_inr {A} (r : exn + A) (a : A) (w w' : world R F) :
  lift_exn r w = inr (a, w') -> r = inr a /\ w' = w.
Proof.
  destruct r as [e|x]; cbn; [discriminate|].
  intros H. injection H as -> ->. auto.
Qed.

Lemma with_random_inr {A} (f : R -> A * R) (w w' : world R F) (a : A) :
  with_random f w = inr (a, w') -> a = fst (f (rand_state w)).
Proof.
  unfold with_random. destruct (f (rand_state w)) as [x r].
  intros H. now injection H as -> _.
Qed.

Lemma with_random_ok {A} (f : R -> A * R) (w : world R F) :
  exists w', with_random f w = inr (fst (f (rand_state w)), w').
Proof.
  unfold with_random. destruct (f (rand_state w)) as [x r]. eauto.
Qed.

Lemma with_faker_ok {A} (f : F -> A * F) (w : world R F) :
  exists w', with_faker f w = inr (fst (f (faker_state w)), w').
Proof.
  unfold with_faker. destruct (f (faker_state w)) as [x r]. eauto.
Qed.

Lemma with_faker_inr {A} (f : F -> A * F) (w w' : world R F) (a : A) :
  with_faker f w = inr (a, w') -> a = fst (f (faker_state w)).
Proof.
  unfold with_faker. destruct (f (faker_state w)) as [x r].
  intros H. now injection H as -> _.
Qed.

(** *** The draws *)

Lemma randint_inr (a b : Z) (w w' : world R F) (x : Z) :
  a <= b -> randint a b w = inr (x, w') -> a <= x <= b.
Proof.
  intros Hab H. unfold randint in H.
  apply bind_inr in H. destruct H as (i & w1 & Hi & H).
  apply ret_inr in H. destruct H as (-> & _).
  apply with_random_inr in Hi. subst i.
  pose proof (@randbelow_range _ _ (b - a + 1) (rand_state w) ltac:(lia)). lia.
Qed.

Lemma randint_ok (a b : Z) (w : world R F) :
  a <= b -> exists x w', randint a b w = inr (x, w') /\ a <= x <= b.
Proof.
  intros Hab. unfold randint.
  destruct (with_random_ok (randbelow (b - a + 1)) w) as (w1 & Hw).
  eexists _, _. split.
  - rewrite (bind_ok _ _ _ _ _ Hw). reflexivity.
  - pose proof (@randbelow_range _ _ (b - a + 1) (rand_state w) ltac:(lia)). lia.
Qed.

Lemma uniform_bounds (a b u : Q) :
  (a <= b -> 0 <= u -> u < 1 -> a <= a + (b - a) * u /\ a + (b - a) * u <= b)%Q.
Proof. intros Hab H0 H1. split; nra. Qed.

Lemma uniform_inr (a b : Q) (w w' : world R F) (x : Q) :
  (a <= b)%Q -> uniform a b w = inr (x, w') -> (a <= x /\ x <= b)%Q.
Proof.
  intros Hab H. unfold uniform in H.
  apply bind_inr in H. destruct H as (u & w1 & Hu & H).
  apply ret_inr in H. destruct H as (-> & _).
  apply with_random_inr in Hu. subst u.
  destruct (random_range (rand_state w)) as [H0 H1].
  now apply uniform_bounds.
Qed.

Lemma uniform_ok (a b : Q) (w : world R F) :
  (a <= b)%Q ->
  exists x w', uniform a b w = inr (x, w') /\ (a <= x /\ x <= b)%Q.
Proof.
  intros Hab. unfold uniform.
  destruct (with_random_ok random w) as (w1 & Hw).
  eexists _, _. split.
  - rewrite (bind_ok _ _ _ _ _ Hw). reflexivity.
  - destruct (random_range (rand_state w)) as [H0 H1].
    now apply uniform_bounds.
Qed.

Lemma nth_head_In {A} (n : nat) (x : A) (l : list A) : In (nth n (x :: l) x) (x :: l).
Proof.
  destruct (nth_in_or_default n (x :: l) x) as [H| ->]; [assumption|].
  now left.
Qed.

Lemma choice_inr {A} (seq : list A) (w w' : world R F) (x : A) :
  choice seq w = inr (x, w') -> In x seq.
Proof.
  destruct seq as [|y l]; cbn [choice]; [discriminate|].
  intros H. apply bind_inr in H. destruct H as (i & w1 & _ & H).
  apply ret_inr in H. destruct H as (-> & _). apply nth_head_In.
Qed.

Lemma choice_empty {A} (w : world R F) : choice (@nil A) w = inl IndexError.
Proof. reflexivity. Qed.

Lemma choice_ok {A} (seq : list A) (w : world R F) :
  seq <> [] -> exists x w', choice seq w = inr (x, w') /\ In x seq.
Proof.
  destruct seq as [|y l]; [congruence|]. intros _. cbn [choice].
  destruct (with_random_ok (randbelow (Z.of_nat (List.length (y :: l)))) w)
    as (w1 & Hw).
  eexists _, _. split.
  - rewrite (bind_ok _ _ _ _ _ Hw). reflexivity.
  - apply nth_head_In.
Qed.

Lemma choices_first_ok {A} (population : list A) (weights : list Q) (w : world R F) :
  population <> [] ->
  exists x w', choices_first population weights w = inr (x, w')
               /\ In x population.
Proof.
  destruct population as [|y l]; [congruence|]. intros _.
  cbn [choices_first].
  destruct (with_random_ok random w) as (w1 & Hw).
  eexists _, _. split.
  - rewrite (bind_ok _ _ _ _ _ Hw). reflexivity.
  - apply nth_head_In.
Qed.

(** *** Loop invariants *)

(** An invariant of the loop-carried variables that every iteration
    preserves holds when the loop ends. *)
Lemma for_each_invariant {A S} (P : S -> Prop) (xs : list A)
      (body : A -> S -> M R F S) :
  (forall x s w s' w', In x xs -> P s -> body x s w = inr (s', w') -> P s') ->
  forall s w s' w', P s -> for_each xs body s w = inr (s', w') -> P s'.
Proof.
  induction xs as [|x xs IH]; intros Hbody s w s' w' Hs H; cbn in H.
  - apply ret_inr in H. destruct H as (-> & _). exact Hs.
  - apply bind_inr in H. destruct H as (s1 & w1 & H1 & H).
    apply IH with (s := s1) (w := w1) (w' := w'); auto.
    + intros y t v t' v' Hy. apply Hbody. now right.
    + eapply Hbody; eauto. now left.
Qed.

(** The same, for an invariant that speaks of the items processed so
    far. *)
Lemma for_each_prefix_invariant {A S} (I : list A -> S -> Prop) (xs : list A)
      (body : A -> S -> M R F S) :
  (forall done x s w s' w',
      I done s -> body x s w = inr (s', w') -> I (done ++ [x]) s') ->
  forall done s w s' w',
    I done s -> for_each xs body s w = inr (s', w') -> I (done ++ xs) s'.
Proof.
  intros Hbody. induction xs as [|x xs IH]; intros done s w s' w' Hs H;
    cbn in H.
  - apply ret_inr in H. destruct H as (-> & _). now rewrite app_nil_r.
  - apply bind_inr in H. destruct H as (s1 & w1 & H1 & H).
    replace (done ++ x :: xs) with ((done ++ [x]) ++ xs)
      by now rewrite <- app_assoc.
    eapply IH; eauto.
Qed.

(** A loop whose body never raises returns. *)
Lemma for_each_returns {A S} (xs : list A) (body : A -> S -> M R F S) :
  (forall x s w, In x xs -> exists s' w', body x s w = inr (s', w')) ->
  forall s w, exists s' w', for_each xs body s w = inr (s', w').
Proof.
  induction xs as [|x xs IH]; intros Hbody s w; cbn [for_each].
  - unfold ret. eauto.
  - destruct (Hbody x s w (or_introl eq_refl)) as (s1 & w1 & H1).
    rewrite (bind_ok _ _ _ _ _ H1). apply IH.
    intros y t v Hy. apply Hbody. now right.
Qed.

Lemma for_generated_inr {A S} (g : generated A) (body : A -> S -> M R F S)
      (s s' : S) (w w' : world R F) :
  for_generated g body s w = inr (s', w') ->
  raised_by g = None /\ for_each (yields_of g) body s w = inr (s', w').
Proof.
  unfold for_generated. intros H.
  apply bind_inr in H. destruct H as (s1 & w1 & H1 & H).
  destruct (raised_by g); [discriminate|].
  apply ret_inr in H. destruct H as (-> & ->). auto.
Qed.

Lemma for_generated_returns {A S} (g : generated A) (body : A -> S -> M R F S) :
  raised_by g = None ->
  (forall x s w, In x (yields_of g) -> exists s' w', body x s w = inr (s', w')) ->
  forall s w, exists s' w', for_generated g body s w = inr (s', w').
Proof.
  intros Hg Hbody s w. unfold for_generated.
  destruct (for_each_returns (yields_of g) body Hbody s w) as (s1 & w1 & H1).
  rewrite (bind_ok _ _ _ _ _ H1), Hg. unfold ret. eauto.
Qed.

End MonadFacts.

(** ** Rounding *)

Lemma round_half_even_cases (q : Q) :
  let f := Qfloor q in
  (round_half_even q = f /\ (q - inject_Z f <= 1 # 2)%Q)
  \/ (round_half_even q = f + 1 /\ (1 # 2 <= q - inject_Z f)%Q).
Proof.
  cbv zeta. unfold round_half_even.
  destruct (Qcompare_spec (q - inject_Z (Qfloor q)) (1 # 2)) as [E|E|E].
  - destruct (Z.even (Qfloor q)); [left | right]; rewrite E; split;
      try reflexivity; apply Qle_refl.
  - left. split; [reflexivity | now apply Qlt_le_weak].
  - right. split; [reflexivity | now apply Qlt_le_weak].
Qed.

Lemma Qfloor_bounds (q : Q) :
  (inject_Z (Qfloor q) <= q /\ q < inject_Z (Qfloor q) + 1)%Q.
Proof.
  split; [apply Qfloor_le|].
  pose proof (Qlt_floor q) as H. now rewrite inject_Z_plus in H.
Qed.

(** Rounding moves a number by at most one half. *)
Lemma round_half_even_error (q : Q) :
  (q - (1 # 2) <= inject_Z (round_half_even q)
   /\ inject_Z (round_half_even q) <= q + (1 # 2))%Q.
Proof.
  destruct (Qfloor_bounds q) as [Hlo Hhi].
  destruct (round_half_even_cases q) as [[-> H]|[-> H]];
    rewrite ?inject_Z_plus; change (inject_Z 1) with 1%Q;
    set (f := inject_Z (Qfloor q)) in *; split; lra.
Qed.

Lemma round_half_even_ge (q : Q) (k : Z) :
  (inject_Z k <= q)%Q -> k <= round_half_even q.
Proof.
  intros H. apply Qfloor_resp_le in H. rewrite Qfloor_Z in H.
  destruct (round_half_even_cases q) as [[-> _]|[-> _]]; lia.
Qed.

Lemma round_half_even_le (q : Q) (k : Z) :
  (q <= inject_Z k)%Q -> round_half_even q <= k.
Proof.
  intros H. pose proof (Qfloor_resp_le _ _ H) as Hf. rewrite Qfloor_Z in Hf.
  destruct (round_half_even_cases q) as [[-> _]|[-> Hhalf]]; [lia|].
  destruct (Z.eq_dec (Qfloor q) k) as [E|E]; [|lia].
  rewrite E in Hhalf. lra.
Qed.

Lemma round2_two_decimals (x : Q) : two_decimals (round2 x).
Proof. exists (round_half_even (x * 100)). reflexivity. Qed.

(** Rounding to two decimals does not leave an interval whose ends have two
    decimals. *)
Lemma round2_ge (x : Q) (k : Z) :
  (inject_Z k / 100 <= x -> inject_Z k / 100 <= round2 x)%Q.
Proof.
  intros H. unfold round2.
  assert (Hk : (inject_Z k <= x * 100)%Q) by (hundredths; lra).
  apply round_half_even_ge in Hk. rewrite Zle_Qle in Hk.
  hundredths. lra.
Qed.

Lemma round2_le (x : Q) (k : Z) :
  (x <= inject_Z k / 100 -> round2 x <= inject_Z k / 100)%Q.
Proof.
  intros H. unfold round2.
  assert (Hk : (x * 100 <= inject_Z k)%Q) by (hundredths; lra).
  apply round_half_even_le in Hk. rewrite Zle_Qle in Hk.
  hundredths. lra.
Qed.

(** Rounding to two decimals moves a number by at most half a hundredth. *)
Lemma round2_error (x : Q) :
  (x - (1 # 200) <= round2 x /\ round2 x <= x + (1 # 200))%Q.
Proof.
  destruct (round_half_even_error (x * 100)) as [Hlo Hhi].
  unfold round2. set (r := inject_Z (round_half_even (x * 100))) in *.
  hundredths. split; lra.
Qed.

Lemma round2_between (a b : Z) (x : Q) :
  (inject_Z a <= x /\ x <= inject_Z b ->
   inject_Z a <= round2 x /\ round2 x <= inject_Z b)%Q.
Proof.
  intros [Ha Hb].
  pose proof (round2_ge x (100 * a)) as Hlo.
  pose proof (round2_le x (100 * b)) as Hhi.
  rewrite inject_Z_mult in Hlo, Hhi.
  change (inject_Z 100) with 100%Q in *. hundredths.
  assert (Hlo' : (100 * inject_Z a * (1 # 100) <= round2 x)%Q)
    by (apply Hlo; lra).
  assert (Hhi' : (round2 x <= 100 * inject_Z b * (1 # 100))%Q)
    by (apply Hhi; lra).
  split; lra.
Qed.

(** ** Lists *)

Lemma range_length (n : Z) : List.length (range n) = Z.to_nat n.
Proof. unfold range. now rewrite length_map, length_seq. Qed.

Lemma map_seq_shift (f : nat -> Z) (a n : nat) :
  map f (seq (S a) n) = map (fun i => f (S i)) (seq a n).
Proof. now rewrite <- seq_shift, map_map. Qed.

Lemma range_succ (n : Z) :
  map (fun i => i + 1) (range n) = map Z.of_nat (seq 1 (Z.to_nat n)).
Proof.
  unfold range. rewrite map_map, map_seq_shift.
  apply map_ext. intros i. lia.
Qed.

Lemma numbered_from_one_snoc (snos : list Z) :
  numbered_from_one snos ->
  numbered_from_one (snos ++ [Z.of_nat (List.length snos) + 1]).
Proof.
  unfold numbered_from_one. intros H.
  rewrite length_app, Nat.add_comm. cbn [List.length Nat.add].
  rewrite seq_S, map_app, <- H. cbn [map]. repeat f_equal. lia.
Qed.

(** ** The catalog generator *)

Lemma split_first_cases (s : string) :
  split_first s = inl IndexError \/ exists word, split_first s = inr word.
Proof.
  unfold split_first. destruct (skip_spaces s); [now left | right; eauto].
Qed.

Section CatalogFacts.

Context {R F : Type} {RS : RandomSource R} {FS : FakerSource F}.

Lemma categories_getitem (category : string) :
  In category (keys categories) ->
  exists base_names,
    getitem categories category = inr base_names /\ base_names <> [].
Proof.
  cbn. intros H.
  repeat (destruct H as [<-|H];
          [eexists; split; [reflexivity | discriminate]|]).
  destruct H.
Qed.

(** One iteration appends one record, numbered [i + 1], within bounds. *)
Lemma products_body_ok (i : Z) (products : list Product.t) (w : world R F) :
  exists p w',
    products_body i products w = inr (products ++ [p], w')
    /\ Product.S_No p = i + 1 /\ product_in_bounds p.
Proof.
  unfold products_body.
  destruct (choice_ok (keys categories) w ltac:(discriminate))
    as (category & w1 & H1 & Hcat).
  rewrite (bind_ok _ _ _ _ _ H1).
  destruct (categories_getitem _ Hcat) as (base_names & Hget & Hne).
  rewrite Hget. cbn [lift_exn]. unfold ret at 1. unfold bind at 1.
  destruct (choice_ok base_names w1 Hne) as (base_name & w2 & H2 & _).
  rewrite (bind_ok _ _ _ _ _ H2).
  destruct (with_faker_ok company w2) as (w3 & H3).
  rewrite (bind_ok _ _ _ _ _ H3).
  pose proof (company_has_word (faker_state w2)) as Hword.
  destruct (split_first_cases (fst (company (faker_state w2))))
    as [E|(brand & E)]; [contradiction|]. rewrite E.
  cbn [lift_exn]. unfold ret at 1. unfold bind at 1.
  destruct (uniform_ok 10 500 w3 ltac:(discriminate))
    as (mrp & w4 & H4 & Hmrp).
  rewrite (bind_ok _ _ _ _ _ H4).
  destruct (uniform_ok 5 400 w4 ltac:(discriminate))
    as (cost & w5 & H5 & Hcost).
  rewrite (bind_ok _ _ _ _ _ H5).
  destruct (randint_ok 30 720 w5 ltac:(lia))
    as (shelf & w6 & H6 & Hshelf).
  rewrite (bind_ok _ _ _ _ _ H6).
  eexists _, _. split; [reflexivity|]. cbn.
  split; [reflexivity|]. unfold product_in_bounds. cbn.
  repeat split; try apply round2_two_decimals; try lia.
  - now apply (round2_between 10 500 mrp).
  - now apply (round2_between 10 500 mrp).
  - now apply (round2_between 5 400 cost).
  - now apply (round2_between 5 400 cost).
Qed.

Lemma products_loop_ok (xs : list Z) (products : list Product.t)
      (w : world R F) :
  exists new w',
    for_each xs products_body products w = inr (products ++ new, w')
    /\ map Product.S_No new = map (fun i => i + 1) xs
    /\ Forall product_in_bounds new.
Proof.
  revert products w. induction xs as [|i xs IH]; intros products w.
  - exists [], w. rewrite app_nil_r. repeat split. constructor.
  - destruct (products_body_ok i products w) as (p & w1 & Hp & Hsno & Hb).
    destruct (IH (products ++ [p]) w1) as (new & w' & Hnew & Hsnos & Hbs).
    exists (p :: new), w'. cbn [for_each].
    rewrite (bind_ok _ _ _ _ _ Hp), Hnew, <- app_assoc. cbn.
    repeat split; [congruence | now constructor].
Qed.

End CatalogFacts.

(** ** Sequence numbers of an accumulating loop *)

Lemma counting_init {A} (sno_of : A -> Z) : counting sno_of ([], 1).
Proof. split; reflexivity. Qed.

Lemma counting_snoc {A} (sno_of : A -> Z) (l : list A) (sno : Z) (x : A) :
  counting sno_of (l, sno) -> sno_of x = sno ->
  counting sno_of (l ++ [x], sno + 1).
Proof.
  unfold counting. cbn [fst snd]. intros [Hn ->] Hx. split.
  - rewrite map_app. cbn [map]. rewrite Hx.
    rewrite <- (length_map sno_of l). now apply numbered_from_one_snoc.
  - rewrite length_app. cbn [List.length]. lia.
Qed.

(** ** The transaction generator *)

Lemma py_int_scaled (base : Z) (date : datetime) :
  0 <= base -> base <= py_int (inject_Z base * multiplier date).
Proof.
  intros Hb. unfold multiplier, py_int.
  destruct (is_weekend date); cbn.
  - apply Z.quot_le_lower_bound; lia.
  - rewrite Z.mul_1_r, Z.quot_1_r. lia.
Qed.

Section TransactionFacts.

Context {R F : Type} {RS : RandomSource R} {FS : FakerSource F}.

Lemma transaction_body_inr (date : datetime) (products : list Product.t)
      (i : Z) (st st' : list Transaction.t * Z) (w w' : world R F) :
  transaction_body date products i st w = inr (st', w') ->
  exists t,
    st' = (fst st ++ [t], snd st + 1)
    /\ Transaction.S_No t = snd st
    /\ emitted_transaction [date] products t.
Proof.
  destruct st as [transactions sno]. unfold transaction_body. intros H.
  apply bind_inr in H. destruct H as (names & w0 & _ & H).
  apply bind_inr in H. destruct H as (product & w1 & Hproduct & H).
  apply bind_inr in H. destruct H as (p & w2 & Hp & H).
  apply lift_exn_inr in Hp. destruct Hp as (Hp & ->).
  apply bind_inr in H. destruct H as (qty & w3 & Hqty & H).
  apply randint_inr in Hqty; [|lia].
  apply bind_inr in H. destruct H as (discount & w4 & Hdiscount & H).
  apply choice_inr in Hdiscount.
  apply bind_inr in H. destruct H as (t & w5 & _ & H).
  apply bind_inr in H. destruct H as (payment_mode & w6 & _ & H).
  apply bind_inr in H. destruct H as (transaction_type & w7 & _ & H).
  apply ret_inr in H. destruct H as (-> & _).
  eexists. split; [reflexivity|]. split; [reflexivity|].
  exists date, p, discount. cbn.
  repeat split; auto; lia.
Qed.

Lemma emitted_transaction_weaken (date : datetime) (dates : list datetime)
      (products : list Product.t) (t : Transaction.t) :
  In date dates ->
  emitted_transaction [date] products t ->
  emitted_transaction dates products t.
Proof.
  intros Hin (d & p & discount & [<-|[]] & H). now exists date, p, discount.
Qed.

Lemma transaction_body_invariant (dates : list datetime) (date : datetime)
      (products : list Product.t) (i : Z)
      (st st' : list Transaction.t * Z) (w w' : world R F) :
  In date dates ->
  transactions_invariant dates products st ->
  transaction_body date products i st w = inr (st', w') ->
  transactions_invariant dates products st'.
Proof.
  intros Hdate [Hall Hcount] H.
  apply transaction_body_inr in H. destruct H as (t & -> & Hsno & Ht).
  destruct st as [transactions sno]. cbn [fst snd] in *. split.
  - cbn [fst]. apply Forall_app. split; [assumption|].
    constructor; [|constructor].
    now apply emitted_transaction_weaken with (date := date).
  - now apply counting_snoc.
Qed.

Lemma day_body_invariant (dates : list datetime) (date : datetime)
      (products : list Product.t)
      (st st' : list Transaction.t * Z) (w w' : world R F) :
  In date dates ->
  transactions_invariant dates products st ->
  day_body products date st w = inr (st', w') ->
  transactions_invariant dates products st'.
Proof.
  intros Hdate Hst H. unfold day_body in H.
  apply bind_inr in H. destruct H as (base & w1 & _ & H).
  revert H. apply for_each_invariant; [|assumption].
  intros i s v s' v' _. now apply transaction_body_invariant.
Qed.

Lemma generate_transactions_inr (start_date end_date : datetime)
      (products : list Product.t) (transactions : list Transaction.t)
      (w w' : world R F) :
  generate_transactions start_date end_date products w
  = inr (transactions, w') ->
  raised_by (generate_dates start_date end_date) = None
  /\ Forall (emitted_transaction (business_days start_date end_date) products)
            transactions
  /\ numbered_from_one (map Transaction.S_No transactions).
Proof.
  unfold generate_transactions. intros H.
  apply bind_inr in H. destruct H as (st & w1 & Hloop & H).
  apply ret_inr in H. destruct H as (-> & _).
  apply for_generated_inr in Hloop. destruct Hloop as (Hraised & Hloop).
  split; [assumption|].
  assert (Hinv : transactions_invariant
                   (business_days start_date end_date) products st).
  { revert Hloop. apply for_each_invariant.
    - intros date s v s' v' Hdate. now apply day_body_invariant.
    - split; [constructor | apply counting_init]. }
  destruct Hinv as [Hall [Hnum _]]. now split.
Qed.

(** With an empty catalog, a day's first transaction fails at the lookup
    of the name column. *)
Lemma day_body_empty_catalog (date : datetime)
      (st : list Transaction.t * Z) (w : world R F) :
  day_body [] date st w = inl KeyError.
Proof.
  unfold day_body.
  destruct (randint_ok 80 120 w ltac:(lia)) as (base & w1 & Hbase & Hrange).
  cbn [DAILY_TRANSACTIONS_RANGE fst snd]. rewrite (bind_ok _ _ _ _ _ Hbase).
  pose proof (py_int_scaled base date ltac:(lia)) as Hdaily.
  unfold range.
  destruct (Z.to_nat (py_int (inject_Z base * multiplier date)))
    as [|n] eqn:E; [lia|].
  destruct st as [transactions sno]. reflexivity.
Qed.

End TransactionFacts.

(** ** The expense generator *)

Lemma expected_keys_on_snoc (date : datetime) (table : dict details)
      (item : string * details) :
  expected_keys_on date (table ++ [item]) =
  expected_keys_on date table
  ++ (if due date item then [(fst item, strftime_dmY date)] else []).
Proof.
  unfold expected_keys_on. rewrite filter_app, map_app. cbn [filter].
  now destruct (due date item).
Qed.

Lemma expected_keys_snoc (dates : list datetime) (date : datetime) :
  expected_keys (dates ++ [date]) =
  expected_keys dates ++ expected_keys_on date expense_categories.
Proof.
  unfold expected_keys. rewrite flat_map_app. cbn [flat_map].
  now rewrite app_nil_r.
Qed.

(** On one day, a category of the table contributes one pair when its rule
    holds and none otherwise. *)
Lemma expected_keys_on_category (c : string) (det : details) (date : datetime) :
  In (c, det) expense_categories ->
  map snd (filter (fun k => String.eqb (fst k) c)
                  (expected_keys_on date expense_categories)) =
  if due date (c, det) then [strftime_dmY date] else [].
Proof.
  intros H. unfold expected_keys_on, due, should_record.
  generalize (strftime_dmY date) as sd. intros sd.
  destruct (day date =? 1), (weekday date =? 0); cbn in H;
    repeat (destruct H as [H|H]; [injection H as <- <-; reflexivity|]);
    destruct H.
Qed.

Lemma expected_keys_category (c : string) (det : details)
      (dates : list datetime) :
  In (c, det) expense_categories ->
  map snd (filter (fun k => String.eqb (fst k) c) (expected_keys dates)) =
  map strftime_dmY (filter (fun d => due d (c, det)) dates).
Proof.
  intros H. induction dates as [|d dates IH]; [reflexivity|].
  unfold expected_keys in *. cbn [flat_map filter].
  rewrite filter_app, map_app, IH, (expected_keys_on_category c det d H).
  now destruct (due d (c, det)).
Qed.

Lemma filter_has_category (c : string) (expenses : list Expense.t) :
  map Expense.date (filter (has_category c) expenses) =
  map snd (filter (fun k => String.eqb (fst k) c) (map expense_key expenses)).
Proof.
  induction expenses as [|e l IH]; [reflexivity|].
  cbn [map filter]. unfold has_category at 1. cbn [expense_key fst].
  destruct (String.eqb (Expense.category e) c); cbn [map snd]; now rewrite IH.
Qed.

Section ExpenseFacts.

Context {R F : Type} {RS : RandomSource R} {FS : FakerSource F}.

Lemma uniform_returns (a b : Q) (w : world R F) :
  exists x w', uniform a b w = inr (x, w').
Proof.
  unfold uniform. destruct (with_random_ok random w) as (w1 & Hw).
  eexists _, _. rewrite (bind_ok _ _ _ _ _ Hw). reflexivity.
Qed.

Lemma category_body_inr (date : datetime) (item : string * details)
      (st st' : list Expense.t * Z) (w w' : world R F) :
  category_body date item st w = inr (st', w') ->
  if due date item then
    exists e, st' = (fst st ++ [e], snd st + 1)
              /\ Expense.S_No e = snd st
              /\ expense_key e = (fst item, strftime_dmY date)
  else st' = st.
Proof.
  destruct st as [expenses sno], item as [category det].
  unfold category_body, due. cbn [fst snd].
  destruct (should_record (frequency det) (day date) (weekday date)).
  - destruct (amount det) as [min_amount max_amount]. intros H.
    apply bind_inr in H. destruct H as (a & w1 & _ & H).
    apply ret_inr in H. destruct H as (-> & _).
    eexists. repeat split.
  - intros H. apply ret_inr in H. now destruct H as (-> & _).
Qed.

Lemma category_body_returns (date : datetime) (item : string * details)
      (st : list Expense.t * Z) (w : world R F) :
  exists st' w', category_body date item st w = inr (st', w').
Proof.
  destruct st as [expenses sno], item as [category det].
  unfold category_body.
  destruct (should_record (frequency det) (day date) (weekday date)).
  - destruct (amount det) as [min_amount max_amount].
    destruct (uniform_returns (inject_Z min_amount) (inject_Z max_amount) w)
      as (a & w1 & Ha).
    rewrite (bind_ok _ _ _ _ _ Ha). unfold ret. eauto.
  - unfold ret. eauto.
Qed.

Lemma category_body_invariant (date : datetime) (base : list (string * string))
      (done : dict details) (item : string * details)
      (st st' : list Expense.t * Z) (w w' : world R F) :
  table_invariant date base done st ->
  category_body date item st w = inr (st', w') ->
  table_invariant date base (done ++ [item]) st'.
Proof.
  intros [Hkeys Hcount] H. apply category_body_inr in H.
  unfold table_invariant. rewrite expected_keys_on_snoc.
  destruct (due date item).
  - destruct H as (e & -> & Hsno & Hkey). destruct st as [expenses sno].
    cbn [fst snd] in *. split.
    + now rewrite map_app, Hkeys, <- app_assoc, <- Hkey.
    + now apply counting_snoc.
  - subst st'. now rewrite app_nil_r.
Qed.

Lemma expenses_day_invariant (done : list datetime) (date : datetime)
      (st st' : list Expense.t * Z) (w w' : world R F) :
  days_invariant done st ->
  for_each expense_categories (category_body date) st w = inr (st', w') ->
  days_invariant (done ++ [date]) st'.
Proof.
  intros [Hkeys Hcount] H. unfold days_invariant.
  rewrite expected_keys_snoc.
  change expense_categories with ([] ++ expense_categories) in H.
  change (expected_keys_on date expense_categories)
    with (expected_keys_on date ([] ++ expense_categories)).
  revert H.
  apply (for_each_prefix_invariant (table_invariant date (expected_keys done))).
  - intros items item s v s' v'. apply category_body_invariant.
  - split; [|assumption]. cbn. now rewrite app_nil_r.
Qed.

Lemma generate_expenses_inr (start_date end_date : datetime)
      (expenses : list Expense.t) (w w' : world R F) :
  generate_expenses start_date end_date w = inr (expenses, w') ->
  raised_by (generate_dates start_date end_date) = None
  /\ map expense_key expenses
     = expected_keys (business_days start_date end_date)
  /\ numbered_from_one (map Expense.S_No expenses).
Proof.
  unfold generate_expenses. intros H.
  apply bind_inr in H. destruct H as (st & w1 & Hloop & H).
  apply ret_inr in H. destruct H as (-> & _).
  apply for_generated_inr in Hloop. destruct Hloop as (Hraised & Hloop).
  split; [assumption|].
  assert (Hinv : days_invariant (business_days start_date end_date) st).
  { change (business_days start_date end_date)
      with ([] ++ yields_of (generate_dates start_date end_date)).
    revert Hloop. apply (for_each_prefix_invariant days_invariant).
    - intros done date s v s' v'. apply expenses_day_invariant.
    - split; [reflexivity | apply counting_init]. }
  destruct Hinv as [Hkeys [Hnum _]]. now split.
Qed.

(** The expense generator raises only when the calendar filter does. *)
Lemma generate_expenses_returns (start_date end_date : datetime)
      (w : world R F) :
  raised_by (generate_dates start_date end_date) = None ->
  exists expenses w',
    generate_expenses start_date end_date w = inr (expenses, w').
Proof.
  intros Hraised. unfold generate_expenses.
  destruct (for_generated_returns
              (generate_dates start_date end_date)
              (fun date => for_each expense_categories (category_body date))
              Hraised
              ltac:(intros date s v _; apply for_each_returns;
                    intros item t u _; apply category_body_returns)
              ([], 1) w) as (st & w1 & Hloop).
  rewrite (bind_ok _ _ _ _ _ Hloop). unfold ret. eauto.
Qed.

End ExpenseFacts.

(** * The calendar filter: contract *)

(** C3.  For every start and end date, every date yielded by
    [generate_dates] has a weekday other than the excluded one (6, Sunday)
    and is not in the holiday list; the yielded dates are strictly
    ascending; and when the end date is before the start date the generator
    yields nothing and raises nothing. *)
Theorem generate_dates_contract (start_date end_date : datetime) :
  (forall d, In d (yields_of (generate_dates start_date end_date)) ->
             weekday d <> 6 /\ ~ In d holidays)
  /\ ascending (yields_of (generate_dates start_date end_date))
  /\ (datetime_ltb end_date start_date = true ->
      generate_dates start_date end_date = ([], None)).
Proof.
  split; [|split].
  - intros d. apply business_days_In.
  - apply dates_loop_ascending.
  - intros Hlt. rewrite generate_dates_unfold.
    now rewrite (datetime_ltb_not_leb _ _ Hlt).
Qed.

Lemma generate_dates_contract_witness :
  (In (datetime_ymd 2024 1 27)
      (yields_of (generate_dates (datetime_ymd 2024 1 25)
                                 (datetime_ymd 2024 1 29)))
   /\ weekday (datetime_ymd 2024 1 27) <> 6
   /\ ~ In (datetime_ymd 2024 1 27) holidays)
  /\ (datetime_ltb (datetime_ymd 2024 1 1) (datetime_ymd 2024 1 2) = true
      /\ generate_dates (datetime_ymd 2024 1 2) (datetime_ymd 2024 1 1)
         = ([], None)).
Proof.
  assert (Hin : In (datetime_ymd 2024 1 27)
                   (yields_of (generate_dates (datetime_ymd 2024 1 25)
                                              (datetime_ymd 2024 1 29))))
    by in_computed_list.
  split.
  - split; [exact Hin|].
    exact (proj1 (generate_dates_contract (datetime_ymd 2024 1 25)
                                          (datetime_ymd 2024 1 29)) _ Hin).
  - split; [reflexivity|].
    exact (proj2 (proj2 (generate_dates_contract (datetime_ymd 2024 1 2)
                                                 (datetime_ymd 2024 1 1)))
                 eq_refl).
Defined.

(** * The catalog generator: contract *)

(** C4.  For every target count [num_products] (a count: not negative),
    [generate_products] returns exactly that many records, and in each of
    them the MRP lies in [10, 500], the cost price in [5, 400], the
    shelf life in [30, 720], both prices having two decimals. *)
Theorem generate_products_contract
        {R F : Type} {RS : RandomSource R} {FS : FakerSource F}
        (num_products : Z) (w : world R F) :
  0 <= num_products ->
  exists products w',
    generate_products num_products w = inr (products, w')
    /\ Z.of_nat (List.length products) = num_products
    /\ Forall product_in_bounds products.
Proof.
  intros Hn. unfold generate_products.
  destruct (products_loop_ok (range num_products) [] w)
    as (new & w' & Hrun & Hsnos & Hbounds).
  exists new, w'. split; [exact Hrun|]. split; [|exact Hbounds].
  apply (f_equal (@List.length Z)) in Hsnos.
  rewrite !length_map, range_length in Hsnos. lia.
Qed.

Lemma generate_products_contract_witness :
  0 <= 3
  /\ exists products w',
      generate_products 3 (scripted [1; 2; 500; 250; 7]) = inr (products, w')
      /\ Z.of_nat (List.length products) = 3
      /\ Forall product_in_bounds products.
Proof.
  split; [lia|].
  apply (generate_products_contract 3 (scripted [1; 2; 500; 250; 7])). lia.
Defined.

(** * Sequence numbers *)

Lemma seq_from_one_increasing (a n : nat) :
  StronglySorted Z.lt (map Z.of_nat (seq a n)).
Proof.
  revert a. induction n as [|n IH]; intros a; cbn [seq map]; constructor.
  - apply IH.
  - apply Forall_forall. intros x Hx. apply in_map_iff in Hx.
    destruct Hx as (i & <- & Hi). apply in_seq in Hi. lia.
Qed.

Lemma numbered_from_one_increasing (snos : list Z) :
  numbered_from_one snos -> StronglySorted Z.lt snos.
Proof. intros ->. apply seq_from_one_increasing. Qed.

(** C7.  In each of the three record sets the sequence numbers [S.No] are,
    in emission order, 1, 2, 3, ...: they start at 1, grow by 1 per record
    and are therefore strictly increasing. *)
Theorem sequence_numbers_count_from_one
        {R F : Type} {RS : RandomSource R} {FS : FakerSource F}
        (w : world R F) :
  (forall num_products products w',
      generate_products num_products w = inr (products, w') ->
      numbered_from_one (map Product.S_No products)
      /\ StronglySorted Z.lt (map Product.S_No products))
  /\ (forall start_date end_date products transactions w',
         generate_transactions start_date end_date products w
         = inr (transactions, w') ->
         numbered_from_one (map Transaction.S_No transactions)
         /\ StronglySorted Z.lt (map Transaction.S_No transactions))
  /\ (forall start_date end_date expenses w',
         generate_expenses start_date end_date w = inr (expenses, w') ->
         numbered_from_one (map Expense.S_No expenses)
         /\ StronglySorted Z.lt (map Expense.S_No expenses)).
Proof.
  assert (Hboth : forall snos, numbered_from_one snos ->
                               numbered_from_one snos
                               /\ StronglySorted Z.lt snos)
    by (intros snos H; split; [exact H | now apply numbered_from_one_increasing]).
  split; [|split].
  - intros n products w' H. apply Hboth. unfold generate_products in H.
    destruct (products_loop_ok (range n) [] w) as (new & w1 & Hrun & Hsnos & _).
    rewrite Hrun in H. injection H as <- _. cbn [app].
    unfold numbered_from_one. rewrite Hsnos, range_succ.
    now rewrite length_map, length_seq.
  - intros start_date end_date products transactions w' H.
    apply Hboth. now apply generate_transactions_inr in H.
  - intros start_date end_date expenses w' H.
    apply Hboth. now apply generate_expenses_inr in H.
Qed.

Lemma sequence_numbers_count_from_one_witness :
  exists products transactions expenses,
    map Product.S_No products = [1; 2; 3]
    /\ numbered_from_one (map Product.S_No products)
    /\ List.length transactions = 80%nat
    /\ numbered_from_one (map Transaction.S_No transactions)
    /\ List.length expenses = 13%nat
    /\ numbered_from_one (map Expense.S_No expenses).
Proof.
  remember (generate_products 3 (scripted [])) as rp eqn:Ep.
  remember (generate_transactions (datetime_ymd 2024 1 1) (datetime_ymd 2024 1 1)
                                  sample_catalog (scripted [])) as rt eqn:Et.
  remember (generate_expenses (datetime_ymd 2024 1 1) (datetime_ymd 2024 1 2)
                              (scripted [])) as re eqn:Ee.
  assert (Hp : succeeded rp = true) by by_running Ep.
  assert (Hps : map Product.S_No (result_or [] rp) = [1; 2; 3])
    by by_running Ep.
  assert (Ht : succeeded rt = true) by by_running Et.
  assert (Hts : List.length (result_or [] rt) = 80%nat) by by_running Et.
  assert (He : succeeded re = true) by by_running Ee.
  assert (Hes : List.length (result_or [] re) = 13%nat) by by_running Ee.
  destruct rp as [x|[products w1]]; [discriminate Hp|].
  destruct rt as [x|[transactions w2]]; [discriminate Ht|].
  destruct re as [x|[expenses w3]]; [discriminate He|].
  cbn [result_or] in Hps, Hts, Hes.
  exists products, transactions, expenses.
  destruct (sequence_numbers_count_from_one (scripted [])) as (H1 & H2 & H3).
  split; [exact Hps|].
  split; [exact (proj1 (H1 _ _ _ (eq_sym Ep)))|].
  split; [exact Hts|].
  split; [exact (proj1 (H2 _ _ _ _ _ (eq_sym Et)))|].
  split; [exact Hes|].
  exact (proj1 (H3 _ _ _ _ (eq_sym Ee))).
Defined.

(** * Dates of the records *)

Lemma expected_keys_dates (dates : list datetime) (k : string * string) :
  In k (expected_keys dates) -> In (snd k) (map strftime_dmY dates).
Proof.
  unfold expected_keys. rewrite in_flat_map. intros (d & Hd & Hk).
  unfold expected_keys_on in Hk. apply in_map_iff in Hk.
  destruct Hk as (item & <- & _). cbn [snd]. now apply in_map.
Qed.

(** C6.  The date written on every transaction that [generate_transactions]
    emits, and on every expense that [generate_expenses] emits, is the
    (formatted) date of a business day that [generate_dates] yields for the
    same start and end dates. *)
Theorem record_dates_are_business_days
        {R F : Type} {RS : RandomSource R} {FS : FakerSource F}
        (start_date end_date : datetime) (w : world R F) :
  (forall products transactions w',
      generate_transactions start_date end_date products w
      = inr (transactions, w') ->
      forall t, In t transactions ->
                In (Transaction.date t)
                   (map strftime_dmY
                        (yields_of (generate_dates start_date end_date))))
  /\ (forall expenses w',
         generate_expenses start_date end_date w = inr (expenses, w') ->
         forall e, In e expenses ->
                   In (Expense.date e)
                      (map strftime_dmY
                           (yields_of (generate_dates start_date end_date)))).
Proof.
  split.
  - intros products transactions w' H t Ht.
    apply generate_transactions_inr in H. destruct H as (_ & Hall & _).
    rewrite Forall_forall in Hall. destruct (Hall t Ht) as (d & _ & _ & Hd & -> & _).
    now apply in_map.
  - intros expenses w' H e He.
    apply generate_expenses_inr in H. destruct H as (_ & Hkeys & _).
    apply (expected_keys_dates _ (expense_key e)).
    fold (business_days start_date end_date). rewrite <- Hkeys.
    now apply in_map.
Qed.

Lemma record_dates_are_business_days_witness :
  exists transactions expenses,
    List.length transactions = 184%nat
    /\ List.length expenses = 3%nat
    /\ (forall t, In t transactions ->
                  In (Transaction.date t)
                     (map strftime_dmY
                          (yields_of (generate_dates (datetime_ymd 2024 1 5)
                                                     (datetime_ymd 2024 1 7)))))
    /\ (forall e, In e expenses ->
                  In (Expense.date e)
                     (map strftime_dmY
                          (yields_of (generate_dates (datetime_ymd 2024 1 6)
                                                     (datetime_ymd 2024 1 7))))).
Proof.
  remember (generate_transactions (datetime_ymd 2024 1 5) (datetime_ymd 2024 1 7)
                                  sample_catalog (scripted [])) as rt eqn:Et.
  remember (generate_expenses (datetime_ymd 2024 1 6) (datetime_ymd 2024 1 7)
                              (scripted [])) as re eqn:Ee.
  assert (Ht : succeeded rt = true) by by_running Et.
  assert (Hts : List.length (result_or [] rt) = 184%nat) by by_running Et.
  assert (He : succeeded re = true) by by_running Ee.
  assert (Hes : List.length (result_or [] re) = 3%nat) by by_running Ee.
  destruct rt as [x|[transactions w2]]; [discriminate Ht|].
  destruct re as [x|[expenses w3]]; [discriminate He|].
  cbn [result_or] in Hts, Hes.
  exists transactions, expenses.
  split; [exact Hts|]. split; [exact Hes|]. split.
  - exact (proj1 (record_dates_are_business_days
                    (datetime_ymd 2024 1 5) (datetime_ymd 2024 1 7)
                    (scripted [])) _ _ _ (eq_sym Et)).
  - exact (proj2 (record_dates_are_business_days
                    (datetime_ymd 2024 1 6) (datetime_ymd 2024 1 7)
                    (scripted [])) _ _ (eq_sym Ee)).
Defined.

(** * The empty catalog *)

Lemma no_yield_no_raise (start_date end_date : datetime) :
  valid_datetime start_date ->
  yields_of (generate_dates start_date end_date) = [] ->
  raised_by (generate_dates start_date end_date) = None.
Proof.
  intros [[_ Hmax] _] Hnone.
  destruct (raised_by (generate_dates start_date end_date)) as [e|] eqn:E;
    [|reflexivity].
  apply dates_loop_raised in E; [|exact Hmax]. now destruct E.
Qed.

(** C8.  Given an empty catalog and a date range with at least one business
    day, [generate_transactions] raises at the product lookup (the frame
    has no [product_name] column) instead of returning; given a date range
    without business days it returns the empty result, whatever the
    catalog. *)
Theorem empty_catalog_fails_at_lookup
        {R F : Type} {RS : RandomSource R} {FS : FakerSource F}
        (start_date end_date : datetime) (w : world R F) :
  (yields_of (generate_dates start_date end_date) <> [] ->
   generate_transactions start_date end_date [] w = inl KeyError)
  /\ (valid_datetime start_date ->
      yields_of (generate_dates start_date end_date) = [] ->
      forall products,
        generate_transactions start_date end_date products w = inr ([], w)).
Proof.
  split.
  - intros Hdays. unfold generate_transactions, for_generated.
    destruct (yields_of (generate_dates start_date end_date)) as [|d rest];
      [congruence|].
    cbn [for_each]. do 3 apply bind_raise. apply day_body_empty_catalog.
  - intros Hvalid Hnone products.
    pose proof (no_yield_no_raise _ _ Hvalid Hnone) as Hraise.
    unfold generate_transactions, for_generated.
    rewrite Hnone, Hraise. reflexivity.
Qed.

Lemma empty_catalog_fails_at_lookup_witness :
  (yields_of (generate_dates (datetime_ymd 2024 1 1) (datetime_ymd 2024 3 31))
   <> []
   /\ generate_transactions (datetime_ymd 2024 1 1) (datetime_ymd 2024 3 31) []
                            (scripted [])
      = inl KeyError)
  /\ (valid_datetime (datetime_ymd 2024 3 24)
      /\ yields_of (generate_dates (datetime_ymd 2024 3 24)
                                   (datetime_ymd 2024 3 25)) = []
      /\ generate_transactions (datetime_ymd 2024 3 24) (datetime_ymd 2024 3 25)
                               sample_catalog (scripted [])
         = inr ([], scripted [])).
Proof.
  assert (Hdays : yields_of (generate_dates (datetime_ymd 2024 1 1)
                                            (datetime_ymd 2024 3 31)) <> [])
    by (vm_compute; discriminate).
  assert (Hvalid : valid_datetime (datetime_ymd 2024 3 24))
    by (vm_compute; repeat split; discriminate).
  assert (Hnone : yields_of (generate_dates (datetime_ymd 2024 3 24)
                                            (datetime_ymd 2024 3 25)) = [])
    by reflexivity.
  split.
  - split; [exact Hdays|].
    exact (proj1 (empty_catalog_fails_at_lookup
                    (datetime_ymd 2024 1 1) (datetime_ymd 2024 3 31)
                    (scripted [])) Hdays).
  - split; [exact Hvalid|]. split; [exact Hnone|].
    exact (proj2 (empty_catalog_fails_at_lookup
                    (datetime_ymd 2024 3 24) (datetime_ymd 2024 3 25)
                    (scripted [])) Hvalid Hnone sample_catalog).
Defined.

(** * Prices of a transaction *)

Lemma first_match_In (products : list Product.t) (product : string)
      (p : Product.t) :
  first_match products product = inr p -> In p products.
Proof.
  unfold first_match.
  destruct (product_name_column products); [discriminate|].
  destruct (find (fun p => (Product.product_name p =? product)%string) products)
    as [p'|] eqn:E; [|discriminate].
  intros H. injection H as <-. now apply find_some in E.
Qed.

(** The total of a transaction is rounded from the unrounded discounted
    price; the rounded unit price times the quantity is within half a
    hundredth per unit, plus half a hundredth, of it. *)
Lemma total_close_to_product (m d : Q) (q : Z) :
  0 <= q ->
  (Qabs (round2 (m * inject_Z q * (1 - d)) - round2 (m * (1 - d)) * inject_Z q)
   <= (inject_Z q + 1) / 200)%Q.
Proof.
  intros Hq. apply Qabs_Qle_condition.
  destruct (round2_error (m * inject_Z q * (1 - d))) as [Htlo Hthi].
  destruct (round2_error (m * (1 - d))) as [Hulo Huhi].
  rewrite Zle_Qle in Hq. change (inject_Z 0) with 0%Q in Hq.
  set (T := round2 (m * inject_Z q * (1 - d))) in *.
  set (u := round2 (m * (1 - d))) in *.
  set (n := inject_Z q) in *.
  unfold Qdiv. change (/ 200)%Q with (1 # 200)%Q.
  split; nra.
Qed.

(** The value that [round2] returns is a nearest hundredth. *)
Lemma round2_nearest (x : Q) : nearest_hundredth x (round2 x).
Proof.
  split; [apply round2_two_decimals|].
  apply Qabs_Qle_condition. destruct (round2_error x). split; lra.
Qed.

(** C2, as the code has it.  For every transaction emitted by
    [generate_transactions], with [p] the referenced product (the first
    catalog entry of that name) and [discount] the tier drawn for it: the
    unit price is [mrp * (1 - discount)] rounded to a nearest hundredth,
    and the total is [mrp * quantity * (1 - discount)] rounded to a nearest
    hundredth, that is, rounded from the unrounded price and not from the
    unit price.  The total lies within [(quantity + 1) / 200] of
    [unit_price * quantity].  Which of two hundredths a value halfway
    between them is rounded to is left open. *)
Theorem total_amount_from_unrounded_price
        {R F : Type} {RS : RandomSource R} {FS : FakerSource F}
        (start_date end_date : datetime) (products : list Product.t)
        (transactions : list Transaction.t) (w w' : world R F) :
  generate_transactions start_date end_date products w
  = inr (transactions, w') ->
  forall t, In t transactions ->
    exists p discount,
      first_match products (Transaction.product_name t) = inr p
      /\ In discount discounts
      /\ nearest_hundredth (Product.mrp p * (1 - discount))
                           (Transaction.unit_price t)
      /\ nearest_hundredth (Product.mrp p * inject_Z (Transaction.quantity t)
                            * (1 - discount))
                           (Transaction.total_amount t)
      /\ (Qabs (Transaction.total_amount t
                - Transaction.unit_price t * inject_Z (Transaction.quantity t))
          <= (inject_Z (Transaction.quantity t) + 1) / 200)%Q.
Proof.
  intros H t Ht. apply generate_transactions_inr in H.
  destruct H as (_ & Hall & _). rewrite Forall_forall in Hall.
  destruct (Hall t Ht) as (d & p & discount & _ & _ & Hp & Hdisc & Hq & Hu & Htot).
  exists p, discount. do 2 (split; [assumption|]).
  rewrite Hu, Htot. split; [apply round2_nearest|].
  split; [apply round2_nearest|].
  apply total_close_to_product. lia.
Qed.

Lemma total_amount_from_unrounded_price_witness :
  exists transactions,
    List.length transactions = 80%nat
    /\ forall t, In t transactions ->
         exists p discount,
           first_match sample_catalog (Transaction.product_name t) = inr p
           /\ In discount discounts
           /\ nearest_hundredth (Product.mrp p * (1 - discount))
                                (Transaction.unit_price t)
           /\ nearest_hundredth
                (Product.mrp p * inject_Z (Transaction.quantity t)
                 * (1 - discount))
                (Transaction.total_amount t)
           /\ (Qabs (Transaction.total_amount t
                     - Transaction.unit_price t
                       * inject_Z (Transaction.quantity t))
               <= (inject_Z (Transaction.quantity t) + 1) / 200)%Q.
Proof.
  remember (generate_transactions (datetime_ymd 2024 1 1) (datetime_ymd 2024 1 1)
                                  sample_catalog (scripted [0; 0; 4; 3]))
    as rt eqn:Et.
  assert (Ht : succeeded rt = true) by by_running Et.
  assert (Hts : List.length (result_or [] rt) = 80%nat) by by_running Et.
  destruct rt as [x|[transactions w2]]; [discriminate Ht|].
  cbn [result_or] in Hts.
  exists transactions. split; [exact Hts|].
  exact (total_amount_from_unrounded_price _ _ _ _ _ _ (eq_sym Et)).
Defined.

(** C2, as stated, fails: in the run of the catalog generator followed by
    the transaction generator under [one_product_then_sale], the first
    transaction sells 5 units at unit price 9.97 for a total of 49.83, while
    [round(9.97 * 5, 2)] is 49.85. *)
Lemma total_amount_differs_from_rounded_product :
  exists t rest w',
    bind (generate_products 1)
         (generate_transactions (datetime_ymd 2024 1 1) (datetime_ymd 2024 1 1))
         (scripted one_product_then_sale)
    = inr (t :: rest, w')
    /\ Transaction.quantity t = 5
    /\ (Transaction.unit_price t == 997 # 100)%Q
    /\ (Transaction.total_amount t == 4983 # 100)%Q
    /\ ~ (Transaction.total_amount t
          == round2 (Transaction.unit_price t
                     * inject_Z (Transaction.quantity t)))%Q.
Proof.
  remember (bind (generate_products 1)
                 (generate_transactions (datetime_ymd 2024 1 1)
                                        (datetime_ymd 2024 1 1))
                 (scripted one_product_then_sale)) as r eqn:E.
  pose (first := fun l => hd (Transaction.mk 0 EmptyString EmptyString EmptyString 0 0 0
                                           EmptyString EmptyString) l).
  assert (Hlen : List.length (result_or [] r) = 80%nat) by by_running E.
  assert (Hq : Transaction.quantity (first (result_or [] r)) = 5)
    by by_running E.
  assert (Hu : (Transaction.unit_price (first (result_or [] r)) == 997 # 100)%Q)
    by by_running E.
  assert (Ht : (Transaction.total_amount (first (result_or [] r))
                == 4983 # 100)%Q)
    by by_running E.
  destruct r as [x|[[|t rest] w']]; try discriminate Hlen.
  cbn [result_or first hd] in Hq, Hu, Ht.
  exists t, rest, w'. split; [reflexivity|].
  split; [exact Hq|]. split; [exact Hu|]. split; [exact Ht|].
  rewrite Hq. intros Heq. rewrite Ht in Heq.
  assert (Hr : (round2 (Transaction.unit_price t * inject_Z 5) == 4985 # 100)%Q).
  { unfold round2.
    assert (Hx : (Transaction.unit_price t * inject_Z 5 * 100 == 4985)%Q)
      by (rewrite Hu; reflexivity).
    assert (Hk : round_half_even (Transaction.unit_price t * inject_Z 5 * 100)
                 = 4985).
    { apply Z.le_antisymm.
      - apply round_half_even_le. rewrite Hx. apply Qle_refl.
      - apply round_half_even_ge. rewrite Hx. apply Qle_refl. }
    rewrite Hk. reflexivity. }
  rewrite Hr in Heq. discriminate Heq.
Qed.

Lemma in_bounds_priced_in_hundredths (products : list Product.t) :
  Forall product_in_bounds products -> priced_in_hundredths products.
Proof.
  apply Forall_impl. intros p ((Hlo & _) & Hdec & _). split; [assumption|].
  apply Qle_trans with (y := 10%Q); [discriminate | assumption].
Qed.

Lemma discounted_price_le (m d : Q) (k : Z) :
  (m == inject_Z k / 100)%Q -> (0 <= m)%Q -> In d discounts ->
  (round2 (m * (1 - d)) <= m)%Q.
Proof.
  intros Hm Hpos Hd.
  apply Qle_trans with (y := (inject_Z k / 100)%Q); [|rewrite Hm; apply Qle_refl].
  apply round2_le. rewrite <- Hm.
  cbn in Hd. repeat (destruct Hd as [<-|Hd]; [lra|]). destruct Hd.
Qed.

Lemma emitted_unit_price_le (dates : list datetime) (products : list Product.t)
      (t : Transaction.t) :
  priced_in_hundredths products ->
  emitted_transaction dates products t ->
  exists p,
    first_match products (Transaction.product_name t) = inr p
    /\ (Transaction.unit_price t <= Product.mrp p)%Q.
Proof.
  intros Hpriced (d & p & discount & _ & _ & Hp & Hdisc & _ & Hu & _).
  exists p. split; [assumption|]. rewrite Hu.
  unfold priced_in_hundredths in Hpriced. rewrite Forall_forall in Hpriced.
  destruct (Hpriced p (first_match_In _ _ _ Hp)) as ((k & Hk) & Hpos).
  now apply discounted_price_le with (k := k).
Qed.

(** On a catalog priced as [generate_products] prices it (each MRP
    non-negative, with two decimals), no unit price is above the MRP of the
    referenced product. *)
Lemma unit_price_le_on_priced_catalog
      {R F : Type} {RS : RandomSource R} {FS : FakerSource F}
      (start_date end_date : datetime) (products : list Product.t)
      (transactions : list Transaction.t) (w w' : world R F) :
  priced_in_hundredths products ->
  generate_transactions start_date end_date products w
  = inr (transactions, w') ->
  forall t, In t transactions ->
    exists p,
      first_match products (Transaction.product_name t) = inr p
      /\ (Transaction.unit_price t <= Product.mrp p)%Q.
Proof.
  intros Hpriced H t Ht. apply generate_transactions_inr in H.
  destruct H as (_ & Hall & _). rewrite Forall_forall in Hall.
  exact (emitted_unit_price_le _ _ _ Hpriced (Hall t Ht)).
Qed.

(** Every catalog that [generate_products] returns is priced in hundredths,
    without a negative MRP. *)
Lemma generate_products_priced
      {R F : Type} {RS : RandomSource R} {FS : FakerSource F}
      (num_products : Z) (products : list Product.t) (w w' : world R F) :
  generate_products num_products w = inr (products, w') ->
  priced_in_hundredths products.
Proof.
  unfold generate_products. intros H.
  destruct (products_loop_ok (range num_products) [] w)
    as (new & w0 & Hrun & _ & Hbounds).
  rewrite Hrun in H. injection H as <- _. cbn [app].
  now apply in_bounds_priced_in_hundredths.
Qed.

(** C5.  For every catalog that [generate_products] returns (whatever the
    count and the sources) and every date range, the unit price of every
    transaction that [generate_transactions] emits from that catalog is at
    most the MRP of the referenced product, the first catalog entry of the
    transaction's product name.  This is the only way the program builds a
    catalog: [main] passes the result of [generate_products]. *)
Theorem unit_price_at_most_mrp
        {R F : Type} {RS : RandomSource R} {FS : FakerSource F}
        (num_products : Z) (start_date end_date : datetime)
        (products : list Product.t) (transactions : list Transaction.t)
        (w0 w1 w2 w3 : world R F) :
  generate_products num_products w0 = inr (products, w1) ->
  generate_transactions start_date end_date products w2
  = inr (transactions, w3) ->
  forall t, In t transactions ->
    exists p,
      first_match products (Transaction.product_name t) = inr p
      /\ (Transaction.unit_price t <= Product.mrp p)%Q.
Proof.
  intros Hps Hts.
  apply generate_products_priced in Hps.
  exact (unit_price_le_on_priced_catalog _ _ _ _ _ _ Hps Hts).
Qed.

Lemma unit_price_at_most_mrp_witness :
  exists products transactions w1 w3,
    generate_products 1 (scripted one_product_then_sale) = inr (products, w1)
    /\ generate_transactions (datetime_ymd 2024 1 1) (datetime_ymd 2024 1 1)
                             products w1
       = inr (transactions, w3)
    /\ List.length transactions = 80%nat
    /\ forall t, In t transactions ->
         exists p,
           first_match products (Transaction.product_name t) = inr p
           /\ (Transaction.unit_price t <= Product.mrp p)%Q.
Proof.
  remember (bind (generate_products 1)
                 (fun products =>
                    bind (generate_transactions (datetime_ymd 2024 1 1)
                                                (datetime_ymd 2024 1 1) products)
                         (fun transactions => ret (products, transactions)))
                 (scripted one_product_then_sale)) as r eqn:E.
  assert (Hok : succeeded r = true) by by_running E.
  assert (Hlen : List.length (snd (result_or ([], []) r)) = 80%nat)
    by by_running E.
  destruct r as [x|[[products transactions] w3]]; [discriminate Hok|].
  cbn [result_or snd] in Hlen. symmetry in E.
  apply bind_inr in E. destruct E as (ps & w1 & Hps & E).
  apply bind_inr in E. destruct E as (ts & w2 & Hts & E).
  apply ret_inr in E. destruct E as (E & ->).
  injection E as -> ->.
  exists ps, ts, w1, w2.
  split; [exact Hps|]. split; [exact Hts|]. split; [exact Hlen|].
  exact (unit_price_at_most_mrp _ _ _ _ _ _ _ _ _ Hps Hts).
Defined.

(** The two decimals of the catalog matter for this bound: on a
    hand-written catalog whose MRP has a third decimal (no catalog of
    [generate_products] is one), [round(10.006, 2)] is 10.01, above the MRP
    10.006. *)
Lemma unit_price_above_mrp :
  exists t rest w' p,
    generate_transactions (datetime_ymd 2024 1 1) (datetime_ymd 2024 1 1)
                          three_decimal_catalog (scripted [])
    = inr (t :: rest, w')
    /\ first_match three_decimal_catalog (Transaction.product_name t) = inr p
    /\ (Product.mrp p == 10006 # 1000)%Q
    /\ (Transaction.unit_price t == 1001 # 100)%Q
    /\ ~ (Transaction.unit_price t <= Product.mrp p)%Q.
Proof.
  remember (generate_transactions (datetime_ymd 2024 1 1) (datetime_ymd 2024 1 1)
                                  three_decimal_catalog (scripted []))
    as r eqn:E.
  pose (first := fun l => hd (Transaction.mk 0 EmptyString EmptyString EmptyString 0 0 0
                                           EmptyString EmptyString) l).
  assert (Hlen : List.length (result_or [] r) = 80%nat) by by_running E.
  assert (Hp : first_match three_decimal_catalog
                           (Transaction.product_name (first (result_or [] r)))
               = inr (hd (Product.mk 0 EmptyString EmptyString 0 0 0) three_decimal_catalog))
    by by_running E.
  assert (Hu : (Transaction.unit_price (first (result_or [] r)) == 1001 # 100)%Q)
    by by_running E.
  destruct r as [x|[[|t rest] w']]; try discriminate Hlen.
  cbn [result_or first hd] in Hp, Hu.
  exists t, rest, w', (hd (Product.mk 0 EmptyString EmptyString 0 0 0) three_decimal_catalog).
  split; [reflexivity|]. split; [exact Hp|]. split; [reflexivity|].
  split; [exact Hu|].
  apply Qlt_not_le. rewrite Hu. reflexivity.
Qed.

(** * Expenses and their frequencies *)

Lemma filter_all {A} (l : list A) : filter (fun _ => true) l = l.
Proof. induction l as [|x l IH]; cbn; congruence. Qed.

Lemma expense_dates_by_rule
      {R F : Type} {RS : RandomSource R} {FS : FakerSource F}
      (start_date end_date : datetime) (expenses : list Expense.t)
      (w w' : world R F) (c : string) (det : details) :
  generate_expenses start_date end_date w = inr (expenses, w') ->
  In (c, det) expense_categories ->
  map Expense.date (filter (has_category c) expenses)
  = map strftime_dmY
        (filter (fun d => should_record (frequency det) (day d) (weekday d))
                (business_days start_date end_date)).
Proof.
  intros H Hc. apply generate_expenses_inr in H. destruct H as (_ & Hkeys & _).
  rewrite filter_has_category, Hkeys.
  now rewrite (expected_keys_category c det _ Hc).
Qed.

(** C1, as the code has it.  For every date range that ends before the last
    representable day, [generate_expenses] returns, and the records of each
    category of the table are, in order: for a monthly category, one for
    each business day of the range that is the first day of its month; for
    a weekly category, one for each business day that is a Monday; for a
    daily category, one for each business day.  The business days are those
    that [generate_dates] yields for the range. *)
Theorem expenses_follow_frequency_rules
        {R F : Type} {RS : RandomSource R} {FS : FakerSource F}
        (start_date end_date : datetime) (w : world R F) :
  ordinal end_date < Calendar.MAXORDINAL ->
  exists expenses w',
    generate_expenses start_date end_date w = inr (expenses, w')
    /\ forall c det,
        In (c, det) expense_categories ->
        (frequency det = "monthly"%string ->
         map Expense.date (filter (has_category c) expenses)
         = map strftime_dmY
               (filter (fun d => day d =? 1)
                       (yields_of (generate_dates start_date end_date))))
        /\ (frequency det = "weekly"%string ->
            map Expense.date (filter (has_category c) expenses)
            = map strftime_dmY
                  (filter (fun d => weekday d =? 0)
                          (yields_of (generate_dates start_date end_date))))
        /\ (frequency det = "daily"%string ->
            map Expense.date (filter (has_category c) expenses)
            = map strftime_dmY
                  (yields_of (generate_dates start_date end_date))).
Proof.
  intros Hend.
  pose proof (dates_loop_no_overflow
                (Z.to_nat (ordinal end_date - ordinal start_date + 1))
                start_date end_date Hend) as Hraise.
  destruct (generate_expenses_returns start_date end_date w Hraise)
    as (expenses & w' & Hrun).
  exists expenses, w'. split; [exact Hrun|].
  intros c det Hc.
  pose proof (expense_dates_by_rule _ _ _ _ _ c det Hrun Hc) as Hdates.
  fold (business_days start_date end_date).
  split; [|split]; intros Hf; rewrite Hf in Hdates; rewrite Hdates.
  - reflexivity.
  - f_equal. apply filter_ext. intros d.
    unfold should_record. cbn. apply orb_false_r.
  - f_equal. apply filter_all.
Qed.

Lemma expenses_follow_frequency_rules_witness :
  ordinal (datetime_ymd 2024 3 31) < Calendar.MAXORDINAL
  /\ exists expenses,
      map Expense.date (filter (has_category "Rent") expenses)
      = ["01-01-2024"; "01-02-2024"; "01-03-2024"]%string
      /\ List.length (filter (has_category "Maintenance") expenses) = 12%nat
      /\ List.length (filter (has_category "Transportation") expenses)
         = List.length (yields_of (generate_dates (datetime_ymd 2024 1 1)
                                                  (datetime_ymd 2024 3 31))).
Proof.
  assert (Hend : ordinal (datetime_ymd 2024 3 31) < Calendar.MAXORDINAL)
    by reflexivity.
  split; [exact Hend|].
  destruct (expenses_follow_frequency_rules
              (datetime_ymd 2024 1 1) (datetime_ymd 2024 3 31) (scripted [])
              Hend) as (expenses & w' & _ & Hrules).
  exists expenses.
  destruct (Hrules "Rent"%string (mk_details "monthly" (15000, 20000))
                   ltac:(in_computed_list)) as (Hrent & _ & _).
  destruct (Hrules "Maintenance"%string (mk_details "weekly" (200, 500))
                   ltac:(in_computed_list)) as (_ & Hmaint & _).
  destruct (Hrules "Transportation"%string (mk_details "daily" (100, 300))
                   ltac:(in_computed_list)) as (_ & _ & Htrans).
  split; [rewrite (Hrent eq_refl); reflexivity|].
  split.
  - rewrite <- (length_map Expense.date), (Hmaint eq_refl). reflexivity.
  - rewrite <- (length_map Expense.date), (Htrans eq_refl).
    apply length_map.
Defined.

(** C1, as stated, fails.  In the window 1 January to 31 March 2024 the
    Monday of the week of 27 March is Holi, a holiday: the weekly category
    "Maintenance" has no record in that week.  In September 2024 the first
    day of the month is a Sunday: the monthly category "Rent" has no record
    in that month. *)
Lemma expenses_skip_a_week_and_a_month :
  (exists expenses w',
      generate_expenses (datetime_ymd 2024 1 1) (datetime_ymd 2024 3 31)
                        (scripted [])
      = inr (expenses, w')
      /\ In (datetime_ymd 2024 3 27)
            (simulated_days (datetime_ymd 2024 1 1) (datetime_ymd 2024 3 31))
      /\ records_of "Maintenance" (week_of (datetime_ymd 2024 3 27)) expenses
         = []
      /\ ~ one_record_per_period (datetime_ymd 2024 1 1)
                                 (datetime_ymd 2024 3 31) expenses)
  /\ (exists expenses w',
         generate_expenses (datetime_ymd 2024 9 1) (datetime_ymd 2024 9 30)
                           (scripted [])
         = inr (expenses, w')
         /\ In (datetime_ymd 2024 9 2)
               (simulated_days (datetime_ymd 2024 9 1) (datetime_ymd 2024 9 30))
         /\ records_of "Rent" (month_of (datetime_ymd 2024 9 2)) expenses = []
         /\ ~ one_record_per_period (datetime_ymd 2024 9 1)
                                    (datetime_ymd 2024 9 30) expenses).
Proof.
  split.
  - remember (generate_expenses (datetime_ymd 2024 1 1) (datetime_ymd 2024 3 31)
                                (scripted [])) as r eqn:E.
    assert (Hok : succeeded r = true) by by_running E.
    assert (Hnone : records_of "Maintenance" (week_of (datetime_ymd 2024 3 27))
                               (result_or [] r) = [])
      by by_running E.
    assert (Hday : In (datetime_ymd 2024 3 27)
                      (simulated_days (datetime_ymd 2024 1 1)
                                      (datetime_ymd 2024 3 31)))
      by (apply datetime_in_In; vm_compute; reflexivity).
    destruct r as [x|[expenses w']]; [discriminate Hok|].
    cbn [result_or] in Hnone.
    exists expenses, w'. split; [reflexivity|].
    split; [exact Hday|]. split; [exact Hnone|].
    intros Hclaim.
    destruct (Hclaim "Maintenance"%string (mk_details "weekly" (200, 500))
                     ltac:(in_computed_list)) as (_ & Hweekly & _).
    destruct (Hweekly eq_refl _ Hday) as (e & He & _).
    rewrite Hnone in He. discriminate.
  - remember (generate_expenses (datetime_ymd 2024 9 1) (datetime_ymd 2024 9 30)
                                (scripted [])) as r eqn:E.
    assert (Hok : succeeded r = true) by by_running E.
    assert (Hnone : records_of "Rent" (month_of (datetime_ymd 2024 9 2))
                               (result_or [] r) = [])
      by by_running E.
    assert (Hday : In (datetime_ymd 2024 9 2)
                      (simulated_days (datetime_ymd 2024 9 1)
                                      (datetime_ymd 2024 9 30)))
      by (apply datetime_in_In; vm_compute; reflexivity).
    destruct r as [x|[expenses w']]; [discriminate Hok|].
    cbn [result_or] in Hnone.
    exists expenses, w'. split; [reflexivity|].
    split; [exact Hday|]. split; [exact Hnone|].
    intros Hclaim.
    destruct (Hclaim "Rent"%string (mk_details "monthly" (15000, 20000))
                     ltac:(in_computed_list)) as (Hmonthly & _ & _).
    destruct (Hmonthly eq_refl _ Hday) as (e & He & _).
    rewrite Hnone in He. discriminate.
Qed.

(** * Further facts about the calendar filter *)

(** The holiday test compares datetimes, time of day included: a range that
    starts at midnight never yields a calendar day of the holiday list, while
    a start with a time of day is never equal to a (midnight) holiday. *)
Lemma business_days_at_midnight (start_date end_date d : datetime) :
  time_of_day start_date = 0 ->
  In d (business_days start_date end_date) ->
  ~ In (ordinal d) (map ordinal holidays).
Proof.
  intros Hmid Hd. pose proof (business_days_In _ _ _ Hd) as [_ Hnot].
  apply dates_loop_In in Hd. destruct Hd as (_ & _ & Htod & _).
  rewrite Hmid in Htod. intros Hin. apply Hnot.
  apply in_map_iff in Hin. destruct Hin as (h & Hord & Hh).
  replace d with h; [assumption|].
  destruct d as [o t], h as [o' t']. cbn in *. subst o t.
  cbn in Hh. f_equal.
  repeat (destruct Hh as [Hh|Hh]; [now injection Hh as _ <-|]). destruct Hh.
Qed.

Example republic_day_at_nine :
  yields_of (generate_dates (datetime_ymdhm 2024 1 26 9 0)
                            (datetime_ymdhm 2024 1 26 9 0))
  = [datetime_ymdhm 2024 1 26 9 0].
Proof. reflexivity. Qed.

(** A range that reaches the last representable day makes the generator
    raise after its last yield. *)
Example last_day_overflows :
  generate_dates (datetime_ymd 9999 12 31) (datetime_ymd 9999 12 31)
  = ([datetime_ymd 9999 12 31], Some OverflowError).
Proof. reflexivity. Qed.

(** * The transaction generator returns *)

Lemma first_match_chosen (products : list Product.t) (product : string) :
  In product (map Product.product_name products) ->
  exists p, first_match products product = inr p.
Proof.
  intros H. apply in_map_iff in H. destruct H as (q & Hname & Hq).
  unfold first_match.
  destruct products as [|q0 products']; [destruct Hq|].
  cbn [product_name_column]. set (products := q0 :: products') in *.
  destruct (find (fun p => (Product.product_name p =? product)%string) products)
    as [p|] eqn:E; [eauto|].
  apply (find_none _ _ E) in Hq. rewrite Hname, String.eqb_refl in Hq.
  discriminate.
Qed.

Lemma transaction_body_returns
      {R F : Type} {RS : RandomSource R} {FS : FakerSource F}
      (date : datetime) (products : list Product.t) (i : Z)
      (st : list Transaction.t * Z) (w : world R F) :
  products <> [] ->
  exists st' w', transaction_body date products i st w = inr (st', w').
Proof.
  intros Hne. destruct st as [transactions sno]. unfold transaction_body.
  assert (Hnames : product_name_column products
                   = inr (map Product.product_name products))
    by (destruct products; [congruence | reflexivity]).
  rewrite Hnames. cbn [lift_exn]. unfold ret at 1. unfold bind at 1.
  destruct (choice_ok (map Product.product_name products) w)
    as (product & w1 & H1 & Hin).
  { destruct products; [congruence | discriminate]. }
  rewrite (bind_ok _ _ _ _ _ H1).
  destruct (first_match_chosen _ _ Hin) as (p & Hp). rewrite Hp.
  cbn [lift_exn]. unfold ret at 1. unfold bind at 1.
  destruct (randint_ok 1 5 w1 ltac:(lia)) as (qty & w2 & H2 & _).
  rewrite (bind_ok _ _ _ _ _ H2).
  destruct (choice_ok discounts w2 ltac:(discriminate)) as (discount & w3 & H3 & _).
  rewrite (bind_ok _ _ _ _ _ H3).
  destruct (with_faker_ok time_object w3) as (w4 & H4).
  rewrite (bind_ok _ _ _ _ _ H4).
  destruct (choice_ok ["Cash"; "UPI"; "Credit"]%string w4 ltac:(discriminate))
    as (payment_mode & w5 & H5 & _).
  rewrite (bind_ok _ _ _ _ _ H5).
  destruct (choices_first_ok ["Walk-in"; "Phone Order"; "Delivery"]%string
                             [7 # 10; 2 # 10; 1 # 10]%Q w5 ltac:(discriminate))
    as (transaction_type & w6 & H6 & _).
  rewrite (bind_ok _ _ _ _ _ H6). unfold ret. eauto.
Qed.

(** With a catalog that is not empty, the transaction generator raises only
    when the calendar filter does. *)
Lemma generate_transactions_returns
      {R F : Type} {RS : RandomSource R} {FS : FakerSource F}
      (start_date end_date : datetime) (products : list Product.t)
      (w : world R F) :
  products <> [] ->
  raised_by (generate_dates start_date end_date) = None ->
  exists transactions w',
    generate_transactions start_date end_date products w
    = inr (transactions, w').
Proof.
  intros Hne Hraise. unfold generate_transactions.
  destruct (for_generated_returns
              (generate_dates start_date end_date) (day_body products) Hraise)
    with (s := ([] : list Transaction.t, 1)) (w := w) as (st & w1 & Hloop).
  - intros date s v _. unfold day_body.
    destruct (randint_ok 80 120 v ltac:(lia)) as (base & v1 & Hbase & _).
    cbn [DAILY_TRANSACTIONS_RANGE fst snd]. rewrite (bind_ok _ _ _ _ _ Hbase).
    apply for_each_returns. intros i t u _.
    now apply transaction_body_returns.
  - rewrite (bind_ok _ _ _ _ _ Hloop). unfold ret. eauto.
Qed.

(** * The three generators in sequence *)

(** In the run of [main], where the catalog comes from [generate_products],
    every unit price is at most the MRP of the referenced product. *)
Lemma main_unit_price_at_most_mrp
      {R F : Type} {RS : RandomSource R} {FS : FakerSource F}
      (w w' : world R F) (products : list Product.t)
      (transactions : list Transaction.t) (expenses : list Expense.t) :
  main w = inr ((products, transactions, expenses), w') ->
  forall t, In t transactions ->
    exists p,
      first_match products (Transaction.product_name t) = inr p
      /\ (Transaction.unit_price t <= Product.mrp p)%Q.
Proof.
  unfold main. intros H.
  apply bind_inr in H. destruct H as (ps & w1 & Hps & H).
  apply bind_inr in H. destruct H as (ts & w2 & Hts & H).
  apply bind_inr in H. destruct H as (es & w3 & Hes & H).
  apply ret_inr in H. destruct H as (H & _). injection H as -> -> ->.
  unfold generate_products in Hps.
  destruct (products_loop_ok (range NUM_PRODUCTS) [] w)
    as (new & w0 & Hrun & _ & Hbounds).
  rewrite Hrun in Hps. injection Hps as <- <-. cbn [app] in Hts.
  apply generate_transactions_inr in Hts.
  destruct Hts as (_ & Hall & _). rewrite Forall_forall in Hall.
  intros t Ht.
  exact (emitted_unit_price_le _ _ _ (in_bounds_priced_in_hundredths _ Hbounds)
                               (Hall t Ht)).
Qed.

(** * At most one record per month and per week *)

Lemma dates_loop_ordinals_ascending (n : nat) (current_date end_date : datetime) :
  StronglySorted (fun a b => ordinal a < ordinal b)
                 (fst (dates_loop n current_date end_date)).
Proof.
  revert current_date. induction n as [|n IH]; intros cur; cbn [dates_loop].
  - constructor.
  - destruct (datetime_leb cur end_date); [|constructor].
    destruct (add_one_day cur) as [e|next] eqn:Hn; cbn [fst].
    + destruct (is_business_day cur); repeat constructor.
    + destruct (is_business_day cur); cbn [app]; [|apply IH].
      constructor; [apply IH|].
      apply Forall_forall. intros d Hd. apply dates_loop_In in Hd.
      apply add_one_day_inr in Hn. lia.
Qed.

Lemma StronglySorted_filter {A} (R : A -> A -> Prop) (f : A -> bool)
      (l : list A) :
  StronglySorted R l -> StronglySorted R (filter f l).
Proof.
  induction 1 as [|a l Hl IH Ha]; cbn [filter]; [constructor|].
  destruct (f a); [|assumption]. constructor; [assumption|].
  apply Forall_forall. intros x Hx. apply filter_In in Hx.
  rewrite Forall_forall in Ha. now apply Ha.
Qed.

(** Days in ascending order that [f] tells apart are sent to distinct
    values. *)
Lemma NoDup_map_ascending {B} (f : datetime -> B) (l : list datetime) :
  StronglySorted (fun a b => ordinal a < ordinal b) l ->
  (forall a b, In a l -> In b l -> f a = f b -> ordinal a = ordinal b) ->
  NoDup (map f l).
Proof.
  induction 1 as [|a l Hl IH Ha]; intros Hf; cbn [map]; constructor.
  - intros Hin. apply in_map_iff in Hin. destruct Hin as (b & Hb & Hbl).
    rewrite Forall_forall in Ha. specialize (Ha b Hbl).
    specialize (Hf a b (or_introl eq_refl) (or_intror Hbl) (eq_sym Hb)). lia.
  - apply IH. intros x y Hx Hy. apply Hf; now right.
Qed.

(** The business days that are the first of their month lie in distinct
    months: a monthly category has at most one record per month. *)
Lemma monthly_days_distinct_months (start_date end_date : datetime) :
  1 <= ordinal start_date ->
  NoDup (map (fun d => (year d, month d))
             (filter (fun d => day d =? 1)
                     (business_days start_date end_date))).
Proof.
  intros Hstart. apply NoDup_map_ascending.
  - apply StronglySorted_filter, dates_loop_ordinals_ascending.
  - intros a b Ha Hb Hym. injection Hym as Hy Hm.
    apply filter_In in Ha, Hb. destruct Ha as [Ha Ha1], Hb as [Hb Hb1].
    apply Z.eqb_eq in Ha1, Hb1.
    apply dates_loop_In in Ha, Hb.
    destruct (datetime_fields a ltac:(lia)) as (Ea & _).
    destruct (datetime_fields b ltac:(lia)) as (Eb & _).
    rewrite <- Ea, <- Eb. congruence.
Qed.

(** The business days that are Mondays lie in distinct weeks: a weekly
    category has at most one record per week. *)
Lemma weekly_days_distinct_weeks (start_date end_date : datetime) :
  NoDup (map (fun d => (ordinal d - 1) / 7)
             (filter (fun d => weekday d =? 0)
                     (business_days start_date end_date))).
Proof.
  apply NoDup_map_ascending.
  - apply StronglySorted_filter, dates_loop_ordinals_ascending.
  - intros a b Ha Hb Hweek.
    apply filter_In in Ha, Hb. destruct Ha as [_ Ha], Hb as [_ Hb].
    apply Z.eqb_eq in Ha, Hb. unfold weekday in Ha, Hb.
    replace (ordinal a + 6) with (ordinal a - 1 + 1 * 7) in Ha by lia.
    replace (ordinal b + 6) with (ordinal b - 1 + 1 * 7) in Hb by lia.
    rewrite Z.mod_add in Ha, Hb by discriminate.
    pose proof (Z.div_mod (ordinal a - 1) 7 ltac:(discriminate)).
    pose proof (Z.div_mod (ordinal b - 1) 7 ltac:(discriminate)).
    lia.
Qed.

(** * Counts that are not positive *)

(** [range(n)] is empty for [n <= 0]: the catalog generator then returns
    the empty catalog without drawing anything. *)
Lemma generate_products_nonpositive
      {R F : Type} {RS : RandomSource R} {FS : FakerSource F}
      (num_products : Z) (w : world R F) :
  num_products <= 0 -> generate_products num_products w = inr ([], w).
Proof.
  intros Hn. unfold generate_products, range.
  replace (Z.to_nat num_products) with 0%nat by lia. reflexivity.
Qed.

(** * The calendar filter, completely *)

(** X1.  [generate_dates] yields exactly the days of the range that pass its
    test: a datetime (not beyond [datetime.max]) is yielded if and only if
    it is the start date moved by a whole number of days, not after the end
    date, not on a Sunday and not a datetime of the holiday list. *)
Theorem generate_dates_yields_exactly (start_date end_date d : datetime) :
  ordinal d <= Calendar.MAXORDINAL ->
  In d (yields_of (generate_dates start_date end_date)) <->
  ordinal start_date <= ordinal d
  /\ time_of_day d = time_of_day start_date
  /\ datetime_leb d end_date = true
  /\ weekday d <> 6
  /\ ~ In d holidays.
Proof.
  intros Hmax. fold (business_days start_date end_date).
  rewrite (business_days_spec _ _ _ Hmax), is_business_day_spec. tauto.
Qed.

Lemma generate_dates_yields_exactly_witness :
  ordinal (datetime_ymd 2024 1 27) <= Calendar.MAXORDINAL
  /\ (In (datetime_ymd 2024 1 27)
         (yields_of (generate_dates (datetime_ymd 2024 1 25)
                                    (datetime_ymd 2024 1 29)))
      <-> ordinal (datetime_ymd 2024 1 25) <= ordinal (datetime_ymd 2024 1 27)
          /\ time_of_day (datetime_ymd 2024 1 27)
             = time_of_day (datetime_ymd 2024 1 25)
          /\ datetime_leb (datetime_ymd 2024 1 27) (datetime_ymd 2024 1 29)
             = true
          /\ weekday (datetime_ymd 2024 1 27) <> 6
          /\ ~ In (datetime_ymd 2024 1 27) holidays).
Proof.
  assert (H : ordinal (datetime_ymd 2024 1 27) <= Calendar.MAXORDINAL)
    by (vm_compute; discriminate).
  split; [exact H|].
  exact (generate_dates_yields_exactly (datetime_ymd 2024 1 25)
                                       (datetime_ymd 2024 1 29)
                                       (datetime_ymd 2024 1 27) H).
Defined.

Lemma generate_dates_raised (current_date end_date : datetime) :
  ordinal current_date <= Calendar.MAXORDINAL ->
  ordinal end_date <= Calendar.MAXORDINAL ->
  raised_by (generate_dates current_date end_date)
  = if reaches_last_day current_date end_date then Some OverflowError else None.
Proof.
  intros Hcur Hend.
  remember (Z.to_nat (ordinal end_date - ordinal current_date + 1)) as k eqn:Hk.
  revert current_date Hcur Hk.
  induction k as [|k IH]; intros cur Hcur Hk; rewrite generate_dates_unfold.
  - assert (Hle : datetime_leb cur end_date = false)
      by (unfold datetime_leb; zcompare).
    rewrite Hle. unfold reaches_last_day. cbn [raised_by snd]. zcompare.
  - destruct (datetime_leb cur end_date) eqn:Hle.
    + destruct (add_one_day cur) as [e|next] eqn:Hnext.
      * apply add_one_day_inl in Hnext. destruct Hnext as (-> & Hmax).
        cbn [raised_by snd]. revert Hle.
        unfold reaches_last_day, datetime_leb. zcompare.
      * pose proof (add_one_day_inr _ _ Hnext) as (Ho & Ht & Hlt).
        cbv zeta. unfold raised_by in *. cbn [snd].
        rewrite IH by lia.
        unfold reaches_last_day. now rewrite Ht.
    + cbn [raised_by snd]. revert Hle.
      unfold reaches_last_day, datetime_leb. zcompare.
Qed.

(** X2.  For datetimes within [datetime.min] and [datetime.max], the
    generator [generate_dates] ends with [OverflowError] exactly when the
    end date lies on the last representable day and the start's time of
    day is not after the end's; otherwise it ends normally.  When it
    raises, it has yielded at least one date before. *)
Theorem generate_dates_overflow (start_date end_date : datetime) :
  valid_datetime start_date -> valid_datetime end_date ->
  raised_by (generate_dates start_date end_date)
  = (if reaches_last_day start_date end_date then Some OverflowError else None)
  /\ (reaches_last_day start_date end_date = true ->
      yields_of (generate_dates start_date end_date) <> []).
Proof.
  intros [[_ Hs] _] [[_ He] _].
  pose proof (generate_dates_raised _ _ Hs He) as Hr.
  split; [exact Hr|]. intros Hreach. rewrite Hreach in Hr.
  now apply dates_loop_raised in Hr.
Qed.

Lemma generate_dates_overflow_witness :
  valid_datetime (datetime_ymd 9999 12 25)
  /\ valid_datetime (datetime_ymd 9999 12 31)
  /\ raised_by (generate_dates (datetime_ymd 9999 12 25)
                               (datetime_ymd 9999 12 31))
     = Some OverflowError
  /\ raised_by (generate_dates (datetime_ymdhm 9999 12 25 10 0)
                               (datetime_ymdhm 9999 12 31 9 0))
     = None.
Proof.
  assert (H1 : valid_datetime (datetime_ymd 9999 12 25))
    by (vm_compute; repeat split; discriminate).
  assert (H2 : valid_datetime (datetime_ymd 9999 12 31))
    by (vm_compute; repeat split; discriminate).
  assert (H3 : valid_datetime (datetime_ymdhm 9999 12 25 10 0))
    by (vm_compute; repeat split; discriminate).
  assert (H4 : valid_datetime (datetime_ymdhm 9999 12 31 9 0))
    by (vm_compute; repeat split; discriminate).
  split; [exact H1|]. split; [exact H2|]. split.
  - exact (proj1 (generate_dates_overflow _ _ H1 H2)).
  - exact (proj1 (generate_dates_overflow _ _ H3 H4)).
Defined.

Lemma holidays_at_midnight (h : datetime) : In h holidays -> time_of_day h = 0.
Proof.
  cbn. intros H. repeat (destruct H as [<-|H]; [reflexivity|]). destruct H.
Qed.

(** X3.  The holiday test compares whole datetimes.  When the start date is
    at midnight, no yielded date falls on a calendar day of the holiday
    list; when the start date has a time of day, the holiday list filters
    nothing: every day of the range that is not a Sunday is yielded,
    holidays included. *)
Theorem holiday_filter_and_time_of_day (start_date end_date d : datetime) :
  (time_of_day start_date = 0 ->
   In d (yields_of (generate_dates start_date end_date)) ->
   ~ In (ordinal d) (map ordinal holidays))
  /\ (time_of_day start_date <> 0 ->
      ordinal d <= Calendar.MAXORDINAL ->
      (In d (yields_of (generate_dates start_date end_date)) <->
       ordinal start_date <= ordinal d
       /\ time_of_day d = time_of_day start_date
       /\ datetime_leb d end_date = true
       /\ weekday d <> 6)).
Proof.
  split.
  - apply business_days_at_midnight.
  - intros Htime Hmax. fold (business_days start_date end_date).
    rewrite (business_days_spec _ _ _ Hmax), is_business_day_spec.
    split; [tauto|]. intros (Ho & Ht & Hle & Hw).
    repeat (split; [assumption|]).
    intros Hin. apply holidays_at_midnight in Hin. congruence.
Qed.

Lemma holiday_filter_and_time_of_day_witness :
  (time_of_day (datetime_ymd 2024 1 25) = 0
   /\ In (datetime_ymd 2024 1 27)
         (yields_of (generate_dates (datetime_ymd 2024 1 25)
                                    (datetime_ymd 2024 1 29)))
   /\ ~ In (ordinal (datetime_ymd 2024 1 27)) (map ordinal holidays))
  /\ (time_of_day (datetime_ymdhm 2024 1 25 9 0) <> 0
      /\ ordinal (datetime_ymdhm 2024 1 26 9 0) <= Calendar.MAXORDINAL
      /\ In (datetime_ymdhm 2024 1 26 9 0)
            (yields_of (generate_dates (datetime_ymdhm 2024 1 25 9 0)
                                       (datetime_ymdhm 2024 1 29 9 0)))).
Proof.
  assert (Hin : In (datetime_ymd 2024 1 27)
                   (yields_of (generate_dates (datetime_ymd 2024 1 25)
                                              (datetime_ymd 2024 1 29))))
    by in_computed_list.
  assert (Ht : time_of_day (datetime_ymdhm 2024 1 25 9 0) <> 0)
    by (vm_compute; discriminate).
  assert (Hm : ordinal (datetime_ymdhm 2024 1 26 9 0) <= Calendar.MAXORDINAL)
    by (vm_compute; discriminate).
  split.
  - split; [reflexivity|]. split; [exact Hin|].
    exact (proj1 (holiday_filter_and_time_of_day
                    (datetime_ymd 2024 1 25) (datetime_ymd 2024 1 29)
                    (datetime_ymd 2024 1 27)) eq_refl Hin).
  - split; [exact Ht|]. split; [exact Hm|].
    apply (proj2 (holiday_filter_and_time_of_day
                    (datetime_ymdhm 2024 1 25 9 0)
                    (datetime_ymdhm 2024 1 29 9 0)
                    (datetime_ymdhm 2024 1 26 9 0)) Ht Hm).
    vm_compute. repeat split; discriminate.
Defined.

(** * Errors of the generators *)

Lemma for_generated_raises
      {R F : Type} {RS : RandomSource R} {FS : FakerSource F} {A S}
      (g : generated A) (body : A -> S -> M R F S) (e : exn) :
  raised_by g = Some e ->
  (forall x s w, In x (yields_of g) -> exists s' w', body x s w = inr (s', w')) ->
  forall s w, for_generated g body s w = inl e.
Proof.
  intros Hg Hbody s w. unfold for_generated.
  destruct (for_each_returns (yields_of g) body Hbody s w) as (s1 & w1 & H1).
  rewrite (bind_ok _ _ _ _ _ H1), Hg. reflexivity.
Qed.

Lemma day_body_returns
      {R F : Type} {RS : RandomSource R} {FS : FakerSource F}
      (products : list Product.t) (date : datetime)
      (st : list Transaction.t * Z) (w : world R F) :
  products <> [] ->
  exists st' w', day_body products date st w = inr (st', w').
Proof.
  intros Hne. unfold day_body.
  destruct (randint_ok 80 120 w ltac:(lia)) as (base & v1 & Hbase & _).
  cbn [DAILY_TRANSACTIONS_RANGE fst snd]. rewrite (bind_ok _ _ _ _ _ Hbase).
  apply for_each_returns. intros i t u _.
  now apply transaction_body_returns.
Qed.

(** X4.  [generate_expenses] is all or nothing: for start and end within
    [datetime.min] and [datetime.max] it raises [OverflowError], returning
    no record at all, when the range reaches the last representable day,
    and returns its records otherwise.  It has no other error. *)
Theorem generate_expenses_all_or_nothing
        {R F : Type} {RS : RandomSource R} {FS : FakerSource F}
        (start_date end_date : datetime) (w : world R F) :
  valid_datetime start_date -> valid_datetime end_date ->
  if reaches_last_day start_date end_date
  then generate_expenses start_date end_date w = inl OverflowError
  else exists expenses w',
         generate_expenses start_date end_date w = inr (expenses, w').
Proof.
  intros Hs He.
  pose proof (generate_dates_raised _ _ (proj2 (proj1 Hs)) (proj2 (proj1 He)))
    as Hr.
  destruct (reaches_last_day start_date end_date).
  - unfold generate_expenses. apply bind_raise.
    apply for_generated_raises; [exact Hr|].
    intros date s v _. apply for_each_returns.
    intros item t u _. apply category_body_returns.
  - now apply generate_expenses_returns.
Qed.

Lemma generate_expenses_all_or_nothing_witness :
  valid_datetime (datetime_ymd 9999 12 30)
  /\ valid_datetime (datetime_ymd 9999 12 31)
  /\ generate_expenses (datetime_ymd 9999 12 30) (datetime_ymd 9999 12 31)
                       (scripted [])
     = inl OverflowError
  /\ exists expenses w',
      generate_expenses (datetime_ymd 9999 12 30) (datetime_ymd 9999 12 30)
                        (scripted [])
      = inr (expenses, w').
Proof.
  assert (H1 : valid_datetime (datetime_ymd 9999 12 30))
    by (vm_compute; repeat split; discriminate).
  assert (H2 : valid_datetime (datetime_ymd 9999 12 31))
    by (vm_compute; repeat split; discriminate).
  split; [exact H1|]. split; [exact H2|]. split.
  - exact (generate_expenses_all_or_nothing _ _ (scripted []) H1 H2).
  - exact (generate_expenses_all_or_nothing _ _ (scripted []) H1 H1).
Defined.

(** X5.  With a catalog that is not empty, [generate_transactions] is all
    or nothing in the same way: [OverflowError] and no record when the
    range reaches the last representable day, its records otherwise; the
    product lookup never fails. *)
Theorem generate_transactions_all_or_nothing
        {R F : Type} {RS : RandomSource R} {FS : FakerSource F}
        (start_date end_date : datetime) (products : list Product.t)
        (w : world R F) :
  valid_datetime start_date -> valid_datetime end_date ->
  products <> [] ->
  if reaches_last_day start_date end_date
  then generate_transactions start_date end_date products w = inl OverflowError
  else exists transactions w',
         generate_transactions start_date end_date products w
         = inr (transactions, w').
Proof.
  intros Hs He Hne.
  pose proof (generate_dates_raised _ _ (proj2 (proj1 Hs)) (proj2 (proj1 He)))
    as Hr.
  destruct (reaches_last_day start_date end_date).
  - unfold generate_transactions. apply bind_raise.
    apply for_generated_raises; [exact Hr|].
    intros date s v _. now apply day_body_returns.
  - now apply generate_transactions_returns.
Qed.

Lemma generate_transactions_all_or_nothing_witness :
  valid_datetime (datetime_ymd 9999 12 30)
  /\ valid_datetime (datetime_ymd 9999 12 31)
  /\ sample_catalog <> []
  /\ generate_transactions (datetime_ymd 9999 12 30) (datetime_ymd 9999 12 31)
                           sample_catalog (scripted [])
     = inl OverflowError
  /\ exists transactions w',
      generate_transactions (datetime_ymd 9999 12 30) (datetime_ymd 9999 12 30)
                            sample_catalog (scripted [])
      = inr (transactions, w').
Proof.
  assert (H1 : valid_datetime (datetime_ymd 9999 12 30))
    by (vm_compute; repeat split; discriminate).
  assert (H2 : valid_datetime (datetime_ymd 9999 12 31))
    by (vm_compute; repeat split; discriminate).
  assert (H3 : sample_catalog <> []) by discriminate.
  split; [exact H1|]. split; [exact H2|]. split; [exact H3|]. split.
  - exact (generate_transactions_all_or_nothing _ _ _ (scripted []) H1 H2 H3).
  - exact (generate_transactions_all_or_nothing _ _ _ (scripted []) H1 H1 H3).
Defined.

(** * The transactions, field by field and day by day *)

Lemma choices_first_inr
      {R F : Type} {RS : RandomSource R} {FS : FakerSource F} {A}
      (population : list A) (weights : list Q) (w w' : world R F) (x : A) :
  choices_first population weights w = inr (x, w') -> In x population.
Proof.
  destruct population as [|y l]; cbn [choices_first]; [discriminate|].
  intros H. apply bind_inr in H. destruct H as (u & w1 & _ & H).
  apply ret_inr in H. destruct H as (-> & _). apply nth_head_In.
Qed.

Lemma product_name_column_inr (products : list Product.t) (names : list string) :
  product_name_column products = inr names ->
  names = map Product.product_name products.
Proof.
  destruct products; cbn [product_name_column]; [discriminate|].
  intros H. now injection H as <-.
Qed.

(** One iteration of the inner loop appends one transaction, dated on the
    day of the outer loop, with fields drawn from their ranges. *)
Lemma transaction_body_fields
      {R F : Type} {RS : RandomSource R} {FS : FakerSource F}
      (date : datetime) (products : list Product.t) (i : Z)
      (st st' : list Transaction.t * Z) (w w' : world R F) :
  transaction_body date products i st w = inr (st', w') ->
  exists t,
    st' = (fst st ++ [t], snd st + 1)
    /\ Transaction.date t = strftime_dmY date
    /\ transaction_as_configured products t.
Proof.
  destruct st as [transactions sno]. unfold transaction_body. intros H.
  apply bind_inr in H. destruct H as (names & w0 & Hnames & H).
  apply lift_exn_inr in Hnames. destruct Hnames as (Hnames & ->).
  apply product_name_column_inr in Hnames.
  apply bind_inr in H. destruct H as (product & w1 & Hproduct & H).
  apply choice_inr in Hproduct. rewrite Hnames in Hproduct.
  apply bind_inr in H. destruct H as (p & w2 & _ & H).
  apply bind_inr in H. destruct H as (qty & w3 & Hqty & H).
  apply randint_inr in Hqty; [|lia].
  apply bind_inr in H. destruct H as (discount & w4 & _ & H).
  apply bind_inr in H. destruct H as (t & w5 & _ & H).
  apply bind_inr in H. destruct H as (payment_mode & w6 & Hpay & H).
  apply choice_inr in Hpay.
  apply bind_inr in H. destruct H as (transaction_type & w7 & Htype & H).
  apply choices_first_inr in Htype.
  apply ret_inr in H. destruct H as (-> & _).
  eexists. split; [reflexivity|]. split; [reflexivity|].
  unfold transaction_as_configured. cbn. auto.
Qed.

(** A loop whose every iteration appends one record appends as many records
    as it has iterations. *)
Lemma for_each_appends
      {R F : Type} {RS : RandomSource R} {FS : FakerSource F} {A B}
      (P : B -> Prop) (xs : list A)
      (body : A -> list B * Z -> M R F (list B * Z)) :
  (forall x s w s' w',
      body x s w = inr (s', w') ->
      exists t, s' = (fst s ++ [t], snd s + 1) /\ P t) ->
  forall s w s' w',
    for_each xs body s w = inr (s', w') ->
    exists new,
      fst s' = fst s ++ new
      /\ List.length new = List.length xs
      /\ Forall P new.
Proof.
  intros Hbody. induction xs as [|x xs IH]; intros s w s' w' H; cbn in H.
  - apply ret_inr in H. destruct H as (-> & _).
    exists []. rewrite app_nil_r. repeat split. constructor.
  - apply bind_inr in H. destruct H as (s1 & w1 & H1 & H).
    apply Hbody in H1. destruct H1 as (t & -> & Ht).
    apply IH in H. destruct H as (new & Hnew & Hlen & Hall).
    exists (t :: new). cbn [fst] in Hnew. rewrite Hnew, <- app_assoc.
    repeat split; [cbn; congruence | now constructor].
Qed.

Lemma daily_count (date : datetime) (base : Z) :
  weekday date <> 6 -> 80 <= base <= 120 ->
  daily_count_ok date (Z.to_nat (py_int (inject_Z base * multiplier date))).
Proof.
  intros Hw Hbase. pose proof (weekday_range date) as Hr.
  unfold daily_count_ok, multiplier, is_weekend, py_int.
  destruct (Z.eqb_spec (weekday date) 5) as [E|E].
  - rewrite E. cbn.
    pose proof (Z.quot_le_lower_bound (base * 13) 10 104 ltac:(lia) ltac:(lia)).
    pose proof (Z.quot_le_upper_bound (base * 13) 10 156 ltac:(lia) ltac:(lia)).
    lia.
  - destruct (Z.leb_spec 5 (weekday date)); [lia|]. cbn.
    rewrite Z.mul_1_r, Z.quot_1_r. lia.
Qed.

(** One iteration of the outer loop appends the transactions of one day. *)
Lemma day_body_appends
      {R F : Type} {RS : RandomSource R} {FS : FakerSource F}
      (products : list Product.t) (date : datetime)
      (st st' : list Transaction.t * Z) (w w' : world R F) :
  weekday date <> 6 ->
  day_body products date st w = inr (st', w') ->
  exists new,
    fst st' = fst st ++ new
    /\ daily_count_ok date (List.length new)
    /\ Forall (fun t => Transaction.date t = strftime_dmY date
                        /\ transaction_as_configured products t) new.
Proof.
  intros Hw H. unfold day_body in H.
  apply bind_inr in H. destruct H as (base & w1 & Hbase & H).
  cbn [DAILY_TRANSACTIONS_RANGE fst snd] in Hbase.
  apply randint_inr in Hbase; [|lia].
  apply (for_each_appends
           (fun t => Transaction.date t = strftime_dmY date
                     /\ transaction_as_configured products t)) in H.
  - destruct H as (new & Hnew & Hlen & Hall).
    exists new. split; [assumption|]. split; [|assumption].
    rewrite Hlen, range_length. now apply daily_count.
  - intros i s v s' v' Hi. now apply transaction_body_fields in Hi.
Qed.

Lemma dates_by_day_snoc (days : list datetime) (counts : list nat)
      (d : datetime) (n : nat) :
  List.length days = List.length counts ->
  dates_by_day (days ++ [d]) (counts ++ [n])
  = dates_by_day days counts ++ repeat (strftime_dmY d) n.
Proof.
  unfold dates_by_day. revert counts.
  induction days as [|a days IH]; intros [|c counts] Hlen;
    try discriminate Hlen.
  - cbn. now rewrite app_nil_r.
  - cbn [app combine map List.concat fst snd].
    rewrite IH by (cbn in Hlen; lia). now rewrite app_assoc.
Qed.

Lemma dates_by_day_length (days : list datetime) (counts : list nat) :
  Forall2 daily_count_ok days counts ->
  (80 * List.length days
   + 24 * List.length (filter (fun d => (weekday d =? 5)%Z) days)
   <= List.length (dates_by_day days counts)
   <= 120 * List.length days
      + 36 * List.length (filter (fun d => (weekday d =? 5)%Z) days))%nat.
Proof.
  induction 1 as [|d n days counts Hd Hall IH]; [cbn; lia|].
  unfold dates_by_day in *.
  cbn [combine map List.concat fst snd List.length filter].
  rewrite length_app, repeat_length.
  unfold daily_count_ok in Hd.
  destruct (weekday d =? 5); cbn [List.length]; lia.
Qed.

(** The loop over the days, with an invariant about the days done. *)
Lemma for_each_days_invariant
      {R F : Type} {RS : RandomSource R} {FS : FakerSource F} {A S}
      (I : list A -> S -> Prop) (xs : list A) (body : A -> S -> M R F S) :
  (forall done x s w s' w',
      In x xs -> I done s -> body x s w = inr (s', w') -> I (done ++ [x]) s') ->
  forall done s w s' w',
    I done s -> for_each xs body s w = inr (s', w') -> I (done ++ xs) s'.
Proof.
  induction xs as [|x xs IH]; intros Hbody done s w s' w' Hs H; cbn in H.
  - apply ret_inr in H. destruct H as (-> & _). now rewrite app_nil_r.
  - apply bind_inr in H. destruct H as (s1 & w1 & H1 & H).
    replace (done ++ x :: xs) with ((done ++ [x]) ++ xs)
      by now rewrite <- app_assoc.
    apply (IH (fun done' y t v t' v' Hy => Hbody done' y t v t' v' (or_intror Hy))
              _ s1 w1 s' w'); [|assumption].
    eapply Hbody; eauto. now left.
Qed.

(** * The weekend multiplier *)

Lemma py_int_times_one (base : Z) : py_int (inject_Z base * 1) = base.
Proof. unfold py_int. cbn. now rewrite Z.mul_1_r, Z.quot_1_r. Qed.

(** On a date that is not a Sunday the weekend test is the test for a
    Saturday. *)
Lemma weekend_test_on_yielded (d : datetime) :
  weekday d <> 6 ->
  is_weekend d = (weekday d =? 5)
  /\ multiplier d = (if weekday d =? 5 then 13 # 10 else 1)%Q.
Proof.
  intros Hw. pose proof (weekday_range d) as Hr.
  assert (E : is_weekend d = (weekday d =? 5)) by (unfold is_weekend; zcompare).
  unfold multiplier. rewrite E. auto.
Qed.

Lemma scaled_by_multiplier (d : datetime) (base : Z) :
  weekday d <> 6 ->
  py_int (inject_Z base * multiplier d) = saturday_scaled d base.
Proof.
  intros Hw. destruct (weekend_test_on_yielded d Hw) as [_ ->].
  unfold saturday_scaled. destruct (weekday d =? 5); [reflexivity|].
  apply py_int_times_one.
Qed.

(** One iteration of the outer loop draws the base count once and appends
    that many transactions of the day, scaled on a Saturday only. *)
Lemma day_body_count
      {R F : Type} {RS : RandomSource R} {FS : FakerSource F}
      (products : list Product.t) (date : datetime)
      (st st' : list Transaction.t * Z) (w w' : world R F) :
  weekday date <> 6 ->
  day_body products date st w = inr (st', w') ->
  80 <= 80 + fst (randbelow 41 (rand_state w)) <= 120
  /\ exists new,
      fst st' = fst st ++ new
      /\ List.length new
         = Z.to_nat (saturday_scaled date
                                     (80 + fst (randbelow 41 (rand_state w))))
      /\ Forall (fun t => Transaction.date t = strftime_dmY date) new.
Proof.
  intros Hw H. unfold day_body in H.
  apply bind_inr in H. destruct H as (base & w1 & Hbase & H).
  cbn [DAILY_TRANSACTIONS_RANGE fst snd] in Hbase.
  pose proof (randint_inr 80 120 _ _ _ ltac:(lia) Hbase) as Hrange.
  unfold randint in Hbase.
  apply bind_inr in Hbase. destruct Hbase as (i & w0 & Hi & Hbase).
  apply ret_inr in Hbase. destruct Hbase as (-> & _).
  apply with_random_inr in Hi. subst i.
  change (120 - 80 + 1) with 41 in *.
  split; [exact Hrange|].
  apply (for_each_appends
           (fun t => Transaction.date t = strftime_dmY date)) in H.
  - destruct H as (new & Hnew & Hlen & Hall).
    exists new. split; [assumption|]. split; [|assumption].
    now rewrite Hlen, range_length, scaled_by_multiplier.
  - intros j s v s' v' Hj. apply transaction_body_fields in Hj.
    destruct Hj as (t & Ht & Hdate & _). eauto.
Qed.

(** The whole run, day after day. *)
Lemma generate_transactions_scaled
      {R F : Type} {RS : RandomSource R} {FS : FakerSource F}
      (start_date end_date : datetime) (products : list Product.t)
      (transactions : list Transaction.t) (w w' : world R F) :
  generate_transactions start_date end_date products w
  = inr (transactions, w') ->
  exists counts,
    Forall2 scaled_count
            (yields_of (generate_dates start_date end_date)) counts
    /\ map Transaction.date transactions
       = dates_by_day (yields_of (generate_dates start_date end_date)) counts.
Proof.
  unfold generate_transactions. intros H.
  apply bind_inr in H. destruct H as (st & w1 & Hloop & H).
  apply ret_inr in H. destruct H as (-> & _).
  apply for_generated_inr in Hloop. destruct Hloop as (_ & Hloop).
  change (yields_of (generate_dates start_date end_date))
    with ([] ++ yields_of (generate_dates start_date end_date)).
  revert Hloop.
  apply (for_each_days_invariant
           (fun done st => exists counts,
                Forall2 scaled_count done counts
                /\ map Transaction.date (fst st) = dates_by_day done counts)).
  - intros done date s v s' v' Hdate (counts & Hcounts & Hdates) Hday.
    apply business_days_In in Hdate. destruct Hdate as [Hw _].
    apply (day_body_count _ _ _ _ _ _ Hw) in Hday.
    destruct Hday as (Hrange & new & Hnew & Hcount & Hall).
    exists (counts ++ [List.length new]). split.
    + apply Forall2_app; [assumption|].
      constructor; [|constructor].
      exists (80 + fst (randbelow 41 (rand_state v))). now split.
    + rewrite dates_by_day_snoc by (eapply Forall2_length; eassumption).
      rewrite Hnew, map_app, Hdates. f_equal.
      clear - Hall. induction Hall as [|t l Ht _ IH]; [reflexivity|].
      cbn. now rewrite Ht, IH.
  - exists []. split; [constructor | reflexivity].
Qed.

(** C10.  In every run of [generate_transactions], on every date [d] that
    [generate_dates] yields the weekend test [weekday >= 5] agrees with
    [weekday == 5], no yielded date being a Sunday; and the multiplier is
    applied accordingly: the iteration of the loop for [d] draws the base
    count from 80 to 120 once and appends [int(base * 1.3)] transactions
    of the day when [d] is a Saturday, and [base] transactions when it is
    not.  Over the run, the date column is that of the yielded dates, each
    repeated as often as such a count says. *)
Theorem weekend_is_saturday
        {R F : Type} {RS : RandomSource R} {FS : FakerSource F}
        (start_date end_date : datetime) (products : list Product.t)
        (transactions : list Transaction.t) (w w' : world R F) :
  generate_transactions start_date end_date products w
  = inr (transactions, w') ->
  (forall d,
      In d (yields_of (generate_dates start_date end_date)) ->
      (is_weekend d = (weekday d =? 5)
       /\ multiplier d = (if weekday d =? 5 then 13 # 10 else 1)%Q
       /\ weekday d <> 6)
      /\ forall (st st' : list Transaction.t * Z) (v v' : world R F),
          day_body products d st v = inr (st', v') ->
          exists new,
            fst st' = fst st ++ new
            /\ List.length new
               = Z.to_nat (saturday_scaled
                             d (80 + fst (randbelow 41 (rand_state v))))
            /\ Forall (fun t => Transaction.date t = strftime_dmY d) new)
  /\ exists counts,
      Forall2 scaled_count
              (yields_of (generate_dates start_date end_date)) counts
      /\ map Transaction.date transactions
         = dates_by_day (yields_of (generate_dates start_date end_date)) counts.
Proof.
  intros H. split; [|exact (generate_transactions_scaled _ _ _ _ _ _ H)].
  intros d Hd. apply business_days_In in Hd. destruct Hd as [Hw _].
  destruct (weekend_test_on_yielded d Hw) as [Hweekend Hmult].
  split; [now repeat split|].
  intros st st' v v' Hday.
  exact (proj2 (day_body_count _ _ _ _ _ _ Hw Hday)).
Qed.

Lemma weekend_is_saturday_witness :
  exists transactions w',
    generate_transactions (datetime_ymd 2024 1 5) (datetime_ymd 2024 1 7)
                          sample_catalog (scripted [])
    = inr (transactions, w')
    /\ map weekday (yields_of (generate_dates (datetime_ymd 2024 1 5)
                                             (datetime_ymd 2024 1 7)))
       = [4; 5]
    /\ map Transaction.date transactions
       = repeat "05-01-2024"%string 80 ++ repeat "06-01-2024"%string 104
    /\ (forall d,
          In d (yields_of (generate_dates (datetime_ymd 2024 1 5)
                                          (datetime_ymd 2024 1 7))) ->
          (is_weekend d = (weekday d =? 5)
           /\ multiplier d = (if weekday d =? 5 then 13 # 10 else 1)%Q
           /\ weekday d <> 6)
          /\ forall (st st' : list Transaction.t * Z) (v v' : world script nat),
              day_body sample_catalog d st v = inr (st', v') ->
              exists new,
                fst st' = fst st ++ new
                /\ List.length new
                   = Z.to_nat (saturday_scaled
                                 d (80 + fst (randbelow 41 (rand_state v))))
                /\ Forall (fun t => Transaction.date t = strftime_dmY d) new)
    /\ exists counts,
        Forall2 scaled_count
                (yields_of (generate_dates (datetime_ymd 2024 1 5)
                                           (datetime_ymd 2024 1 7))) counts
        /\ map Transaction.date transactions
           = dates_by_day (yields_of (generate_dates (datetime_ymd 2024 1 5)
                                                     (datetime_ymd 2024 1 7)))
                          counts.
Proof.
  remember (generate_transactions (datetime_ymd 2024 1 5) (datetime_ymd 2024 1 7)
                                  sample_catalog (scripted [])) as rt eqn:Et.
  assert (Ht : succeeded rt = true) by by_running Et.
  assert (Hts : map Transaction.date (result_or [] rt)
                = repeat "05-01-2024"%string 80
                  ++ repeat "06-01-2024"%string 104) by by_running Et.
  destruct rt as [x|[transactions w2]]; [discriminate Ht|].
  cbn [result_or] in Hts.
  exists transactions, w2. split; [reflexivity|].
  split; [vm_compute; reflexivity|]. split; [exact Hts|].
  exact (weekend_is_saturday _ _ _ _ _ _ (eq_sym Et)).
Defined.

(** X6.  Every transaction that [generate_transactions] emits names a
    product of the catalog, has a quantity from 1 to 5, one of the three
    payment modes and one of the three transaction types. *)
Theorem transactions_as_configured
        {R F : Type} {RS : RandomSource R} {FS : FakerSource F}
        (start_date end_date : datetime) (products : list Product.t)
        (transactions : list Transaction.t) (w w' : world R F) :
  generate_transactions start_date end_date products w
  = inr (transactions, w') ->
  Forall (transaction_as_configured products) transactions.
Proof.
  unfold generate_transactions. intros H.
  apply bind_inr in H. destruct H as (st & w1 & Hloop & H).
  apply ret_inr in H. destruct H as (-> & _).
  apply for_generated_inr in Hloop. destruct Hloop as (_ & Hloop).
  revert Hloop.
  apply (for_each_invariant
           (fun st => Forall (transaction_as_configured products) (fst st)));
    [|constructor].
  intros date s v s' v' _ Hs Hday. unfold day_body in Hday.
  apply bind_inr in Hday. destruct Hday as (base & v1 & _ & Hday).
  revert Hday.
  apply (for_each_invariant
           (fun st => Forall (transaction_as_configured products) (fst st)));
    [|assumption].
  intros i t u t' u' _ Ht Hi. apply transaction_body_fields in Hi.
  destruct Hi as (tx & -> & _ & Htx). cbn [fst].
  apply Forall_app. split; [assumption|]. constructor; [assumption|constructor].
Qed.

Lemma transactions_as_configured_witness :
  exists transactions,
    List.length transactions = 80%nat
    /\ Forall (transaction_as_configured sample_catalog) transactions.
Proof.
  remember (generate_transactions (datetime_ymd 2024 1 1) (datetime_ymd 2024 1 1)
                                  sample_catalog (scripted [0; 0; 4; 3]))
    as rt eqn:Et.
  assert (Ht : succeeded rt = true) by by_running Et.
  assert (Hts : List.length (result_or [] rt) = 80%nat) by by_running Et.
  destruct rt as [x|[transactions w2]]; [discriminate Ht|].
  cbn [result_or] in Hts.
  exists transactions. split; [exact Hts|].
  exact (transactions_as_configured _ _ _ _ _ _ (eq_sym Et)).
Defined.

(** The dates of the records, day after day. *)
Lemma generate_transactions_by_day
      {R F : Type} {RS : RandomSource R} {FS : FakerSource F}
      (start_date end_date : datetime) (products : list Product.t)
      (transactions : list Transaction.t) (w w' : world R F) :
  generate_transactions start_date end_date products w
  = inr (transactions, w') ->
  exists counts,
    Forall2 daily_count_ok
            (yields_of (generate_dates start_date end_date)) counts
    /\ map Transaction.date transactions
       = dates_by_day (yields_of (generate_dates start_date end_date)) counts.
Proof.
  unfold generate_transactions. intros H.
  apply bind_inr in H. destruct H as (st & w1 & Hloop & H).
  apply ret_inr in H. destruct H as (-> & _).
  apply for_generated_inr in Hloop. destruct Hloop as (_ & Hloop).
  change (yields_of (generate_dates start_date end_date))
    with ([] ++ yields_of (generate_dates start_date end_date)).
  revert Hloop.
  apply (for_each_days_invariant
           (fun done st => exists counts,
                Forall2 daily_count_ok done counts
                /\ map Transaction.date (fst st) = dates_by_day done counts)).
  - intros done date s v s' v' Hdate (counts & Hcounts & Hdates) Hday.
    apply business_days_In in Hdate. destruct Hdate as [Hw _].
    apply (day_body_appends _ _ _ _ _ _ Hw) in Hday.
    destruct Hday as (new & Hnew & Hcount & Hall).
    exists (counts ++ [List.length new]). split.
    + apply Forall2_app; [assumption|].
      constructor; [assumption | constructor].
    + rewrite dates_by_day_snoc by (eapply Forall2_length; eassumption).
      rewrite Hnew, map_app, Hdates. f_equal.
      clear - Hall. induction Hall as [|t l [Ht _] _ IH]; [reflexivity|].
      cbn. now rewrite Ht, IH.
  - exists []. split; [constructor | reflexivity].
Qed.

Lemma generate_transactions_length
      {R F : Type} {RS : RandomSource R} {FS : FakerSource F}
      (start_date end_date : datetime) (products : list Product.t)
      (transactions : list Transaction.t) (w w' : world R F) :
  generate_transactions start_date end_date products w
  = inr (transactions, w') ->
  (80 * List.length (yields_of (generate_dates start_date end_date))
   + 24 * List.length (filter (fun d => (weekday d =? 5)%Z)
                              (yields_of (generate_dates start_date end_date)))
   <= List.length transactions
   <= 120 * List.length (yields_of (generate_dates start_date end_date))
      + 36 * List.length (filter (fun d => (weekday d =? 5)%Z)
                            (yields_of (generate_dates start_date end_date))))%nat.
Proof.
  intros H. apply generate_transactions_by_day in H.
  destruct H as (counts & Hcounts & Hdates).
  rewrite <- (length_map Transaction.date), Hdates.
  now apply dates_by_day_length.
Qed.

(** X7.  [generate_transactions] emits its transactions day by day, in the
    order of the yielded dates: the dates of the records are those of the
    first yielded day, repeated as often as that day has transactions,
    then those of the second, and so on; a day has 80 to 120 transactions,
    and 104 to 156 on a Saturday.  In total there are at least 80 and at
    most 120 transactions per yielded day, plus 24 to 36 for every yielded
    Saturday. *)
Theorem transactions_day_by_day
        {R F : Type} {RS : RandomSource R} {FS : FakerSource F}
        (start_date end_date : datetime) (products : list Product.t)
        (transactions : list Transaction.t) (w w' : world R F) :
  generate_transactions start_date end_date products w
  = inr (transactions, w') ->
  (exists counts,
      Forall2 daily_count_ok
              (yields_of (generate_dates start_date end_date)) counts
      /\ map Transaction.date transactions
         = dates_by_day (yields_of (generate_dates start_date end_date)) counts)
  /\ (80 * List.length (yields_of (generate_dates start_date end_date))
      + 24 * List.length
               (filter (fun d => (weekday d =? 5)%Z)
                       (yields_of (generate_dates start_date end_date)))
      <= List.length transactions
      <= 120 * List.length (yields_of (generate_dates start_date end_date))
         + 36 * List.length
                  (filter (fun d => (weekday d =? 5)%Z)
                          (yields_of (generate_dates start_date end_date))))%nat.
Proof.
  intros H. split.
  - exact (generate_transactions_by_day _ _ _ _ _ _ H).
  - exact (generate_transactions_length _ _ _ _ _ _ H).
Qed.

Lemma transactions_day_by_day_witness :
  exists transactions,
    map Transaction.date transactions
    = dates_by_day (yields_of (generate_dates (datetime_ymd 2024 1 5)
                                              (datetime_ymd 2024 1 7)))
                   [80; 104]%nat
    /\ (80 * 2 + 24 * 1 <= List.length transactions <= 120 * 2 + 36 * 1)%nat.
Proof.
  remember (generate_transactions (datetime_ymd 2024 1 5) (datetime_ymd 2024 1 7)
                                  sample_catalog (scripted [])) as rt eqn:Et.
  assert (Ht : succeeded rt = true) by by_running Et.
  assert (Hts : map Transaction.date (result_or [] rt)
                = dates_by_day
                    (yields_of (generate_dates (datetime_ymd 2024 1 5)
                                               (datetime_ymd 2024 1 7)))
                    [80; 104]%nat) by by_running Et.
  destruct rt as [x|[transactions w2]]; [discriminate Ht|].
  cbn [result_or] in Hts.
  exists transactions. split; [exact Hts|].
  exact (proj2 (transactions_day_by_day _ _ _ _ _ _ (eq_sym Et))).
Defined.

(** * The price band of a transaction *)

Lemma round2_nonneg (x : Q) : (0 <= x -> 0 <= round2 x)%Q.
Proof.
  intros Hx. pose proof (round2_ge x 0) as Hge.
  assert (E : (inject_Z 0 / 100 == 0)%Q) by reflexivity.
  rewrite E in Hge. now apply Hge.
Qed.

Lemma discounted_price_band (m d : Q) (q : Z) :
  (0 <= m)%Q -> 1 <= q -> In d discounts ->
  ((9 # 10) * m - (1 # 200) <= round2 (m * (1 - d))
   /\ 0 <= round2 (m * (1 - d))
   /\ 0 <= round2 (m * inject_Z q * (1 - d))
   /\ round2 (m * inject_Z q * (1 - d)) <= m * inject_Z q + (1 # 200))%Q.
Proof.
  intros Hm Hq Hd.
  assert (Hq' : (1 <= inject_Z q)%Q)
    by (rewrite Zle_Qle in Hq; exact Hq).
  assert (Hmq : (0 <= m * inject_Z q)%Q)
    by (apply Qmult_le_0_compat; [assumption | lra]).
  set (mq := (m * inject_Z q)%Q) in *.
  assert (Hd' : d = 0%Q \/ d = (5 # 100)%Q \/ d = (1 # 10)%Q).
  { cbn in Hd.
    repeat (destruct Hd as [<-|Hd];
            [first [now left | now right; left | now right; right]|]).
    destruct Hd. }
  destruct Hd' as [ -> | [ -> | -> ] ].
  - destruct (round2_error (m * (1 - 0))) as [Hu _].
    destruct (round2_error (mq * (1 - 0))) as [_ Ht].
    repeat split; try (apply round2_nonneg); lra.
  - destruct (round2_error (m * (1 - (5 # 100)))) as [Hu _].
    destruct (round2_error (mq * (1 - (5 # 100)))) as [_ Ht].
    repeat split; try (apply round2_nonneg); lra.
  - destruct (round2_error (m * (1 - (1 # 10)))) as [Hu _].
    destruct (round2_error (mq * (1 - (1 # 10)))) as [_ Ht].
    repeat split; try (apply round2_nonneg); lra.
Qed.

(** X8.  On a catalog without negative MRPs the discount never exceeds ten
    percent: the unit price of every emitted transaction is at least 0.9
    times the MRP of the referenced product, up to half a hundredth of
    rounding, and neither the unit price nor the total is negative; the
    total is at most MRP times quantity, up to half a hundredth. *)
Theorem prices_within_discount_band
        {R F : Type} {RS : RandomSource R} {FS : FakerSource F}
        (start_date end_date : datetime) (products : list Product.t)
        (transactions : list Transaction.t) (w w' : world R F) :
  Forall (fun p => (0 <= Product.mrp p)%Q) products ->
  generate_transactions start_date end_date products w
  = inr (transactions, w') ->
  forall t, In t transactions ->
    exists p,
      first_match products (Transaction.product_name t) = inr p
      /\ ((9 # 10) * Product.mrp p - (1 # 200) <= Transaction.unit_price t
          /\ 0 <= Transaction.unit_price t
          /\ 0 <= Transaction.total_amount t
          /\ Transaction.total_amount t
             <= Product.mrp p * inject_Z (Transaction.quantity t) + (1 # 200))%Q.
Proof.
  intros Hpos H t Ht. apply generate_transactions_inr in H.
  destruct H as (_ & Hall & _). rewrite Forall_forall in Hall.
  destruct (Hall t Ht) as (d & p & discount & _ & _ & Hp & Hdisc & Hq & Hu & Htot).
  exists p. split; [assumption|]. rewrite Hu, Htot.
  rewrite Forall_forall in Hpos.
  apply discounted_price_band; [|lia|assumption].
  apply Hpos. now apply first_match_In in Hp.
Qed.

Lemma prices_within_discount_band_witness :
  Forall (fun p => (0 <= Product.mrp p)%Q) sample_catalog
  /\ exists transactions,
      List.length transactions = 80%nat
      /\ forall t, In t transactions ->
           exists p,
             first_match sample_catalog (Transaction.product_name t) = inr p
             /\ ((9 # 10) * Product.mrp p - (1 # 200)
                 <= Transaction.unit_price t
                 /\ 0 <= Transaction.unit_price t
                 /\ 0 <= Transaction.total_amount t
                 /\ Transaction.total_amount t
                    <= Product.mrp p * inject_Z (Transaction.quantity t)
                       + (1 # 200))%Q.
Proof.
  assert (Hpos : Forall (fun p => (0 <= Product.mrp p)%Q) sample_catalog)
    by (repeat constructor; discriminate).
  split; [exact Hpos|].
  remember (generate_transactions (datetime_ymd 2024 1 1) (datetime_ymd 2024 1 1)
                                  sample_catalog (scripted [0; 0; 4; 4]))
    as rt eqn:Et.
  assert (Ht : succeeded rt = true) by by_running Et.
  assert (Hts : List.length (result_or [] rt) = 80%nat) by by_running Et.
  destruct rt as [x|[transactions w2]]; [discriminate Ht|].
  cbn [result_or] in Hts.
  exists transactions. split; [exact Hts|].
  exact (prices_within_discount_band _ _ _ _ _ _ Hpos (eq_sym Et)).
Defined.

(** * The fields of an expense record *)

Lemma expense_ranges_ordered (c : string) (det : details) :
  In (c, det) expense_categories -> fst (amount det) <= snd (amount det).
Proof.
  cbn. intros H.
  repeat (destruct H as [H|H]; [injection H as <- <-; cbn; lia|]).
  destruct H.
Qed.

Section ExpenseFields.

Context {R F : Type} {RS : RandomSource R} {FS : FakerSource F}.

Lemma category_body_configured (date : datetime) (item : string * details)
      (st st' : list Expense.t * Z) (w w' : world R F) :
  In item expense_categories ->
  Forall expense_as_configured (fst st) ->
  category_body date item st w = inr (st', w') ->
  Forall expense_as_configured (fst st').
Proof.
  destruct st as [expenses sno], item as [category det].
  intros Hin Hall. unfold category_body. cbn [fst] in Hall.
  pose proof (expense_ranges_ordered category det Hin) as Hord.
  destruct (should_record (frequency det) (day date) (weekday date)).
  - destruct (amount det) as [min_amount max_amount] eqn:Eamount.
    cbn [fst snd] in Hord. intros H.
    apply bind_inr in H. destruct H as (a & w1 & Ha & H).
    apply ret_inr in H. destruct H as (-> & _). cbn [fst].
    apply uniform_inr in Ha; [|now rewrite <- Zle_Qle].
    apply Forall_app. split; [assumption|].
    constructor; [|constructor].
    exists det. cbn. rewrite Eamount. cbn [fst snd].
    split; [assumption|]. split; [reflexivity|].
    split; [now apply round2_between|].
    split; [apply round2_two_decimals | reflexivity].
  - intros H. apply ret_inr in H. now destruct H as (-> & _).
Qed.

End ExpenseFields.

(** X9.  Every expense record is one of a category of the expense table:
    it carries that category's frequency label, an amount of two decimals
    within the category's range (both ends included), and the note
    ["Regular <frequency> <category in lower case> expense"]. *)
Theorem expenses_as_configured
        {R F : Type} {RS : RandomSource R} {FS : FakerSource F}
        (start_date end_date : datetime) (expenses : list Expense.t)
        (w w' : world R F) :
  generate_expenses start_date end_date w = inr (expenses, w') ->
  Forall expense_as_configured expenses.
Proof.
  unfold generate_expenses. intros H.
  apply bind_inr in H. destruct H as (st & w1 & Hloop & H).
  apply ret_inr in H. destruct H as (-> & _).
  apply for_generated_inr in Hloop. destruct Hloop as (_ & Hloop).
  revert Hloop.
  apply (for_each_invariant
           (fun st : list Expense.t * Z =>
              Forall expense_as_configured (fst st))); [|constructor].
  intros date s v s' v' _ Hs.
  apply (for_each_invariant
           (fun st : list Expense.t * Z =>
              Forall expense_as_configured (fst st))); [|assumption].
  intros item t u t' u' Hitem Ht. now apply category_body_configured.
Qed.

Lemma expenses_as_configured_witness :
  exists expenses,
    map Expense.category expenses
    = ["Rent"; "Electricity"; "Water"; "Staff Salary"; "Transportation";
       "Cleaning"; "Maintenance"; "Internet & Phone"; "Packaging Material";
       "Miscellaneous"]%string
    /\ Forall expense_as_configured expenses.
Proof.
  remember (generate_expenses (datetime_ymd 2024 4 1) (datetime_ymd 2024 4 1)
                              (scripted []))
    as r eqn:E.
  assert (Hok : succeeded r = true) by by_running E.
  assert (Hcat : map Expense.category (result_or [] r)
                 = ["Rent"; "Electricity"; "Water"; "Staff Salary";
                    "Transportation"; "Cleaning"; "Maintenance";
                    "Internet & Phone"; "Packaging Material";
                    "Miscellaneous"]%string) by by_running E.
  destruct r as [x|[expenses w2]]; [discriminate Hok|].
  cbn [result_or] in Hcat.
  exists expenses. split; [exact Hcat|].
  exact (expenses_as_configured _ _ _ _ _ (eq_sym E)).
Defined.

(** * Order and number of the expense records *)

Lemma expected_keys_on_length (date : datetime) :
  List.length (expected_keys_on date expense_categories)
  = (3 + 2 * (if (weekday date =? 0)%Z then 1 else 0)
       + 5 * (if (day date =? 1)%Z then 1 else 0))%nat.
Proof.
  unfold expected_keys_on, due, should_record.
  generalize (strftime_dmY date) as sd. intros sd.
  now destruct (day date =? 1), (weekday date =? 0).
Qed.

Lemma expected_keys_length (dates : list datetime) :
  List.length (expected_keys dates)
  = (3 * List.length dates
     + 2 * List.length (filter (fun d => (weekday d =? 0)%Z) dates)
     + 5 * List.length (filter (fun d => (day d =? 1)%Z) dates))%nat.
Proof.
  induction dates as [|d dates IH]; [reflexivity|].
  unfold expected_keys in *. cbn [flat_map filter].
  rewrite length_app, IH, expected_keys_on_length.
  destruct (weekday d =? 0), (day d =? 1); cbn [List.length]; lia.
Qed.

(** X10.  The expense records come day by day over the yielded dates and,
    within a day, in the order of the expense table, restricted to the
    categories due on that day; so their number is three for every yielded
    date, two more for every yielded Monday and five more for every yielded
    first of a month. *)
Theorem expenses_in_table_order
        {R F : Type} {RS : RandomSource R} {FS : FakerSource F}
        (start_date end_date : datetime) (expenses : list Expense.t)
        (w w' : world R F) :
  generate_expenses start_date end_date w = inr (expenses, w') ->
  map (fun e => (Expense.category e, Expense.date e)) expenses
  = flat_map (fun d => map (fun item => (fst item, strftime_dmY d))
                           (filter (due d) expense_categories))
             (yields_of (generate_dates start_date end_date))
  /\ List.length expenses
     = (3 * List.length (yields_of (generate_dates start_date end_date))
        + 2 * List.length (filter (fun d => (weekday d =? 0)%Z)
                             (yields_of (generate_dates start_date end_date)))
        + 5 * List.length (filter (fun d => (day d =? 1)%Z)
                             (yields_of (generate_dates start_date end_date))))%nat.
Proof.
  intros H. apply generate_expenses_inr in H. destruct H as (_ & Hkeys & _).
  split; [exact Hkeys|].
  rewrite <- (length_map expense_key), Hkeys.
  apply expected_keys_length.
Qed.

Lemma expenses_in_table_order_witness :
  exists expenses,
    map (fun e => (Expense.category e, Expense.date e)) expenses
    = flat_map (fun d => map (fun item => (fst item, strftime_dmY d))
                             (filter (due d) expense_categories))
               (yields_of (generate_dates (datetime_ymd 2024 3 29)
                                          (datetime_ymd 2024 4 1)))
    /\ List.length expenses = 16%nat.
Proof.
  remember (generate_expenses (datetime_ymd 2024 3 29) (datetime_ymd 2024 4 1)
                              (scripted []))
    as r eqn:E.
  assert (Hok : succeeded r = true) by by_running E.
  destruct r as [x|[expenses w2]]; [discriminate Hok|].
  exists expenses.
  destruct (expenses_in_table_order _ _ _ _ _ (eq_sym E)) as [Horder Hlen].
  split; [exact Horder|].
  rewrite Hlen. vm_compute. reflexivity.
Defined.

(** * No two expense records of a category on one date *)

(** The year of a representable ordinal is between [MINYEAR] and
    [MAXYEAR]. *)
Lemma ord2ymd_year_range (n : Z) :
  1 <= n <= Calendar.MAXORDINAL ->
  1 <= fst (fst (Calendar.ord2ymd n)) <= 9999.
Proof.
  intros Hn. unfold Calendar.ord2ymd. cbv zeta.
  set (q := (n - 1) / Calendar.DI400Y).
  set (r := (n - 1) mod Calendar.DI400Y).
  set (a := r / Calendar.DI100Y).
  set (r1 := r mod Calendar.DI100Y).
  set (b := r1 / Calendar.DI4Y).
  set (r2 := r1 mod Calendar.DI4Y).
  set (c := r2 / 365).
  set (r3 := r2 mod 365).
  assert (Hq : n - 1 = Calendar.DI400Y * q + r /\ 0 <= r < Calendar.DI400Y).
  { subst q r.
    pose proof (Z.div_mod (n - 1) Calendar.DI400Y ltac:(discriminate)).
    pose proof (Z.mod_pos_bound (n - 1) Calendar.DI400Y ltac:(reflexivity)).
    lia. }
  assert (Ha : r = Calendar.DI100Y * a + r1 /\ 0 <= r1 < Calendar.DI100Y).
  { subst a r1. pose proof (Z.div_mod r Calendar.DI100Y ltac:(discriminate)).
    pose proof (Z.mod_pos_bound r Calendar.DI100Y ltac:(reflexivity)). lia. }
  assert (Hb : r1 = Calendar.DI4Y * b + r2 /\ 0 <= r2 < Calendar.DI4Y).
  { subst b r2. pose proof (Z.div_mod r1 Calendar.DI4Y ltac:(discriminate)).
    pose proof (Z.mod_pos_bound r1 Calendar.DI4Y ltac:(reflexivity)). lia. }
  assert (Hc : r2 = 365 * c + r3 /\ 0 <= r3 < 365).
  { subst c r3. pose proof (Z.div_mod r2 365 ltac:(discriminate)).
    pose proof (Z.mod_pos_bound r2 365 ltac:(reflexivity)). lia. }
  clearbody q r a r1 b r2 c r3.
  unfold Calendar.DI400Y, Calendar.DI100Y, Calendar.DI4Y,
    Calendar.MAXORDINAL in *.
  destruct Hq as (Hq & Hr), Ha as (Ha & Hr1), Hb as (Hb & Hr2),
           Hc as (Hc & Hr3).
  destruct ((c =? 4) || (a =? 4)) eqn:Hspecial.
  - cbn [fst]. revert Hspecial. zcompare; lia.
  - destruct (Calendar.month_day
                ((c =? 3) && (negb (b =? 24) || (a =? 3))) r3) as [m d].
    cbn [fst]. revert Hspecial. zcompare; lia.
Qed.

Lemma digit_char_inj (a b : Z) :
  ascii_of_nat (48 + Z.to_nat (a mod 10))
  = ascii_of_nat (48 + Z.to_nat (b mod 10)) ->
  a mod 10 = b mod 10.
Proof.
  intros H. apply (f_equal nat_of_ascii) in H.
  pose proof (Z.mod_pos_bound a 10 ltac:(reflexivity)) as Ha.
  pose proof (Z.mod_pos_bound b 10 ltac:(reflexivity)) as Hb.
  rewrite !nat_ascii_embedding in H by lia. lia.
Qed.

Lemma String_inj (c c' : ascii) (s s' : string) :
  String c s = String c' s' -> c = c' /\ s = s'.
Proof. intros H. now injection H. Qed.

(** The printed date tells the days of the calendar apart. *)
Lemma strftime_dmY_inj (d1 d2 : datetime) :
  1 <= ordinal d1 <= Calendar.MAXORDINAL ->
  1 <= ordinal d2 <= Calendar.MAXORDINAL ->
  strftime_dmY d1 = strftime_dmY d2 -> ordinal d1 = ordinal d2.
Proof.
  intros H1 H2 H.
  destruct (datetime_fields d1 ltac:(lia)) as (E1 & Hm1 & Hd1).
  destruct (datetime_fields d2 ltac:(lia)) as (E2 & Hm2 & Hd2).
  pose proof (ord2ymd_year_range _ H1) as Hy1.
  pose proof (ord2ymd_year_range _ H2) as Hy2.
  fold (year d1) in Hy1. fold (year d2) in Hy2.
  assert (Hdim : forall y m, Calendar.days_in_month y m <= 31).
  { intros y m. unfold Calendar.days_in_month, Calendar.table.
    destruct ((m =? 2) && Calendar.is_leap y); [lia|].
    destruct (Z.to_nat m) as [|k]; [cbn; lia|].
    do 12 (destruct k as [|k]; [cbn; lia|]).
    cbn. destruct k; lia. }
  pose proof (Hdim (year d1) (month d1)).
  pose proof (Hdim (year d2) (month d2)).
  unfold strftime_dmY, pad2, pad4, digit in H. cbn [append] in H.
  apply String_inj in H. destruct H as [Da H].
  apply String_inj in H. destruct H as [Db H].
  apply String_inj in H. destruct H as [_ H].
  apply String_inj in H. destruct H as [Ma H].
  apply String_inj in H. destruct H as [Mb H].
  apply String_inj in H. destruct H as [_ H].
  apply String_inj in H. destruct H as [Ya H].
  apply String_inj in H. destruct H as [Yb H].
  apply String_inj in H. destruct H as [Yc H].
  apply String_inj in H. destruct H as [Yd _].
  apply digit_char_inj in Da, Db, Ma, Mb, Ya, Yb, Yc, Yd.
  assert (Ed : day d1 = day d2) by (Z.div_mod_to_equations; lia).
  assert (Em : month d1 = month d2) by (Z.div_mod_to_equations; lia).
  assert (Ey : year d1 = year d2) by (Z.div_mod_to_equations; lia).
  rewrite <- E1, <- E2. congruence.
Qed.

Lemma expected_keys_on_NoDup (date : datetime) :
  NoDup (expected_keys_on date expense_categories).
Proof.
  unfold expected_keys_on, due, should_record.
  generalize (strftime_dmY date) as sd. intros sd.
  destruct (day date =? 1), (weekday date =? 0); cbn;
    repeat (constructor;
            [cbn; intros H;
             repeat (destruct H as [H|H]; [discriminate H|]); destruct H|]);
    constructor.
Qed.

Lemma expected_keys_on_date (date : datetime) (table : dict details)
      (k : string * string) :
  In k (expected_keys_on date table) -> snd k = strftime_dmY date.
Proof.
  unfold expected_keys_on. intros H. apply in_map_iff in H.
  now destruct H as (item & <- & _).
Qed.

Lemma expected_keys_In (dates : list datetime) (k : string * string) :
  In k (expected_keys dates) ->
  exists d, In d dates /\ snd k = strftime_dmY d.
Proof.
  unfold expected_keys. intros H. apply in_flat_map in H.
  destruct H as (d & Hd & Hk). exists d. split; [assumption|].
  now apply expected_keys_on_date in Hk.
Qed.

Lemma expected_keys_NoDup (dates : list datetime) :
  StronglySorted (fun a b => ordinal a < ordinal b) dates ->
  Forall (fun d => 1 <= ordinal d <= Calendar.MAXORDINAL) dates ->
  NoDup (expected_keys dates).
Proof.
  induction 1 as [|d dates Hsorted IH Hd]; intros Hvalid; [constructor|].
  unfold expected_keys in *. cbn [flat_map].
  apply Forall_cons_iff in Hvalid. destruct Hvalid as [Hvd Hvalid].
  apply NoDup_app; [apply expected_keys_on_NoDup | now apply IH|].
  intros k Hk Hk'. apply expected_keys_on_date in Hk.
  apply expected_keys_In in Hk'. destruct Hk' as (d' & Hd' & Hk').
  rewrite Forall_forall in Hd, Hvalid.
  specialize (Hd d' Hd'). specialize (Hvalid d' Hd').
  assert (ordinal d = ordinal d')
    by (apply strftime_dmY_inj; [assumption | assumption | congruence]).
  lia.
Qed.

(** X11.  Between two datetimes of the calendar, no two expense records
    agree on category and date: a category is recorded at most once on a
    day. *)
Theorem expenses_once_per_category_and_date
        {R F : Type} {RS : RandomSource R} {FS : FakerSource F}
        (start_date end_date : datetime) (expenses : list Expense.t)
        (w w' : world R F) :
  valid_datetime start_date -> valid_datetime end_date ->
  generate_expenses start_date end_date w = inr (expenses, w') ->
  NoDup (map (fun e => (Expense.category e, Expense.date e)) expenses).
Proof.
  intros [Hs _] [He _] H.
  apply generate_expenses_inr in H. destruct H as (_ & Hkeys & _).
  change (NoDup (map expense_key expenses)). rewrite Hkeys.
  apply expected_keys_NoDup.
  - apply dates_loop_ordinals_ascending.
  - apply Forall_forall. intros d Hd. apply dates_loop_In in Hd.
    destruct Hd as (_ & Hord & _ & Hle).
    apply datetime_leb_ordinal in Hle. lia.
Qed.

Lemma expenses_once_per_category_and_date_witness :
  exists expenses,
    List.length expenses = 16%nat
    /\ NoDup (map (fun e => (Expense.category e, Expense.date e)) expenses).
Proof.
  remember (generate_expenses (datetime_ymd 2024 3 29) (datetime_ymd 2024 4 1)
                              (scripted []))
    as r eqn:E.
  assert (Hok : succeeded r = true) by by_running E.
  assert (Hlen : List.length (result_or [] r) = 16%nat) by by_running E.
  destruct r as [x|[expenses w2]]; [discriminate Hok|].
  cbn [result_or] in Hlen.
  exists expenses. split; [exact Hlen|].
  assert (Hs : valid_datetime (datetime_ymd 2024 3 29))
    by (vm_compute; repeat split; discriminate).
  assert (He : valid_datetime (datetime_ymd 2024 4 1))
    by (vm_compute; repeat split; discriminate).
  exact (expenses_once_per_category_and_date _ _ _ _ _ Hs He (eq_sym E)).
Defined.

(** * The composition of a product *)

Lemma skip_spaces_head (s : string) :
  match skip_spaces s with
  | String c _ => is_space c = false
  | EmptyString => True
  end.
Proof.
  induction s as [|c s IH]; cbn [skip_spaces]; [exact I|].
  destruct (is_space c) eqn:Hc; [exact IH | exact Hc].
Qed.

Lemma take_word_no_space (s : string) : has_space (take_word s) = false.
Proof.
  induction s as [|c s IH]; cbn [take_word]; [reflexivity|].
  destruct (is_space c) eqn:Hc; [reflexivity|].
  cbn [has_space]. now rewrite Hc, IH.
Qed.

(** The first word of a string is not empty and has no whitespace. *)
Lemma split_first_word (s word : string) :
  split_first s = inr word -> word <> EmptyString /\ has_space word = false.
Proof.
  unfold split_first. pose proof (skip_spaces_head s) as Hhead.
  destruct (skip_spaces s) as [|c rest]; [discriminate|].
  intros H. injection H as <-.
  split; [|apply (take_word_no_space (String c rest))].
  cbn [take_word]. rewrite Hhead. discriminate.
Qed.

Section CatalogFields.

Context {R F : Type} {RS : RandomSource R} {FS : FakerSource F}.

Lemma products_body_configured (i : Z) (products products' : list Product.t)
      (w w' : world R F) :
  products_body i products w = inr (products', w') ->
  exists p, products' = products ++ [p] /\ product_as_configured p.
Proof.
  unfold products_body. intros H.
  apply bind_inr in H. destruct H as (category & w1 & _ & H).
  apply bind_inr in H. destruct H as (base_names & w2 & Hget & H).
  apply lift_exn_inr in Hget. destruct Hget as (Hget & _).
  apply bind_inr in H. destruct H as (base_name & w3 & Hbase & H).
  apply choice_inr in Hbase.
  apply bind_inr in H. destruct H as (company_name & w4 & _ & H).
  apply bind_inr in H. destruct H as (brand & w5 & Hbrand & H).
  apply lift_exn_inr in Hbrand. destruct Hbrand as (Hbrand & _).
  apply split_first_word in Hbrand. destruct Hbrand as (Hne & Hns).
  apply bind_inr in H. destruct H as (mrp & w6 & _ & H).
  apply bind_inr in H. destruct H as (cost_price & w7 & _ & H).
  apply bind_inr in H. destruct H as (shelf_life_days & w8 & _ & H).
  apply ret_inr in H. destruct H as (-> & _).
  eexists. split; [reflexivity|].
  exists base_names, brand, base_name. cbn. auto.
Qed.

(** One iteration asks the Faker source for one company name and names the
    product after its first word. *)
Lemma products_body_composed (i : Z) (products products' : list Product.t)
      (w w' : world R F) :
  products_body i products w = inr (products', w') ->
  exists p,
    products' = products ++ [p]
    /\ product_of_company (fst (company (faker_state w))) p
    /\ faker_state w' = snd (company (faker_state w)).
Proof.
  unfold products_body. intros H.
  apply bind_inr in H. destruct H as (category & w1 & H1 & H).
  apply bind_inr in H. destruct H as (base_names & w2 & Hget & H).
  apply lift_exn_inr in Hget. destruct Hget as (Hget & ->).
  apply bind_inr in H. destruct H as (base_name & w3 & Hbase & H).
  apply bind_inr in H. destruct H as (company_name & w4 & Hcompany & H).
  apply bind_inr in H. destruct H as (brand & w5 & Hbrand & H).
  apply lift_exn_inr in Hbrand. destruct Hbrand as (Hbrand & ->).
  apply bind_inr in H. destruct H as (mrp & w6 & H6 & H).
  apply bind_inr in H. destruct H as (cost_price & w7 & H7 & H).
  apply bind_inr in H. destruct H as (shelf_life_days & w8 & H8 & H).
  apply ret_inr in H. destruct H as (-> & ->).
  assert (Hf3 : faker_state w3 = faker_state w).
  { unfold choice in H1, Hbase.
    destruct (keys categories) as [|k ks]; [discriminate H1|].
    destruct base_names as [|b bs]; [discriminate Hbase|].
    apply bind_inr in H1. destruct H1 as (j & u & Hj & H1).
    apply ret_inr in H1. destruct H1 as (_ & ->).
    apply bind_inr in Hbase. destruct Hbase as (j' & u' & Hj' & Hbase).
    apply ret_inr in Hbase. destruct Hbase as (_ & ->).
    unfold with_random in Hj, Hj'.
    destruct (randbelow _ (rand_state w)) as [x r] in Hj.
    injection Hj as _ <-.
    destruct (randbelow _ (rand_state _)) as [x' r'] in Hj'.
    injection Hj' as _ <-. reflexivity. }
  pose proof (choice_inr _ _ _ _ Hbase) as Hin.
  pose proof (with_faker_inr _ _ _ _ Hcompany) as Hname.
  assert (Hf4 : faker_state w4 = snd (company (faker_state w3))).
  { unfold with_faker in Hcompany.
    destruct (company (faker_state w3)) as [c f].
    now injection Hcompany as _ <-. }
  assert (Hrest : faker_state w8 = faker_state w4).
  { unfold uniform in H6, H7. unfold randint in H8.
    apply bind_inr in H6. destruct H6 as (u6 & v6 & Hu6 & H6).
    apply ret_inr in H6. destruct H6 as (_ & ->).
    apply bind_inr in H7. destruct H7 as (u7 & v7 & Hu7 & H7).
    apply ret_inr in H7. destruct H7 as (_ & ->).
    apply bind_inr in H8. destruct H8 as (u8 & v8 & Hu8 & H8).
    apply ret_inr in H8. destruct H8 as (_ & ->).
    unfold with_random in Hu6, Hu7, Hu8.
    destruct (random (rand_state w4)) as [a6 r6].
    injection Hu6 as _ <-.
    destruct (random _) as [a7 r7] in Hu7.
    injection Hu7 as _ <-.
    destruct (randbelow _ _) as [a8 r8] in Hu8.
    injection Hu8 as _ <-. reflexivity. }
  eexists. split; [reflexivity|]. split.
  - exists base_names, brand, base_name. cbn.
    split; [assumption|]. split; [assumption|]. split; [|reflexivity].
    now rewrite <- Hf3, <- Hname.
  - now rewrite Hrest, Hf4, Hf3.
Qed.

End CatalogFields.

(** * Any count of products *)

(** X13.  [generate_products] raises for no count: it returns as many
    products as [range(num_products)] has items, so none for a count that
    is not positive, and then it has drawn nothing from either source. *)
Theorem generate_products_any_count
        {R F : Type} {RS : RandomSource R} {FS : FakerSource F}
        (num_products : Z) (w : world R F) :
  exists products w',
    generate_products num_products w = inr (products, w')
    /\ List.length products = Z.to_nat num_products
    /\ (num_products <= 0 -> products = [] /\ w' = w).
Proof.
  destruct (products_loop_ok (range num_products) [] w)
    as (new & w' & Hrun & Hsnos & _).
  exists new, w'. split; [exact Hrun|]. split.
  - apply (f_equal (@List.length Z)) in Hsnos.
    rewrite !length_map in Hsnos. rewrite Hsnos.
    unfold range. now rewrite length_map, length_seq.
  - intros Hn. pose proof (generate_products_nonpositive num_products w Hn) as E.
    unfold generate_products in E. rewrite Hrun in E.
    injection E as -> ->. now split.
Qed.

(** * Ranges without a yielded date *)

(** X14.  When the calendar filter yields no date and does not raise (the
    end is before the start, or the range holds only Sundays and
    holidays), the transaction and the expense generator return no record
    and draw nothing; the transaction generator does so for every catalog,
    the empty one included. *)
Theorem nothing_without_yielded_dates
        {R F : Type} {RS : RandomSource R} {FS : FakerSource F}
        (start_date end_date : datetime) (products : list Product.t)
        (w : world R F) :
  generate_dates start_date end_date = ([], None) ->
  generate_transactions start_date end_date products w = inr ([], w)
  /\ generate_expenses start_date end_date w = inr ([], w).
Proof.
  intros H.
  unfold generate_transactions, generate_expenses, for_generated,
    yields_of, raised_by.
  rewrite H. split; reflexivity.
Qed.

Lemma nothing_without_yielded_dates_witness :
  generate_dates (datetime_ymd 2024 1 7) (datetime_ymd 2024 1 7) = ([], None)
  /\ generate_transactions (datetime_ymd 2024 1 7) (datetime_ymd 2024 1 7)
                           [] (scripted [3])
     = inr ([], scripted [3])
  /\ generate_expenses (datetime_ymd 2024 1 7) (datetime_ymd 2024 1 7)
                       (scripted [3])
     = inr ([], scripted [3]).
Proof.
  assert (H : generate_dates (datetime_ymd 2024 1 7) (datetime_ymd 2024 1 7)
              = ([], None)) by (vm_compute; reflexivity).
  split; [exact H|].
  exact (nothing_without_yielded_dates _ _ [] (scripted [3]) H).
Defined.

(** * The run of [main] *)

(** X15.  [main] raises with no source of randomness: it returns a catalog
    of 100 products, between 6392 and 9588 transactions (80 to 120 on each
    of the 76 business days of the first quarter of 2024, and 24 to 36 more
    on each of its 13 Saturdays) and 267 expenses (three on each business
    day, two more on each of 12 Mondays, five more on each of 3 first days
    of a month). *)
Theorem main_returns
        {R F : Type} {RS : RandomSource R} {FS : FakerSource F}
        (w : world R F) :
  exists products transactions expenses w',
    main w = inr ((products, transactions, expenses), w')
    /\ List.length products = 100%nat
    /\ 6392 <= Z.of_nat (List.length transactions) <= 9588
    /\ List.length expenses = 267%nat.
Proof.
  unfold main.
  destruct (products_loop_ok (range NUM_PRODUCTS) [] w)
    as (products & w1 & Hps & Hsnos & _).
  cbn [app] in Hps.
  assert (Hlen : List.length products = 100%nat).
  { apply (f_equal (@List.length Z)) in Hsnos.
    now rewrite !length_map in Hsnos. }
  assert (Hne : products <> []) by (intros ->; discriminate Hlen).
  assert (Hnone : raised_by (generate_dates (datetime_ymd 2024 1 1)
                                            (datetime_ymd 2024 3 31)) = None)
    by (vm_compute; reflexivity).
  destruct (generate_transactions_returns _ _ products w1 Hne Hnone)
    as (transactions & w2 & Hts).
  destruct (generate_expenses_returns _ _ w2 Hnone) as (expenses & w3 & Hes).
  exists products, transactions, expenses, w3.
  unfold generate_products.
  rewrite (bind_ok _ _ _ _ _ Hps), (bind_ok _ _ _ _ _ Hts),
    (bind_ok _ _ _ _ _ Hes).
  split; [reflexivity|]. split; [exact Hlen|].
  apply generate_transactions_length in Hts.
  apply generate_expenses_inr in Hes. destruct Hes as (_ & Hkeys & _).
  apply (f_equal (@List.length (string * string))) in Hkeys.
  rewrite length_map, expected_keys_length in Hkeys.
  assert (Hdays : List.length (yields_of (generate_dates
                                            (datetime_ymd 2024 1 1)
                                            (datetime_ymd 2024 3 31)))
                  = 76%nat) by (vm_compute; reflexivity).
  assert (Hsat : List.length (filter (fun d => (weekday d =? 5)%Z)
                                (yields_of (generate_dates
                                              (datetime_ymd 2024 1 1)
                                              (datetime_ymd 2024 3 31))))
                 = 13%nat) by (vm_compute; reflexivity).
  assert (Hmon : List.length (filter (fun d => (weekday d =? 0)%Z)
                                (business_days (datetime_ymd 2024 1 1)
                                               (datetime_ymd 2024 3 31)))
                 = 12%nat) by (vm_compute; reflexivity).
  assert (Hfirst : List.length (filter (fun d => (day d =? 1)%Z)
                                  (business_days (datetime_ymd 2024 1 1)
                                                 (datetime_ymd 2024 3 31)))
                   = 3%nat) by (vm_compute; reflexivity).
  assert (Hbdays : List.length (business_days (datetime_ymd 2024 1 1)
                                              (datetime_ymd 2024 3 31))
                   = 76%nat) by (vm_compute; reflexivity).
  rewrite Hdays, Hsat in Hts. rewrite Hmon, Hfirst, Hbdays in Hkeys.
  split; [lia | exact Hkeys].
Qed.

(** * Recording days in distinct months and weeks *)

(** X16.  Of the dates that [generate_dates] yields from a start in the
    calendar, those that are the first of a month lie in distinct months,
    and those that are Mondays lie in distinct weeks: a monthly category is
    recorded at most once a month, a weekly one at most once a week. *)
Theorem recording_days_in_distinct_periods (start_date end_date : datetime) :
  1 <= ordinal start_date ->
  NoDup (map (fun d => (year d, month d))
             (filter (fun d => day d =? 1)
                     (yields_of (generate_dates start_date end_date))))
  /\ NoDup (map (fun d => (ordinal d - 1) / 7)
                (filter (fun d => weekday d =? 0)
                        (yields_of (generate_dates start_date end_date)))).
Proof.
  intros Hstart. split.
  - now apply monthly_days_distinct_months.
  - apply weekly_days_distinct_weeks.
Qed.

Lemma recording_days_in_distinct_periods_witness :
  1 <= ordinal (datetime_ymd 2024 1 1)
  /\ NoDup (map (fun d => (year d, month d))
                (filter (fun d => day d =? 1)
                        (yields_of (generate_dates (datetime_ymd 2024 1 1)
                                                   (datetime_ymd 2024 3 31)))))
  /\ NoDup (map (fun d => (ordinal d - 1) / 7)
                (filter (fun d => weekday d =? 0)
                        (yields_of (generate_dates (datetime_ymd 2024 1 1)
                                                   (datetime_ymd 2024 3 31))))).
Proof.
  assert (H : 1 <= ordinal (datetime_ymd 2024 1 1))
    by (vm_compute; discriminate).
  split; [exact H|].
  exact (recording_days_in_distinct_periods _ (datetime_ymd 2024 3 31) H).
Defined.

(** * What the generators draw *)

Section Draws.

Context {R F : Type} {RS : RandomSource R} {FS : FakerSource F}.

Lemma with_random_world {A} (f : R -> A * R) (w w' : world R F) (a : A) :
  with_random f w = inr (a, w') ->
  w' = mk_world (snd (f (rand_state w))) (faker_state w).
Proof.
  unfold with_random. destruct (f (rand_state w)) as [x r].
  intros H. now injection H as _ <-.
Qed.

Lemma with_faker_world {A} (f : F -> A * F) (w w' : world R F) (a : A) :
  with_faker f w = inr (a, w') ->
  w' = mk_world (rand_state w) (snd (f (faker_state w))).
Proof.
  unfold with_faker. destruct (f (faker_state w)) as [x s].
  intros H. now injection H as _ <-.
Qed.

Lemma randint_faker (a b : Z) (w w' : world R F) (x : Z) :
  randint a b w = inr (x, w') -> faker_state w' = faker_state w.
Proof.
  unfold randint. intros H.
  apply bind_inr in H. destruct H as (i & w1 & Hi & H).
  apply ret_inr in H. destruct H as (_ & ->).
  apply with_random_world in Hi. now subst w1.
Qed.

Lemma uniform_world (a b : Q) (w w' : world R F) (x : Q) :
  uniform a b w = inr (x, w') ->
  w' = mk_world (snd (random (rand_state w))) (faker_state w).
Proof.
  unfold uniform. intros H.
  apply bind_inr in H. destruct H as (u & w1 & Hu & H).
  apply ret_inr in H. destruct H as (_ & ->).
  now apply with_random_world in Hu.
Qed.

Lemma choice_faker {A} (seq : list A) (w w' : world R F) (x : A) :
  choice seq w = inr (x, w') -> faker_state w' = faker_state w.
Proof.
  destruct seq as [|y l]; cbn [choice]; [discriminate|]. intros H.
  apply bind_inr in H. destruct H as (i & w1 & Hi & H).
  apply ret_inr in H. destruct H as (_ & ->).
  apply with_random_world in Hi. now subst w1.
Qed.

Lemma choices_first_faker {A} (population : list A) (weights : list Q)
      (w w' : world R F) (x : A) :
  choices_first population weights w = inr (x, w') ->
  faker_state w' = faker_state w.
Proof.
  destruct population as [|y l]; cbn [choices_first]; [discriminate|].
  intros H.
  apply bind_inr in H. destruct H as (u & w1 & Hu & H).
  apply ret_inr in H. destruct H as (_ & ->).
  apply with_random_world in Hu. now subst w1.
Qed.

(** An invariant of the loop-carried variables and the two sources. *)
Lemma for_each_world_invariant {A S} (P : S -> world R F -> Prop)
      (xs : list A) (body : A -> S -> M R F S) :
  (forall x s w s' w', P s w -> body x s w = inr (s', w') -> P s' w') ->
  forall s w s' w', P s w -> for_each xs body s w = inr (s', w') -> P s' w'.
Proof.
  intros Hbody. induction xs as [|x xs IH]; intros s w s' w' Hs H; cbn in H.
  - apply ret_inr in H. destruct H as (-> & ->). exact Hs.
  - apply bind_inr in H. destruct H as (s1 & w1 & H1 & H).
    apply (IH s1 w1 s' w'); [|assumption]. eapply Hbody; eauto.
Qed.

Lemma for_generated_world {A S} (g : generated A) (body : A -> S -> M R F S)
      (s s' : S) (w w' : world R F) :
  for_generated g body s w = inr (s', w') ->
  for_each (yields_of g) body s w = inr (s', w').
Proof.
  intros H. now apply for_generated_inr in H.
Qed.

Lemma iter_snoc {A B} (f : B -> B) (l : list A) (x : A) (b : B) :
  Nat.iter (List.length (l ++ [x])) f b = f (Nat.iter (List.length l) f b).
Proof. rewrite length_app, Nat.add_comm. reflexivity. Qed.

Lemma products_body_faker (i : Z) (products products' : list Product.t)
      (w w' : world R F) :
  products_body i products w = inr (products', w') ->
  List.length products' = S (List.length products)
  /\ faker_state w' = snd (company (faker_state w)).
Proof.
  unfold products_body. intros H.
  apply bind_inr in H. destruct H as (category & w1 & H1 & H).
  apply choice_faker in H1.
  apply bind_inr in H. destruct H as (base_names & w2 & H2 & H).
  apply lift_exn_inr in H2. destruct H2 as (_ & ->).
  apply bind_inr in H. destruct H as (base_name & w3 & H3 & H).
  apply choice_faker in H3.
  apply bind_inr in H. destruct H as (company_name & w4 & H4 & H).
  apply with_faker_world in H4.
  apply bind_inr in H. destruct H as (brand & w5 & H5 & H).
  apply lift_exn_inr in H5. destruct H5 as (_ & ->).
  apply bind_inr in H. destruct H as (mrp & w6 & H6 & H).
  apply uniform_world in H6.
  apply bind_inr in H. destruct H as (cost_price & w7 & H7 & H).
  apply uniform_world in H7.
  apply bind_inr in H. destruct H as (shelf_life_days & w8 & H8 & H).
  apply randint_faker in H8.
  apply ret_inr in H. destruct H as (-> & ->).
  split; [rewrite length_app, Nat.add_comm; reflexivity|].
  rewrite H8. subst w7 w6 w4. cbn [faker_state]. now rewrite H3, H1.
Qed.

Lemma transaction_body_faker (date : datetime) (products : list Product.t)
      (i : Z) (st st' : list Transaction.t * Z) (w w' : world R F) :
  transaction_body date products i st w = inr (st', w') ->
  List.length (fst st') = S (List.length (fst st))
  /\ faker_state w' = snd (time_object (faker_state w)).
Proof.
  destruct st as [transactions sno]. unfold transaction_body. intros H.
  apply bind_inr in H. destruct H as (names & w0 & H0 & H).
  apply lift_exn_inr in H0. destruct H0 as (_ & ->).
  apply bind_inr in H. destruct H as (product & w1 & H1 & H).
  apply choice_faker in H1.
  apply bind_inr in H. destruct H as (p & w2 & H2 & H).
  apply lift_exn_inr in H2. destruct H2 as (_ & ->).
  apply bind_inr in H. destruct H as (qty & w3 & H3 & H).
  apply randint_faker in H3.
  apply bind_inr in H. destruct H as (discount & w4 & H4 & H).
  apply choice_faker in H4.
  apply bind_inr in H. destruct H as (t & w5 & H5 & H).
  apply with_faker_world in H5.
  apply bind_inr in H. destruct H as (payment_mode & w6 & H6 & H).
  apply choice_faker in H6.
  apply bind_inr in H. destruct H as (transaction_type & w7 & H7 & H).
  apply choices_first_faker in H7.
  apply ret_inr in H. destruct H as (-> & ->). cbn [fst].
  split; [rewrite length_app, Nat.add_comm; reflexivity|].
  rewrite H7, H6. subst w5. cbn [faker_state]. now rewrite H4, H3, H1.
Qed.

Lemma category_body_world (date : datetime) (item : string * details)
      (st st' : list Expense.t * Z) (w w' : world R F) :
  category_body date item st w = inr (st', w') ->
  (List.length (fst st') = S (List.length (fst st))
   /\ w' = mk_world (snd (random (rand_state w))) (faker_state w))
  \/ (st' = st /\ w' = w).
Proof.
  destruct st as [expenses sno], item as [category det].
  unfold category_body.
  destruct (should_record (frequency det) (day date) (weekday date)).
  - destruct (amount det) as [min_amount max_amount]. intros H.
    apply bind_inr in H. destruct H as (a & w1 & Ha & H).
    apply uniform_world in Ha.
    apply ret_inr in H. destruct H as (-> & ->). left. cbn [fst].
    split; [rewrite length_app, Nat.add_comm; reflexivity | assumption].
  - intros H. apply ret_inr in H. destruct H as (-> & ->). now right.
Qed.

End Draws.

(** X17.  The catalog generator consults the Faker source exactly once for
    every product (its company name): after a run the state of the source
    is the initial one, stepped once per product returned. *)
Theorem products_consult_faker_once
        {R F : Type} {RS : RandomSource R} {FS : FakerSource F}
        (num_products : Z) (products : list Product.t) (w w' : world R F) :
  generate_products num_products w = inr (products, w') ->
  faker_state w'
  = Nat.iter (List.length products) (fun s => snd (company s)) (faker_state w).
Proof.
  unfold generate_products.
  apply (for_each_world_invariant
           (fun ps v => faker_state v
                        = Nat.iter (List.length ps)
                                   (fun s => snd (company s))
                                   (faker_state w))); [|reflexivity].
  intros i s v s' v' Hs H. apply products_body_faker in H.
  destruct H as (-> & ->). cbn [Nat.iter]. now rewrite Hs.
Qed.

Lemma products_consult_faker_once_witness :
  exists products w',
    generate_products 3 (scripted []) = inr (products, w')
    /\ List.length products = 3%nat
    /\ faker_state w'
       = Nat.iter (List.length products) (fun s => snd (company s))
                  (faker_state (scripted [])).
Proof.
  remember (generate_products 3 (scripted [])) as r eqn:E.
  assert (Hok : succeeded r = true) by by_running E.
  assert (Hlen : List.length (result_or [] r) = 3%nat) by by_running E.
  destruct r as [x|[products w2]]; [discriminate Hok|].
  cbn [result_or] in Hlen.
  exists products, w2. split; [reflexivity|]. split; [exact Hlen|].
  exact (products_consult_faker_once _ _ _ _ (eq_sym E)).
Defined.

(** X18.  The transaction generator consults the Faker source exactly once
    for every transaction (its time): after a run the state of the source
    is the initial one, stepped once per transaction returned. *)
Theorem transactions_consult_faker_once
        {R F : Type} {RS : RandomSource R} {FS : FakerSource F}
        (start_date end_date : datetime) (products : list Product.t)
        (transactions : list Transaction.t) (w w' : world R F) :
  generate_transactions start_date end_date products w
  = inr (transactions, w') ->
  faker_state w'
  = Nat.iter (List.length transactions) (fun s => snd (time_object s))
             (faker_state w).
Proof.
  unfold generate_transactions. intros H.
  apply bind_inr in H. destruct H as (st & w1 & Hloop & H).
  apply ret_inr in H. destruct H as (-> & ->).
  apply for_generated_world in Hloop. revert Hloop.
  apply (for_each_world_invariant
           (fun (st : list Transaction.t * Z) v =>
              faker_state v
              = Nat.iter (List.length (fst st))
                         (fun s => snd (time_object s))
                         (faker_state w))); [|reflexivity].
  intros date s v s' v' Hs Hday. unfold day_body in Hday.
  apply bind_inr in Hday. destruct Hday as (base & v1 & Hbase & Hday).
  apply randint_faker in Hbase. rewrite <- Hbase in Hs. revert Hday.
  apply (for_each_world_invariant
           (fun (st : list Transaction.t * Z) v =>
              faker_state v
              = Nat.iter (List.length (fst st))
                         (fun s => snd (time_object s))
                         (faker_state w))); [|assumption].
  intros i t u t' u' Ht Hi. apply transaction_body_faker in Hi.
  destruct Hi as (-> & ->). cbn [Nat.iter]. now rewrite Ht.
Qed.

Lemma transactions_consult_faker_once_witness :
  exists transactions w',
    generate_transactions (datetime_ymd 2024 1 1) (datetime_ymd 2024 1 1)
                          sample_catalog (scripted [])
    = inr (transactions, w')
    /\ List.length transactions = 80%nat
    /\ faker_state w'
       = Nat.iter (List.length transactions) (fun s => snd (time_object s))
                  (faker_state (scripted [])).
Proof.
  remember (generate_transactions (datetime_ymd 2024 1 1) (datetime_ymd 2024 1 1)
                                  sample_catalog (scripted [])) as r eqn:E.
  assert (Hok : succeeded r = true) by by_running E.
  assert (Hlen : List.length (result_or [] r) = 80%nat) by by_running E.
  destruct r as [x|[transactions w2]]; [discriminate Hok|].
  cbn [result_or] in Hlen.
  exists transactions, w2. split; [reflexivity|]. split; [exact Hlen|].
  exact (transactions_consult_faker_once _ _ _ _ _ _ (eq_sym E)).
Defined.

(** X19.  The expense generator never consults the Faker source, and it
    calls [random()] exactly once for every record: after a run the state
    of [random] is the initial one, stepped once per record returned. *)
Theorem expenses_draw_once_per_record
        {R F : Type} {RS : RandomSource R} {FS : FakerSource F}
        (start_date end_date : datetime) (expenses : list Expense.t)
        (w w' : world R F) :
  generate_expenses start_date end_date w = inr (expenses, w') ->
  faker_state w' = faker_state w
  /\ rand_state w'
     = Nat.iter (List.length expenses) (fun s => snd (random s))
                (rand_state w).
Proof.
  unfold generate_expenses. intros H.
  apply bind_inr in H. destruct H as (st & w1 & Hloop & H).
  apply ret_inr in H. destruct H as (-> & ->).
  apply for_generated_world in Hloop. revert Hloop.
  apply (for_each_world_invariant
           (fun (st : list Expense.t * Z) v =>
              faker_state v = faker_state w
              /\ rand_state v
                 = Nat.iter (List.length (fst st)) (fun s => snd (random s))
                            (rand_state w))); [|now split].
  intros date s v s' v' Hs.
  apply (for_each_world_invariant
           (fun (st : list Expense.t * Z) v =>
              faker_state v = faker_state w
              /\ rand_state v
                 = Nat.iter (List.length (fst st)) (fun s => snd (random s))
                            (rand_state w))); [|assumption].
  intros item t u t' u' [Hf Hr] Hi. apply category_body_world in Hi.
  destruct Hi as [(-> & ->)|(-> & ->)]; [|now split].
  cbn [faker_state rand_state Nat.iter]. now rewrite Hr.
Qed.

Lemma expenses_draw_once_per_record_witness :
  exists expenses w',
    generate_expenses (datetime_ymd 2024 3 29) (datetime_ymd 2024 4 1)
                      (scripted [1; 2; 3])
    = inr (expenses, w')
    /\ List.length expenses = 16%nat
    /\ faker_state w' = faker_state (scripted [1; 2; 3])
    /\ rand_state w'
       = Nat.iter (List.length expenses) (fun s => snd (random s))
                  (rand_state (scripted [1; 2; 3])).
Proof.
  remember (generate_expenses (datetime_ymd 2024 3 29) (datetime_ymd 2024 4 1)
                              (scripted [1; 2; 3])) as r eqn:E.
  assert (Hok : succeeded r = true) by by_running E.
  assert (Hlen : List.length (result_or [] r) = 16%nat) by by_running E.
  destruct r as [x|[expenses w2]]; [discriminate Hok|].
  cbn [result_or] in Hlen.
  exists expenses, w2. split; [reflexivity|]. split; [exact Hlen|].
  exact (expenses_draw_once_per_record _ _ _ _ _ (eq_sym E)).
Defined.

(** * Catalogs with a name more than once *)

(** X20.  The lookup of a product by its name finds the first catalog entry
    of that name: an entry that no earlier entry shares its name with is
    found under its name, whatever follows it, so that an entry behind
    another of the same name is never used. *)
Theorem first_match_is_first_entry
        (before after : list Product.t) (p : Product.t) :
  Forall (fun q => Product.product_name q <> Product.product_name p) before ->
  first_match (before ++ p :: after) (Product.product_name p) = inr p.
Proof.
  intros Hbefore. unfold first_match.
  assert (Hcol : product_name_column (before ++ p :: after)
                 = inr (map Product.product_name (before ++ p :: after)))
    by (destruct before; reflexivity).
  rewrite Hcol. clear Hcol.
  induction Hbefore as [|q before Hq _ IH]; cbn [app find].
  - now rewrite String.eqb_refl.
  - apply String.eqb_neq in Hq. now rewrite Hq.
Qed.

Lemma first_match_is_first_entry_witness :
  first_match
    ([ Product.mk 1 "Gupta Tea" "Beverages" (120 # 1) (80 # 1) 365 ]
     ++ Product.mk 2 "Sharma Rice" "Staples" (1049 # 100) (750 # 100) 90
     :: [ Product.mk 3 "Sharma Rice" "Staples" (55 # 1) (40 # 1) 180 ])
    "Sharma Rice"
  = inr (Product.mk 2 "Sharma Rice" "Staples" (1049 # 100) (750 # 100) 90).
Proof.
  apply (first_match_is_first_entry
           [ Product.mk 1 "Gupta Tea" "Beverages" (120 # 1) (80 # 1) 365 ]
           [ Product.mk 3 "Sharma Rice" "Staples" (55 # 1) (40 # 1) 180 ]
           (Product.mk 2 "Sharma Rice" "Staples" (1049 # 100) (750 # 100) 90)).
  constructor; [discriminate | constructor].
Defined.

(** * The brand of a product *)

Lemma map_seq_snoc {B} (f : nat -> B) (n : nat) :
  map f (seq 0 (S n)) = map f (seq 0 n) ++ [f n].
Proof. now rewrite seq_S, map_app. Qed.

(** X12.  Every product of the catalog has a category of the category
    table and, as name, a brand word, one space and a base item of that
    category.  The brand of the [i]-th product (from 0) is the first word
    of the [i]-th company name that the Faker source gives; it is not
    empty and has no whitespace. *)
Theorem products_as_configured
        {R F : Type} {RS : RandomSource R} {FS : FakerSource F}
        (num_products : Z) (products : list Product.t) (w w' : world R F) :
  generate_products num_products w = inr (products, w') ->
  Forall2 product_of_company
          (map (fun i => fst (company
                                (Nat.iter i (fun s => snd (company s))
                                          (faker_state w))))
               (seq 0 (List.length products)))
          products
  /\ Forall product_as_configured products.
Proof.
  unfold generate_products. intros H. split.
  - set (drawn := fun i => fst (company
                                  (Nat.iter i (fun s => snd (company s))
                                            (faker_state w)))).
    set (P := fun (ps : list Product.t) (v : world R F) =>
                faker_state v
                = Nat.iter (List.length ps) (fun s => snd (company s))
                           (faker_state w)
                /\ Forall2 product_of_company
                           (map drawn (seq 0 (List.length ps))) ps).
    enough (HP : P products w') by exact (proj2 HP).
    revert H. apply (for_each_world_invariant P); [|split; [reflexivity|constructor]].
    intros i ps v ps' v' [Hf Hall] Hi.
    apply products_body_composed in Hi.
    destruct Hi as (p & -> & Hp & Hstep). unfold P. split.
    + rewrite Hstep, iter_snoc. now rewrite Hf.
    + rewrite length_app, Nat.add_comm. cbn [List.length Nat.add].
      rewrite map_seq_snoc.
      apply Forall2_app; [assumption|].
      constructor; [|constructor]. unfold drawn. now rewrite <- Hf.
  - revert H.
    apply (for_each_invariant (Forall product_as_configured)); [|constructor].
    intros i s v s' v' _ Hs H.
    apply products_body_configured in H. destruct H as (p & -> & Hp).
    apply Forall_app. split; [assumption|].
    constructor; [assumption | constructor].
Qed.

Lemma products_as_configured_witness :
  exists products,
    map Product.category products = ["Staples"; "Snacks"; "Groceries"]%string
    /\ map Product.product_name products
       = ["Sharma Rice"; "Patel Chips"; "Gupta Pulses"]%string
    /\ Forall2 product_of_company
               (map (fun i => fst (company
                                     (Nat.iter i (fun s => snd (company s))
                                               (faker_state
                                                  (scripted [0; 0; 0; 0; 0;
                                                             1; 1; 0; 0; 0;
                                                             4; 2; 0; 0; 0])))))
                    (seq 0 (List.length products)))
               products
    /\ Forall product_as_configured products.
Proof.
  remember (generate_products 3 (scripted [0; 0; 0; 0; 0; 1; 1; 0; 0; 0;
                                            4; 2; 0; 0; 0]))
    as r eqn:E.
  assert (Hok : succeeded r = true) by by_running E.
  assert (Hcat : map Product.category (result_or [] r)
                 = ["Staples"; "Snacks"; "Groceries"]%string) by by_running E.
  assert (Hname : map Product.product_name (result_or [] r)
                  = ["Sharma Rice"; "Patel Chips"; "Gupta Pulses"]%string)
    by by_running E.
  destruct r as [x|[products w2]]; [discriminate Hok|].
  cbn [result_or] in Hcat, Hname.
  exists products. split; [exact Hcat|]. split; [exact Hname|].
  exact (products_as_configured _ _ _ _ (eq_sym E)).
Defined.

(** * The times of the transactions *)

(** X21.  The time of the [i]-th transaction (from 0) is the [i]-th time
    object of the Faker source, printed as hours and minutes: the times
    are taken as they come, and [OPERATING_HOURS] does not restrict them. *)
Theorem transaction_times_as_drawn
        {R F : Type} {RS : RandomSource R} {FS : FakerSource F}
        (start_date end_date : datetime) (products : list Product.t)
        (transactions : list Transaction.t) (w w' : world R F) :
  generate_transactions start_date end_date products w
  = inr (transactions, w') ->
  map Transaction.time transactions
  = map (fun i => strftime_HM
                    (fst (time_object
                            (Nat.iter i (fun s => snd (time_object s))
                                      (faker_state w)))))
        (seq 0 (List.length transactions)).
Proof.
  unfold generate_transactions. intros H.
  apply bind_inr in H. destruct H as (st & w1 & Hloop & H).
  apply ret_inr in H. destruct H as (-> & ->).
  apply for_generated_world in Hloop.
  set (drawn := fun i => strftime_HM
                           (fst (time_object
                                   (Nat.iter i (fun s => snd (time_object s))
                                             (faker_state w))))).
  set (P := fun (st : list Transaction.t * Z) (v : world R F) =>
              faker_state v
              = Nat.iter (List.length (fst st))
                         (fun s => snd (time_object s)) (faker_state w)
              /\ map Transaction.time (fst st)
                 = map drawn (seq 0 (List.length (fst st)))).
  enough (HP : P st w1) by exact (proj2 HP).
  revert Hloop. apply (for_each_world_invariant P); [|now split].
  intros date s v s' v' Hs Hday. unfold day_body in Hday.
  apply bind_inr in Hday. destruct Hday as (base & v1 & Hbase & Hday).
  apply randint_faker in Hbase.
  assert (Hs1 : P s v1) by (destruct Hs; split; [congruence | assumption]).
  revert Hday. apply (for_each_world_invariant P); [|assumption].
  intros i [ts sno] u t' u' [Hf Ht] Hi. cbn [fst] in Hf, Ht.
  pose proof (transaction_body_faker _ _ _ _ _ _ _ Hi) as (Hlen & Hfaker).
  unfold transaction_body in Hi.
  apply bind_inr in Hi. destruct Hi as (names & u0 & H0 & Hi).
  apply lift_exn_inr in H0. destruct H0 as (_ & ->).
  apply bind_inr in Hi. destruct Hi as (product & u1 & H1 & Hi).
  apply choice_faker in H1.
  apply bind_inr in Hi. destruct Hi as (p & u2 & H2 & Hi).
  apply lift_exn_inr in H2. destruct H2 as (_ & ->).
  apply bind_inr in Hi. destruct Hi as (qty & u3 & H3 & Hi).
  apply randint_faker in H3.
  apply bind_inr in Hi. destruct Hi as (discount & u4 & H4 & Hi).
  apply choice_faker in H4.
  apply bind_inr in Hi. destruct Hi as (tm & u5 & H5 & Hi).
  apply with_faker_inr in H5.
  apply bind_inr in Hi. destruct Hi as (payment_mode & u6 & _ & Hi).
  apply bind_inr in Hi. destruct Hi as (transaction_type & u7 & _ & Hi).
  apply ret_inr in Hi. destruct Hi as (-> & ->).
  unfold P. cbn [fst] in *. split.
  - rewrite Hfaker, Hlen. cbn [Nat.iter]. now rewrite Hf.
  - rewrite Hlen, map_seq_snoc, map_app, Ht. cbn [map Transaction.time].
    do 2 f_equal. unfold drawn. rewrite <- Hf, H5. do 3 f_equal.
    now rewrite H4, H3, H1.
Qed.

Lemma transaction_times_as_drawn_witness :
  exists transactions w',
    generate_transactions (datetime_ymd 2024 1 1) (datetime_ymd 2024 1 1)
                          sample_catalog (scripted [])
    = inr (transactions, w')
    /\ List.length transactions = 80%nat
    /\ map Transaction.time transactions
       = map (fun i => strftime_HM
                         (fst (time_object
                                 (Nat.iter i (fun s => snd (time_object s))
                                           (faker_state (scripted []))))))
             (seq 0 (List.length transactions)).
Proof.
  remember (generate_transactions (datetime_ymd 2024 1 1) (datetime_ymd 2024 1 1)
                                  sample_catalog (scripted [])) as r eqn:E.
  assert (Hok : succeeded r = true) by by_running E.
  assert (Hlen : List.length (result_or [] r) = 80%nat) by by_running E.
  destruct r as [x|[transactions w2]]; [discriminate Hok|].
  cbn [result_or] in Hlen.
  exists transactions, w2. split; [reflexivity|]. split; [exact Hlen|].
  exact (transaction_times_as_drawn _ _ _ _ _ _ (eq_sym E)).
Defined.
